(** * The datatip manager of nuclide, embedded in Rocq

    Source: [DatatipManager] and [DatatipManagerForEditor] (the second
    document of [pkg/nuclide-devices/lib/ui/RootPanel.js]).  The file follows
    the source top-down: the helpers ([getProviderName],
    [filterProvidersByScopeName], [getBufferPosition],
    [getTopDatatipAndProvider], [ensurePositiveNumber]), the per-editor
    session with one function per method or event subscription, and the
    top-level manager.  JavaScript effects are made explicit: the logger and
    the analytics calls are collected in a trace, the session object is a
    record threaded through every handler, and the [await] in
    [_startFetching] splits the method in the part before and the part after
    the suspension.  The manager and its sessions hold the same two provider
    arrays: each session has them as fields, and a push of the manager
    writes the field of every session. *)

From Stdlib Require Import ZArith List Bool Lia.
From Stdlib Require Import SpecFloat Sorted.
From stdpp Require Import base gmap strings list.

Open Scope Z_scope.

(** ** Host values *)

Module Host.

(** [atom$Point]: a (row, column) pair, ordered lexicographically. *)
Record Point := mkPoint { row : Z; column : Z }.

#[export] Instance Point_eq_dec : EqDecision Point.
Proof. solve_decision. Defined.

Definition isEqual (p q : Point) : bool :=
  (row p =? row q) && (column p =? column q).

Definition isLessThanOrEqual (p q : Point) : bool :=
  (row p <? row q) || ((row p =? row q) && (column p <=? column q)).

(** [atom$Range]; [containsPoint] is the host's inclusive test. *)
Record Range := mkRange { range_start : Point; range_end : Point }.

#[export] Instance Range_eq_dec : EqDecision Range.
Proof. solve_decision. Defined.

Definition containsPoint (r : Range) (p : Point) : bool :=
  isLessThanOrEqual (range_start r) p && isLessThanOrEqual p (range_end r).

Record Pixel := mkPixel { left : Z; top : Z }.

Inductive ModifierKey := META | SHIFT | ALT | CTRL.

#[export] Instance ModifierKey_eq_dec : EqDecision ModifierKey.
Proof. solve_decision. Defined.

Definition ModifierKey_to_nat (k : ModifierKey) : nat :=
  match k with META => 0 | SHIFT => 1 | ALT => 2 | CTRL => 3 end%nat.

Definition ModifierKey_of_nat (n : nat) : option ModifierKey :=
  match n with
  | 0 => Some META | 1 => Some SHIFT | 2 => Some ALT | 3 => Some CTRL
  | _ => None
  end%nat.

#[export] Instance ModifierKey_countable : Countable ModifierKey.
Proof.
  apply (inj_countable ModifierKey_to_nat ModifierKey_of_nat).
  intros []; reflexivity.
Defined.

(** A mouse event: the pointer coordinates and the modifier flags. *)
Record MouseEvent := mkMouseEvent {
  clientX : Z;
  clientY : Z;
  metaKey : bool;
  shiftKey : bool;
  altKey : bool;
  ctrlKey : bool
}.

(** A keyboard event, reduced to what the session reads from it: the
    modifier key it stands for, if any. *)
Record KeyboardEvent := mkKeyboardEvent { modifierOf : option ModifierKey }.

(** [editorView.component]. *)
Record TextComponent := mkTextComponent {
  screenPositionForMouseEvent : MouseEvent -> Point;
  pixelPositionForMouseEvent : MouseEvent -> Pixel;
  pixelPositionForScreenPosition : Point -> Pixel
}.

(** What a handler can ask the editor, its view and the workspace at the
    moment it runs. *)
Record Editor := mkEditor {
  scopeName : string;
  component : option TextComponent;
  getDefaultCharWidth : Z;
  bufferPositionForScreenPosition : Point -> Point;
  getCursorBufferPosition : Point;
  getCursorScreenPosition : Point;
  isActiveTextEditor : bool
}.

(** A JavaScript value as [featureConfig.get] may return it; numbers are
    IEEE 754 doubles. *)
Inductive JSValue :=
| JSUndefined
| JSNull
| JSBoolean (b : bool)
| JSString (s : string)
| JSNumber (x : spec_float)
| JSObject.

Definition typeof (v : JSValue) : string :=
  match v with
  | JSUndefined => "undefined"
  | JSNull => "object"
  | JSBoolean _ => "boolean"
  | JSString _ => "string"
  | JSNumber _ => "number"
  | JSObject => "object"
  end.

Definition SFzero : spec_float := S754_zero false.

(** [x + y] and [Math.abs(x)] on JS numbers: binary64, round to nearest
    even. *)
Definition js_add (x y : spec_float) : spec_float := SFadd 53 1024 x y.

Definition Math_abs (x : spec_float) : spec_float := SFabs x.

(** The double 1000 (mantissa 1000 * 2^43, exponent -43). *)
Definition SF1000 : spec_float := S754_finite false 8796093022208000 (-43).

End Host.

Import Host.

(** ** Datatips and providers *)

Definition Error := string.

Record Datatip := mkDatatip {
  payload : string;
  range : option Range;
  pinnable : option bool
}.

(** How a call that returns a promise ends: the promise resolves, the
    promise rejects, or the call itself throws before returning one. *)
Inductive Settled (A : Type) :=
| Resolved (a : A)
| Rejected (e : Error)
| Threw (e : Error).
Arguments Resolved {A} a.
Arguments Rejected {A} e.
Arguments Threw {A} e.

(** The interface [AnyDatatipProvider]. *)
Class AnyDatatipProvider (T : Type) := {
  providerName : T -> option string;
  inclusionPriority : T -> Z;
  validForScope : T -> string -> bool
}.

Record DatatipProvider := mkDatatipProvider {
  dp_providerName : option string;
  dp_inclusionPriority : Z;
  dp_validForScope : string -> bool;
  datatip : Editor -> Point -> Settled (option Datatip)
}.

Record ModifierDatatipProvider := mkModifierDatatipProvider {
  mp_providerName : option string;
  mp_inclusionPriority : Z;
  mp_validForScope : string -> bool;
  modifierDatatip :
    Editor -> Point -> gset ModifierKey -> Settled (option Datatip)
}.

#[export] Instance DatatipProvider_any : AnyDatatipProvider DatatipProvider :=
  {| providerName := dp_providerName;
     inclusionPriority := dp_inclusionPriority;
     validForScope := dp_validForScope |}.

#[export] Instance ModifierDatatipProvider_any :
  AnyDatatipProvider ModifierDatatipProvider :=
  {| providerName := mp_providerName;
     inclusionPriority := mp_inclusionPriority;
     validForScope := mp_validForScope |}.

(** ** Effects: the logger and the analytics calls *)

Inductive Effect :=
| LoggerError (message : string)
| TimingTrackerNew (eventName : string)
| Invoke (name : string)
| TimingOnSuccess (eventName : string)
| TimingOnError (eventName : string) (e : Error)
| Track (eventName : string).

#[export] Instance Effect_eq_dec : EqDecision Effect.
Proof. solve_decision. Defined.

(** A computation that returns [A] and appends to the trace. *)
Definition Traced (A : Type) : Type := A * list Effect.

Definition ret {A} (a : A) : Traced A := (a, []).

Definition bind {A B} (m : Traced A) (k : A -> Traced B) : Traced B :=
  let '(a, t1) := m in
  let '(b, t2) := k a in
  (b, t1 ++ t2).

Definition tell (e : Effect) : Traced unit := (tt, [e]).

Notation "x <- m ;; k" := (bind m (fun x => k))
  (at level 100, m at next level, right associativity).
Notation "m ;;; k" := (bind m (fun _ => k))
  (at level 100, right associativity).

(** ** Module-level constants and helpers *)

(** The number 20. *)
Definition CUMULATIVE_WHEELX_THRESHOLD : spec_float :=
  S754_finite false 5629499534213120 (-48).
Definition DEFAULT_DATATIP_DEBOUNCE_DELAY : spec_float := SF1000.
Definition DEFAULT_DATATIP_INTERACTED_DEBOUNCE_DELAY : spec_float := SF1000.

Section Providers.
Context {T : Type} `{AnyDatatipProvider T}.

Definition getProviderName (provider : T) : Traced string :=
  match providerName provider with
  | None =>
      tell (LoggerError "Datatip provider has no name") ;;;
      ret "unknown"
  | Some name => ret name
  end.

(** The comparator handed to [sort]. *)
Definition byInclusionPriority (providerA providerB : T) : Z :=
  inclusionPriority providerB - inclusionPriority providerA.

(** [Array.prototype.sort] with a comparator, as a stable insertion
    sort: an element goes in front of the first one it does not have to
    follow. *)
Fixpoint sort_insert (cmp : T -> T -> Z) (x : T) (l : list T) : list T :=
  match l with
  | [] => [x]
  | y :: l' =>
      if cmp x y <=? 0 then x :: y :: l' else y :: sort_insert cmp x l'
  end.

Definition sort (cmp : T -> T -> Z) (l : list T) : list T :=
  foldr (sort_insert cmp) [] l.

Definition filterProvidersByScopeName
    (providers : list T) (scope : string) : list T :=
  sort byInclusionPriority
    (List.filter
       (fun provider =>
          (0 <? inclusionPriority provider) && validForScope provider scope)
       providers).

(** Modelled from the spec: [asyncFind] of nuclide-commons/promise is not
    among the sources; the spec describes it as an early-exit "find first
    truthy" combinator that awaits the items in their original order. *)
Fixpoint asyncFind {A U} (items : list A) (test : A -> option U) : option U :=
  match items with
  | [] => None
  | item :: rest =>
      match test item with
      | Some result => Some result
      | None => asyncFind rest test
      end
  end.

(** The body of the async arrow function mapped over the providers. *)
Definition datatipPromise
    (invoke : T -> Settled (option Datatip)) (provider : T)
  : Traced (option (T * Datatip)) :=
  name <- getProviderName provider ;;
  tell (TimingTrackerNew (name ++ ".datatip")) ;;;
  tell (Invoke name) ;;;
  match invoke provider with
  | Resolved None => ret None
  | Resolved (Some datatip) =>
      tell (TimingOnSuccess (name ++ ".datatip")) ;;;
      ret (Some (provider, datatip))
  | Rejected e | Threw e =>
      tell (TimingOnError (name ++ ".datatip") e) ;;;
      tell (LoggerError ("Error getting datatip from provider " ++ name)) ;;;
      ret None
  end.

(** [providers.map(async provider => ...)]: every body runs; the trace
    lists the effects provider by provider. *)
Fixpoint mapTraced {A B} (f : A -> Traced B) (l : list A) : Traced (list B) :=
  match l with
  | [] => ret []
  | a :: l' =>
      b <- f a ;;
      bs <- mapTraced f l' ;;
      ret (b :: bs)
  end.

Definition getTopDatatipAndProvider
    (providers : list T) (editor : Editor) (position : Point)
    (invoke : T -> Settled (option Datatip))
  : Traced (option (T * Datatip)) :=
  let filteredDatatipProviders :=
    filterProvidersByScopeName providers (scopeName editor) in
  if (length filteredDatatipProviders =? 0)%nat then ret None
  else
    datatipPromises <- mapTraced (datatipPromise invoke) providers ;;
    ret (asyncFind datatipPromises (fun p => p)).

(** What one provider contributes to a race: its datatip when its
    invocation resolves to one. *)
Definition resolvesTo
    (invoke : T -> Settled (option Datatip)) (provider : T)
  : option (T * Datatip) :=
  match invoke provider with
  | Resolved (Some datatip) => Some (provider, datatip)
  | _ => None
  end.

(** The race as the spec words it: the first provider, in descending
    priority order over the applicable ones, that resolves to a datatip. *)
Definition spec_race
    (providers : list T) (editor : Editor)
    (invoke : T -> Settled (option Datatip)) : option (T * Datatip) :=
  asyncFind (filterProvidersByScopeName providers (scopeName editor))
    (resolvesTo invoke).

End Providers.

Definition getBufferPosition
    (editor : Editor) (event : option MouseEvent) : option Point :=
  match event with
  | None => None
  | Some event =>
      match component editor with
      | None => None
      | Some text =>
          let screenPosition := screenPositionForMouseEvent text event in
          let pixelPosition := pixelPositionForMouseEvent text event in
          let pixelPositionFromScreenPosition :=
            pixelPositionForScreenPosition text screenPosition in
          let horizontalDistance :=
            left pixelPosition - left pixelPositionFromScreenPosition in
          if (left pixelPosition <? 0)
             || (getDefaultCharWidth editor <? horizontalDistance)
          then None
          else Some (bufferPositionForScreenPosition editor screenPosition)
      end
  end.

Definition ensurePositiveNumber
    (value : JSValue) (defaultValue : spec_float) : spec_float :=
  match value with
  | JSNumber x => if SFltb x SFzero then defaultValue else x
  | _ => defaultValue
  end.

(** ** The per-editor session, [DatatipManagerForEditor] *)

Inductive State := HIDDEN | FETCHING | VISIBLE.

#[export] Instance State_eq_dec : EqDecision State.
Proof. solve_decision. Defined.

(** Either kind of provider, as the entries of [datatipsAndProviders] mix
    them. *)
Inductive AnyProvider :=
| Plain (provider : DatatipProvider)
| Modifier (provider : ModifierDatatipProvider).

#[export] Instance AnyProvider_any : AnyDatatipProvider AnyProvider :=
  {| providerName p :=
       match p with Plain q => providerName q | Modifier q => providerName q end;
     inclusionPriority p :=
       match p with
       | Plain q => inclusionPriority q
       | Modifier q => inclusionPriority q
       end;
     validForScope p :=
       match p with
       | Plain q => validForScope q
       | Modifier q => validForScope q
       end |}.

(** What [ReactDOM.render] puts in the overlay element: one
    [PinnableDatatip] per result, keyed by provider name. *)
Definition Rendered := list (Datatip * string).

Inductive Display := DisplayUnset | DisplayBlock | DisplayNone.

(** The overlay [div]. *)
Record Element := mkElement {
  display : Display;
  rendered : option Rendered
}.

(** [atom$Marker], with the overlay decoration it carries. *)
Record Marker := mkMarker {
  marker_range : Range;
  marker_item : Element
}.

(** A [PinnedDatatip] object, known by its identity.  The class is not
    among the sources; whether the pointer is over one is asked of the
    environment ([isHovering]). *)
Definition PinnedDatatip := positive.

(** A debounced function: its delay and whether a call is waiting for the
    delay to elapse. *)
Record Debounce := mkDebounce {
  wait : spec_float;
  pending : bool
}.

(** The argument of [_startFetching]: one of the three closures the class
    passes. *)
Inductive GetPosition :=
| CursorBufferPosition
| CursorScreenPosition
| LastMoveEventPosition.

(** The fields of [DatatipManagerForEditor].  [_datatipProviders] and
    [_modifierDatatipProviders] are the two arrays the constructor is handed:
    the top-level manager keeps the same two arrays and pushes to them, so
    the session and its manager always read the same contents (see
    [shared_arrays_mutated] and [DatatipManager.addProvider]).
    [_cumulativeWheelX] is a JS number, a binary64 float. *)
Record Session := mkSession {
  _blacklistedPosition : option Point;
  _datatipElement : Element;
  _datatipProviders : list DatatipProvider;
  _modifierDatatipProviders : list ModifierDatatipProvider;
  _datatipState : State;
  _insideDatatip : bool;
  _lastHiddenTime : Z;
  _lastFetchedFromCursorPosition : bool;
  _lastMoveEvent : option MouseEvent;
  _lastPosition : option Point;
  _lastDatatipAndProviderPromise : option (option (DatatipProvider * Datatip));
  _heldKeys : gset ModifierKey;
  _marker : option Marker;
  _pinnedDatatips : gset PinnedDatatip;
  _range : option Range;
  _shouldDropNextMouseMoveAfterFocus : bool;
  _startFetchingDebounce : Debounce;
  _hideIfOutsideDebounce : Debounce;
  _interactedWith : bool;
  _cumulativeWheelX : spec_float
}.

(** Field assignments, [this.f = v]. *)

Definition set_blacklistedPosition (v : option Point) (s : Session) : Session :=
  {| _blacklistedPosition := v; _datatipElement := _datatipElement s;
     _datatipProviders := _datatipProviders s; _modifierDatatipProviders :=
     _modifierDatatipProviders s; _datatipState := _datatipState s;
     _insideDatatip := _insideDatatip s; _lastHiddenTime := _lastHiddenTime
     s; _lastFetchedFromCursorPosition := _lastFetchedFromCursorPosition s;
     _lastMoveEvent := _lastMoveEvent s; _lastPosition := _lastPosition s;
     _lastDatatipAndProviderPromise := _lastDatatipAndProviderPromise s;
     _heldKeys := _heldKeys s; _marker := _marker s; _pinnedDatatips :=
     _pinnedDatatips s; _range := _range s;
     _shouldDropNextMouseMoveAfterFocus :=
     _shouldDropNextMouseMoveAfterFocus s; _startFetchingDebounce :=
     _startFetchingDebounce s; _hideIfOutsideDebounce :=
     _hideIfOutsideDebounce s; _interactedWith := _interactedWith s;
     _cumulativeWheelX := _cumulativeWheelX s |}.

Definition set_datatipElement (v : Element) (s : Session) : Session :=
  {| _blacklistedPosition := _blacklistedPosition s; _datatipElement := v;
     _datatipProviders := _datatipProviders s; _modifierDatatipProviders :=
     _modifierDatatipProviders s; _datatipState := _datatipState s;
     _insideDatatip := _insideDatatip s; _lastHiddenTime := _lastHiddenTime
     s; _lastFetchedFromCursorPosition := _lastFetchedFromCursorPosition s;
     _lastMoveEvent := _lastMoveEvent s; _lastPosition := _lastPosition s;
     _lastDatatipAndProviderPromise := _lastDatatipAndProviderPromise s;
     _heldKeys := _heldKeys s; _marker := _marker s; _pinnedDatatips :=
     _pinnedDatatips s; _range := _range s;
     _shouldDropNextMouseMoveAfterFocus :=
     _shouldDropNextMouseMoveAfterFocus s; _startFetchingDebounce :=
     _startFetchingDebounce s; _hideIfOutsideDebounce :=
     _hideIfOutsideDebounce s; _interactedWith := _interactedWith s;
     _cumulativeWheelX := _cumulativeWheelX s |}.

Definition set_datatipProviders
    (v : list DatatipProvider) (s : Session) : Session :=
  {| _blacklistedPosition := _blacklistedPosition s; _datatipElement :=
     _datatipElement s; _datatipProviders := v; _modifierDatatipProviders :=
     _modifierDatatipProviders s; _datatipState := _datatipState s;
     _insideDatatip := _insideDatatip s; _lastHiddenTime := _lastHiddenTime
     s; _lastFetchedFromCursorPosition := _lastFetchedFromCursorPosition s;
     _lastMoveEvent := _lastMoveEvent s; _lastPosition := _lastPosition s;
     _lastDatatipAndProviderPromise := _lastDatatipAndProviderPromise s;
     _heldKeys := _heldKeys s; _marker := _marker s; _pinnedDatatips :=
     _pinnedDatatips s; _range := _range s;
     _shouldDropNextMouseMoveAfterFocus :=
     _shouldDropNextMouseMoveAfterFocus s; _startFetchingDebounce :=
     _startFetchingDebounce s; _hideIfOutsideDebounce :=
     _hideIfOutsideDebounce s; _interactedWith := _interactedWith s;
     _cumulativeWheelX := _cumulativeWheelX s |}.

Definition set_modifierDatatipProviders
    (v : list ModifierDatatipProvider) (s : Session) : Session :=
  {| _blacklistedPosition := _blacklistedPosition s; _datatipElement :=
     _datatipElement s; _datatipProviders := _datatipProviders s;
     _modifierDatatipProviders := v; _datatipState := _datatipState s;
     _insideDatatip := _insideDatatip s; _lastHiddenTime := _lastHiddenTime
     s; _lastFetchedFromCursorPosition := _lastFetchedFromCursorPosition s;
     _lastMoveEvent := _lastMoveEvent s; _lastPosition := _lastPosition s;
     _lastDatatipAndProviderPromise := _lastDatatipAndProviderPromise s;
     _heldKeys := _heldKeys s; _marker := _marker s; _pinnedDatatips :=
     _pinnedDatatips s; _range := _range s;
     _shouldDropNextMouseMoveAfterFocus :=
     _shouldDropNextMouseMoveAfterFocus s; _startFetchingDebounce :=
     _startFetchingDebounce s; _hideIfOutsideDebounce :=
     _hideIfOutsideDebounce s; _interactedWith := _interactedWith s;
     _cumulativeWheelX := _cumulativeWheelX s |}.

Definition set_datatipState (v : State) (s : Session) : Session :=
  {| _blacklistedPosition := _blacklistedPosition s; _datatipElement :=
     _datatipElement s; _datatipProviders := _datatipProviders s;
     _modifierDatatipProviders := _modifierDatatipProviders s; _datatipState
     := v; _insideDatatip := _insideDatatip s; _lastHiddenTime :=
     _lastHiddenTime s; _lastFetchedFromCursorPosition :=
     _lastFetchedFromCursorPosition s; _lastMoveEvent := _lastMoveEvent s;
     _lastPosition := _lastPosition s; _lastDatatipAndProviderPromise :=
     _lastDatatipAndProviderPromise s; _heldKeys := _heldKeys s; _marker :=
     _marker s; _pinnedDatatips := _pinnedDatatips s; _range := _range s;
     _shouldDropNextMouseMoveAfterFocus :=
     _shouldDropNextMouseMoveAfterFocus s; _startFetchingDebounce :=
     _startFetchingDebounce s; _hideIfOutsideDebounce :=
     _hideIfOutsideDebounce s; _interactedWith := _interactedWith s;
     _cumulativeWheelX := _cumulativeWheelX s |}.

Definition set_insideDatatip (v : bool) (s : Session) : Session :=
  {| _blacklistedPosition := _blacklistedPosition s; _datatipElement :=
     _datatipElement s; _datatipProviders := _datatipProviders s;
     _modifierDatatipProviders := _modifierDatatipProviders s; _datatipState
     := _datatipState s; _insideDatatip := v; _lastHiddenTime :=
     _lastHiddenTime s; _lastFetchedFromCursorPosition :=
     _lastFetchedFromCursorPosition s; _lastMoveEvent := _lastMoveEvent s;
     _lastPosition := _lastPosition s; _lastDatatipAndProviderPromise :=
     _lastDatatipAndProviderPromise s; _heldKeys := _heldKeys s; _marker :=
     _marker s; _pinnedDatatips := _pinnedDatatips s; _range := _range s;
     _shouldDropNextMouseMoveAfterFocus :=
     _shouldDropNextMouseMoveAfterFocus s; _startFetchingDebounce :=
     _startFetchingDebounce s; _hideIfOutsideDebounce :=
     _hideIfOutsideDebounce s; _interactedWith := _interactedWith s;
     _cumulativeWheelX := _cumulativeWheelX s |}.

Definition set_lastHiddenTime (v : Z) (s : Session) : Session :=
  {| _blacklistedPosition := _blacklistedPosition s; _datatipElement :=
     _datatipElement s; _datatipProviders := _datatipProviders s;
     _modifierDatatipProviders := _modifierDatatipProviders s; _datatipState
     := _datatipState s; _insideDatatip := _insideDatatip s; _lastHiddenTime
     := v; _lastFetchedFromCursorPosition := _lastFetchedFromCursorPosition
     s; _lastMoveEvent := _lastMoveEvent s; _lastPosition := _lastPosition
     s; _lastDatatipAndProviderPromise := _lastDatatipAndProviderPromise s;
     _heldKeys := _heldKeys s; _marker := _marker s; _pinnedDatatips :=
     _pinnedDatatips s; _range := _range s;
     _shouldDropNextMouseMoveAfterFocus :=
     _shouldDropNextMouseMoveAfterFocus s; _startFetchingDebounce :=
     _startFetchingDebounce s; _hideIfOutsideDebounce :=
     _hideIfOutsideDebounce s; _interactedWith := _interactedWith s;
     _cumulativeWheelX := _cumulativeWheelX s |}.

Definition set_lastFetchedFromCursorPosition
    (v : bool) (s : Session) : Session :=
  {| _blacklistedPosition := _blacklistedPosition s; _datatipElement :=
     _datatipElement s; _datatipProviders := _datatipProviders s;
     _modifierDatatipProviders := _modifierDatatipProviders s; _datatipState
     := _datatipState s; _insideDatatip := _insideDatatip s; _lastHiddenTime
     := _lastHiddenTime s; _lastFetchedFromCursorPosition := v;
     _lastMoveEvent := _lastMoveEvent s; _lastPosition := _lastPosition s;
     _lastDatatipAndProviderPromise := _lastDatatipAndProviderPromise s;
     _heldKeys := _heldKeys s; _marker := _marker s; _pinnedDatatips :=
     _pinnedDatatips s; _range := _range s;
     _shouldDropNextMouseMoveAfterFocus :=
     _shouldDropNextMouseMoveAfterFocus s; _startFetchingDebounce :=
     _startFetchingDebounce s; _hideIfOutsideDebounce :=
     _hideIfOutsideDebounce s; _interactedWith := _interactedWith s;
     _cumulativeWheelX := _cumulativeWheelX s |}.

Definition set_lastMoveEvent (v : option MouseEvent) (s : Session) : Session :=
  {| _blacklistedPosition := _blacklistedPosition s; _datatipElement :=
     _datatipElement s; _datatipProviders := _datatipProviders s;
     _modifierDatatipProviders := _modifierDatatipProviders s; _datatipState
     := _datatipState s; _insideDatatip := _insideDatatip s; _lastHiddenTime
     := _lastHiddenTime s; _lastFetchedFromCursorPosition :=
     _lastFetchedFromCursorPosition s; _lastMoveEvent := v; _lastPosition :=
     _lastPosition s; _lastDatatipAndProviderPromise :=
     _lastDatatipAndProviderPromise s; _heldKeys := _heldKeys s; _marker :=
     _marker s; _pinnedDatatips := _pinnedDatatips s; _range := _range s;
     _shouldDropNextMouseMoveAfterFocus :=
     _shouldDropNextMouseMoveAfterFocus s; _startFetchingDebounce :=
     _startFetchingDebounce s; _hideIfOutsideDebounce :=
     _hideIfOutsideDebounce s; _interactedWith := _interactedWith s;
     _cumulativeWheelX := _cumulativeWheelX s |}.

Definition set_lastPosition (v : option Point) (s : Session) : Session :=
  {| _blacklistedPosition := _blacklistedPosition s; _datatipElement :=
     _datatipElement s; _datatipProviders := _datatipProviders s;
     _modifierDatatipProviders := _modifierDatatipProviders s; _datatipState
     := _datatipState s; _insideDatatip := _insideDatatip s; _lastHiddenTime
     := _lastHiddenTime s; _lastFetchedFromCursorPosition :=
     _lastFetchedFromCursorPosition s; _lastMoveEvent := _lastMoveEvent s;
     _lastPosition := v; _lastDatatipAndProviderPromise :=
     _lastDatatipAndProviderPromise s; _heldKeys := _heldKeys s; _marker :=
     _marker s; _pinnedDatatips := _pinnedDatatips s; _range := _range s;
     _shouldDropNextMouseMoveAfterFocus :=
     _shouldDropNextMouseMoveAfterFocus s; _startFetchingDebounce :=
     _startFetchingDebounce s; _hideIfOutsideDebounce :=
     _hideIfOutsideDebounce s; _interactedWith := _interactedWith s;
     _cumulativeWheelX := _cumulativeWheelX s |}.

Definition set_lastDatatipAndProviderPromise
    (v : option (option (DatatipProvider * Datatip))) (s : Session) : Session :=
  {| _blacklistedPosition := _blacklistedPosition s; _datatipElement :=
     _datatipElement s; _datatipProviders := _datatipProviders s;
     _modifierDatatipProviders := _modifierDatatipProviders s; _datatipState
     := _datatipState s; _insideDatatip := _insideDatatip s; _lastHiddenTime
     := _lastHiddenTime s; _lastFetchedFromCursorPosition :=
     _lastFetchedFromCursorPosition s; _lastMoveEvent := _lastMoveEvent s;
     _lastPosition := _lastPosition s; _lastDatatipAndProviderPromise := v;
     _heldKeys := _heldKeys s; _marker := _marker s; _pinnedDatatips :=
     _pinnedDatatips s; _range := _range s;
     _shouldDropNextMouseMoveAfterFocus :=
     _shouldDropNextMouseMoveAfterFocus s; _startFetchingDebounce :=
     _startFetchingDebounce s; _hideIfOutsideDebounce :=
     _hideIfOutsideDebounce s; _interactedWith := _interactedWith s;
     _cumulativeWheelX := _cumulativeWheelX s |}.

Definition set_heldKeys (v : gset ModifierKey) (s : Session) : Session :=
  {| _blacklistedPosition := _blacklistedPosition s; _datatipElement :=
     _datatipElement s; _datatipProviders := _datatipProviders s;
     _modifierDatatipProviders := _modifierDatatipProviders s; _datatipState
     := _datatipState s; _insideDatatip := _insideDatatip s; _lastHiddenTime
     := _lastHiddenTime s; _lastFetchedFromCursorPosition :=
     _lastFetchedFromCursorPosition s; _lastMoveEvent := _lastMoveEvent s;
     _lastPosition := _lastPosition s; _lastDatatipAndProviderPromise :=
     _lastDatatipAndProviderPromise s; _heldKeys := v; _marker := _marker s;
     _pinnedDatatips := _pinnedDatatips s; _range := _range s;
     _shouldDropNextMouseMoveAfterFocus :=
     _shouldDropNextMouseMoveAfterFocus s; _startFetchingDebounce :=
     _startFetchingDebounce s; _hideIfOutsideDebounce :=
     _hideIfOutsideDebounce s; _interactedWith := _interactedWith s;
     _cumulativeWheelX := _cumulativeWheelX s |}.

Definition set_marker (v : option Marker) (s : Session) : Session :=
  {| _blacklistedPosition := _blacklistedPosition s; _datatipElement :=
     _datatipElement s; _datatipProviders := _datatipProviders s;
     _modifierDatatipProviders := _modifierDatatipProviders s; _datatipState
     := _datatipState s; _insideDatatip := _insideDatatip s; _lastHiddenTime
     := _lastHiddenTime s; _lastFetchedFromCursorPosition :=
     _lastFetchedFromCursorPosition s; _lastMoveEvent := _lastMoveEvent s;
     _lastPosition := _lastPosition s; _lastDatatipAndProviderPromise :=
     _lastDatatipAndProviderPromise s; _heldKeys := _heldKeys s; _marker :=
     v; _pinnedDatatips := _pinnedDatatips s; _range := _range s;
     _shouldDropNextMouseMoveAfterFocus :=
     _shouldDropNextMouseMoveAfterFocus s; _startFetchingDebounce :=
     _startFetchingDebounce s; _hideIfOutsideDebounce :=
     _hideIfOutsideDebounce s; _interactedWith := _interactedWith s;
     _cumulativeWheelX := _cumulativeWheelX s |}.

Definition set_pinnedDatatips
    (v : gset PinnedDatatip) (s : Session) : Session :=
  {| _blacklistedPosition := _blacklistedPosition s; _datatipElement :=
     _datatipElement s; _datatipProviders := _datatipProviders s;
     _modifierDatatipProviders := _modifierDatatipProviders s; _datatipState
     := _datatipState s; _insideDatatip := _insideDatatip s; _lastHiddenTime
     := _lastHiddenTime s; _lastFetchedFromCursorPosition :=
     _lastFetchedFromCursorPosition s; _lastMoveEvent := _lastMoveEvent s;
     _lastPosition := _lastPosition s; _lastDatatipAndProviderPromise :=
     _lastDatatipAndProviderPromise s; _heldKeys := _heldKeys s; _marker :=
     _marker s; _pinnedDatatips := v; _range := _range s;
     _shouldDropNextMouseMoveAfterFocus :=
     _shouldDropNextMouseMoveAfterFocus s; _startFetchingDebounce :=
     _startFetchingDebounce s; _hideIfOutsideDebounce :=
     _hideIfOutsideDebounce s; _interactedWith := _interactedWith s;
     _cumulativeWheelX := _cumulativeWheelX s |}.

Definition set_range (v : option Range) (s : Session) : Session :=
  {| _blacklistedPosition := _blacklistedPosition s; _datatipElement :=
     _datatipElement s; _datatipProviders := _datatipProviders s;
     _modifierDatatipProviders := _modifierDatatipProviders s; _datatipState
     := _datatipState s; _insideDatatip := _insideDatatip s; _lastHiddenTime
     := _lastHiddenTime s; _lastFetchedFromCursorPosition :=
     _lastFetchedFromCursorPosition s; _lastMoveEvent := _lastMoveEvent s;
     _lastPosition := _lastPosition s; _lastDatatipAndProviderPromise :=
     _lastDatatipAndProviderPromise s; _heldKeys := _heldKeys s; _marker :=
     _marker s; _pinnedDatatips := _pinnedDatatips s; _range := v;
     _shouldDropNextMouseMoveAfterFocus :=
     _shouldDropNextMouseMoveAfterFocus s; _startFetchingDebounce :=
     _startFetchingDebounce s; _hideIfOutsideDebounce :=
     _hideIfOutsideDebounce s; _interactedWith := _interactedWith s;
     _cumulativeWheelX := _cumulativeWheelX s |}.

Definition set_shouldDropNextMouseMoveAfterFocus
    (v : bool) (s : Session) : Session :=
  {| _blacklistedPosition := _blacklistedPosition s; _datatipElement :=
     _datatipElement s; _datatipProviders := _datatipProviders s;
     _modifierDatatipProviders := _modifierDatatipProviders s; _datatipState
     := _datatipState s; _insideDatatip := _insideDatatip s; _lastHiddenTime
     := _lastHiddenTime s; _lastFetchedFromCursorPosition :=
     _lastFetchedFromCursorPosition s; _lastMoveEvent := _lastMoveEvent s;
     _lastPosition := _lastPosition s; _lastDatatipAndProviderPromise :=
     _lastDatatipAndProviderPromise s; _heldKeys := _heldKeys s; _marker :=
     _marker s; _pinnedDatatips := _pinnedDatatips s; _range := _range s;
     _shouldDropNextMouseMoveAfterFocus := v; _startFetchingDebounce :=
     _startFetchingDebounce s; _hideIfOutsideDebounce :=
     _hideIfOutsideDebounce s; _interactedWith := _interactedWith s;
     _cumulativeWheelX := _cumulativeWheelX s |}.

Definition set_startFetchingDebounce (v : Debounce) (s : Session) : Session :=
  {| _blacklistedPosition := _blacklistedPosition s; _datatipElement :=
     _datatipElement s; _datatipProviders := _datatipProviders s;
     _modifierDatatipProviders := _modifierDatatipProviders s; _datatipState
     := _datatipState s; _insideDatatip := _insideDatatip s; _lastHiddenTime
     := _lastHiddenTime s; _lastFetchedFromCursorPosition :=
     _lastFetchedFromCursorPosition s; _lastMoveEvent := _lastMoveEvent s;
     _lastPosition := _lastPosition s; _lastDatatipAndProviderPromise :=
     _lastDatatipAndProviderPromise s; _heldKeys := _heldKeys s; _marker :=
     _marker s; _pinnedDatatips := _pinnedDatatips s; _range := _range s;
     _shouldDropNextMouseMoveAfterFocus :=
     _shouldDropNextMouseMoveAfterFocus s; _startFetchingDebounce := v;
     _hideIfOutsideDebounce := _hideIfOutsideDebounce s; _interactedWith :=
     _interactedWith s; _cumulativeWheelX := _cumulativeWheelX s |}.

Definition set_hideIfOutsideDebounce (v : Debounce) (s : Session) : Session :=
  {| _blacklistedPosition := _blacklistedPosition s; _datatipElement :=
     _datatipElement s; _datatipProviders := _datatipProviders s;
     _modifierDatatipProviders := _modifierDatatipProviders s; _datatipState
     := _datatipState s; _insideDatatip := _insideDatatip s; _lastHiddenTime
     := _lastHiddenTime s; _lastFetchedFromCursorPosition :=
     _lastFetchedFromCursorPosition s; _lastMoveEvent := _lastMoveEvent s;
     _lastPosition := _lastPosition s; _lastDatatipAndProviderPromise :=
     _lastDatatipAndProviderPromise s; _heldKeys := _heldKeys s; _marker :=
     _marker s; _pinnedDatatips := _pinnedDatatips s; _range := _range s;
     _shouldDropNextMouseMoveAfterFocus :=
     _shouldDropNextMouseMoveAfterFocus s; _startFetchingDebounce :=
     _startFetchingDebounce s; _hideIfOutsideDebounce := v; _interactedWith
     := _interactedWith s; _cumulativeWheelX := _cumulativeWheelX s |}.

Definition set_interactedWith (v : bool) (s : Session) : Session :=
  {| _blacklistedPosition := _blacklistedPosition s; _datatipElement :=
     _datatipElement s; _datatipProviders := _datatipProviders s;
     _modifierDatatipProviders := _modifierDatatipProviders s; _datatipState
     := _datatipState s; _insideDatatip := _insideDatatip s; _lastHiddenTime
     := _lastHiddenTime s; _lastFetchedFromCursorPosition :=
     _lastFetchedFromCursorPosition s; _lastMoveEvent := _lastMoveEvent s;
     _lastPosition := _lastPosition s; _lastDatatipAndProviderPromise :=
     _lastDatatipAndProviderPromise s; _heldKeys := _heldKeys s; _marker :=
     _marker s; _pinnedDatatips := _pinnedDatatips s; _range := _range s;
     _shouldDropNextMouseMoveAfterFocus :=
     _shouldDropNextMouseMoveAfterFocus s; _startFetchingDebounce :=
     _startFetchingDebounce s; _hideIfOutsideDebounce :=
     _hideIfOutsideDebounce s; _interactedWith := v; _cumulativeWheelX :=
     _cumulativeWheelX s |}.

Definition set_cumulativeWheelX (v : spec_float) (s : Session) : Session :=
  {| _blacklistedPosition := _blacklistedPosition s; _datatipElement :=
     _datatipElement s; _datatipProviders := _datatipProviders s;
     _modifierDatatipProviders := _modifierDatatipProviders s; _datatipState
     := _datatipState s; _insideDatatip := _insideDatatip s; _lastHiddenTime
     := _lastHiddenTime s; _lastFetchedFromCursorPosition :=
     _lastFetchedFromCursorPosition s; _lastMoveEvent := _lastMoveEvent s;
     _lastPosition := _lastPosition s; _lastDatatipAndProviderPromise :=
     _lastDatatipAndProviderPromise s; _heldKeys := _heldKeys s; _marker :=
     _marker s; _pinnedDatatips := _pinnedDatatips s; _range := _range s;
     _shouldDropNextMouseMoveAfterFocus :=
     _shouldDropNextMouseMoveAfterFocus s; _startFetchingDebounce :=
     _startFetchingDebounce s; _hideIfOutsideDebounce :=
     _hideIfOutsideDebounce s; _interactedWith := _interactedWith s;
     _cumulativeWheelX := v |}.

(** [featureConfig.get] on the two keys the session observes. *)
Record Config := mkConfig {
  datatipDebounceDelay : JSValue;
  datatipInteractedWithDebounceDelay : JSValue
}.

(** What a handler reads from outside the session when it runs: the editor,
    the clock, which pinned datatips the pointer is over, and the
    configuration. *)
Record Env := mkEnv {
  editor : Editor;
  performance_now : Z;
  isHovering : PinnedDatatip -> bool;
  config : Config
}.

(** The result of [_fetchAndRender]. *)
Record FetchData := mkFetchData {
  fd_range : option Range;
  renderedProviders : Rendered
}.

(** A call of [_startFetching] suspended at its [await]: the closure it was
    given and the results its two races settle to. *)
Record PendingFetch := mkPendingFetch {
  pf_getPosition : GetPosition;
  pf_results : list (AnyProvider * Datatip)
}.

(** Modelled from the spec: [getModifierKeysFromMouseEvent] of
    ./getModifierKeys is not among the sources; the held-modifier set is
    recomputed from the raw event. *)
Definition getModifierKeysFromMouseEvent (e : MouseEvent) : gset ModifierKey :=
  (if metaKey e then {[META]} else ∅) ∪ (if shiftKey e then {[SHIFT]} else ∅)
  ∪ (if altKey e then {[ALT]} else ∅) ∪ (if ctrlKey e then {[CTRL]} else ∅).

(** Modelled from the spec: [getModifierKeyFromKeyboardEvent] of
    ./getModifierKeys is not among the sources; it names the modifier key a
    keyboard event stands for, if any. *)
Definition getModifierKeyFromKeyboardEvent (e : KeyboardEvent)
  : option ModifierKey := modifierOf e.

(** Modelled from the spec: [arrayCompact] of nuclide-commons/collection is
    not among the sources; it keeps the results that are not null, so that
    both races can contribute. *)
Definition arrayCompact {A} (l : list (option A)) : list A := omap id l.

(** [debounce(fn, wait, false)] and a call of the debounced function. *)
Definition debounce (wait : spec_float) : Debounce := mkDebounce wait false.

Definition call_debounced (d : Debounce) : Debounce := mkDebounce (wait d) true.

Definition mountDatatipWithMarker
    (element : Element) (range : Range) (renderedProviders : Rendered)
  : Marker * Element :=
  let element := mkElement DisplayBlock (Some renderedProviders) in
  (mkMarker range element, element).

Definition evalGetPosition (env : Env) (s : Session) (getPosition : GetPosition)
  : option Point :=
  match getPosition with
  | CursorBufferPosition => Some (getCursorBufferPosition (editor env))
  | CursorScreenPosition => Some (getCursorScreenPosition (editor env))
  | LastMoveEventPosition => getBufferPosition (editor env) (_lastMoveEvent s)
  end.

Definition _setStartFetchingDebounce (env : Env) (s : Session) : Session :=
  set_startFetchingDebounce
    (debounce (ensurePositiveNumber (datatipDebounceDelay (config env))
                 DEFAULT_DATATIP_DEBOUNCE_DELAY)) s.

Definition _setHideIfOutsideDebounce (env : Env) (s : Session) : Session :=
  set_hideIfOutsideDebounce
    (debounce (ensurePositiveNumber
                 (datatipInteractedWithDebounceDelay (config env))
                 DEFAULT_DATATIP_INTERACTED_DEBOUNCE_DELAY)) s.

(** The constructor.  It keeps the two arrays it is given, not copies of
    them; [featureConfig.observe] runs its callbacks once at subscription,
    which installs the two debounced functions. *)
Definition new_DatatipManagerForEditor
    (env : Env) (datatipProviders : list DatatipProvider)
    (modifierDatatipProviders : list ModifierDatatipProvider) : Session :=
  _setHideIfOutsideDebounce env
    (_setStartFetchingDebounce env
       {| _blacklistedPosition := None;
          _datatipElement := mkElement DisplayUnset None;
          _datatipProviders := datatipProviders;
          _modifierDatatipProviders := modifierDatatipProviders;
          _datatipState := HIDDEN;
          _insideDatatip := false;
          _lastHiddenTime := 0;
          _lastFetchedFromCursorPosition := false;
          _lastMoveEvent := None;
          _lastPosition := None;
          _lastDatatipAndProviderPromise := None;
          _heldKeys := ∅;
          _marker := None;
          _pinnedDatatips := ∅;
          _range := None;
          _shouldDropNextMouseMoveAfterFocus := false;
          _startFetchingDebounce := debounce SFzero;
          _hideIfOutsideDebounce := debounce SFzero;
          _interactedWith := false;
          _cumulativeWheelX := SFzero |}).

(** The owner of the two arrays pushed to them or removed from them
    ([DatatipManager.addProvider], [addModifierProvider] and the disposables
    they return): the session, which holds the same arrays, reads the new
    contents from then on. *)
Definition shared_arrays_mutated
    (datatipProviders : list DatatipProvider)
    (modifierDatatipProviders : list ModifierDatatipProvider) (s : Session)
  : Session :=
  set_modifierDatatipProviders modifierDatatipProviders
    (set_datatipProviders datatipProviders s).

Definition _hideDatatip (env : Env) (s : Session) : Session :=
  let s := set_lastHiddenTime (performance_now env) s in
  let s := set_marker None s in
  let s := set_range None s in
  set_datatipElement (mkElement DisplayNone None) s.

Definition _setState (env : Env) (newState : State) (s : Session) : Session :=
  let oldState := _datatipState s in
  let s := set_datatipState newState s in
  if decide (newState = HIDDEN) then
    let s := set_blacklistedPosition None s in
    if decide (oldState <> HIDDEN) then _hideDatatip env s else s
  else s.

Definition _isHoveringOverPinnedTip (env : Env) (s : Session) : bool :=
  let pinnedDataTips := elements (_pinnedDatatips s) in
  let hoveringTips := List.filter (isHovering env) pinnedDataTips in
  (0 <? length hoveringTips)%nat.

(** [_fetchAndRender] up to its [await]: the cache test and the two races. *)
Definition fetchAndRender_begin (env : Env) (position : Point) (s : Session)
  : Traced (Session * list (AnyProvider * Datatip)) :=
  let cached :=
    match _lastPosition s with
    | Some lastPosition => isEqual position lastPosition
    | None => false
    end in
  r1 <- (if cached then ret (s, _lastDatatipAndProviderPromise s)
         else
           top <- getTopDatatipAndProvider (_datatipProviders s) (editor env)
                    position
                    (fun provider => datatip provider (editor env) position) ;;
           ret (set_lastPosition (Some position)
                  (set_lastDatatipAndProviderPromise (Some top) s),
                Some top)) ;;
  let '(s1, datatipAndProviderPromise) := r1 in
  top2 <- getTopDatatipAndProvider (_modifierDatatipProviders s)
            (editor env) position
            (fun provider =>
               modifierDatatip provider (editor env) position (_heldKeys s)) ;;
  ret (s1,
       arrayCompact
         [ prod_map Plain id <$> (datatipAndProviderPromise ≫= id);
           prod_map Modifier id <$> top2 ]).

(** [_fetchAndRender] after its [await].  Reading [range.start] of a
    datatip without a range throws, which rejects the promise. *)
Definition fetchAndRender_resume
    (env : Env) (datatipsAndProviders : list (AnyProvider * Datatip))
  : Traced (Settled (option FetchData)) :=
  match datatipsAndProviders with
  | [] => ret (Resolved None)
  | (provider0, datatip0) :: _ =>
      _ <- getProviderName provider0 ;;
      match range datatip0 with
      | None => ret (Rejected "TypeError")
      | Some range =>
          tell (Track "datatip-popup") ;;;
          renderedProviders <-
            mapTraced
              (fun dp : AnyProvider * Datatip =>
                 key <- getProviderName (fst dp) ;; ret (snd dp, key))
              datatipsAndProviders ;;
          ret (Resolved (Some (mkFetchData (Some range) renderedProviders)))
      end
  end.

(** [_startFetching] up to its [await]. *)
Definition startFetching_begin
    (env : Env) (getPosition : GetPosition) (s : Session)
  : Traced (Session * option PendingFetch) :=
  match evalGetPosition env s getPosition with
  | None => ret (s, None)
  | Some position =>
      let s := _setState env FETCHING s in
      r <- fetchAndRender_begin env position s ;;
      ret (fst r, Some (mkPendingFetch getPosition (snd r)))
  end.

(** [_startFetching] from the moment [data] is known. *)
Definition startFetching_withData
    (env : Env) (getPosition : GetPosition) (data : option FetchData)
    (s : Session) : Session :=
  match data with
  | None => _setState env HIDDEN s
  | Some data =>
      let s :=
        if decide (_datatipState s <> FETCHING)
        then _setState env HIDDEN s else s in
      let blacklisted :=
        match _blacklistedPosition s, fd_range data with
        | Some blacklistedPosition, Some range =>
            containsPoint range blacklistedPosition
        | _, _ => false
        end in
      if blacklisted then _setState env HIDDEN s
      else
        let currentPosition := evalGetPosition env s getPosition in
        match currentPosition, fd_range data with
        | Some currentPosition, Some range =>
            if negb (containsPoint range currentPosition)
            then _setState env HIDDEN s
            else if _isHoveringOverPinnedTip env s
            then _setState env HIDDEN s
            else
              let s := _setState env VISIBLE s in
              let s := set_interactedWith false s in
              let s := set_cumulativeWheelX SFzero s in
              let s := set_range (Some range) s in
              let '(marker, element) :=
                mountDatatipWithMarker (_datatipElement s) range
                  (renderedProviders data) in
              set_marker (Some marker) (set_datatipElement element s)
        | _, _ => _setState env HIDDEN s
        end
  end.

(** [_startFetching] after its [await]; a rejected [_fetchAndRender] ends
    the method there. *)
Definition startFetching_resume (env : Env) (pf : PendingFetch) (s : Session)
  : Traced Session :=
  data <- fetchAndRender_resume env (pf_results pf) ;;
  match data with
  | Resolved data => ret (startFetching_withData env (pf_getPosition pf) data s)
  | Rejected _ | Threw _ => ret s
  end.

Definition _fetchInResponseToKeyPress (env : Env) (s : Session)
  : Traced (Session * option PendingFetch) :=
  if _lastFetchedFromCursorPosition s
  then startFetching_begin env CursorBufferPosition s
  else startFetching_begin env LastMoveEventPosition s.

Definition _hideOrCancel (env : Env) (s : Session) : Session :=
  if bool_decide (_datatipState s = HIDDEN)
     || bool_decide (_datatipState s = FETCHING)
  then
    set_blacklistedPosition
      (getBufferPosition (editor env) (_lastMoveEvent s)) s
  else _setState env HIDDEN s.

Definition _hideIfOutsideImmediate (env : Env) (s : Session) : Session :=
  if decide (_datatipState s <> VISIBLE) then s
  else if _insideDatatip s then s
  else if _isHoveringOverPinnedTip env s then _setState env HIDDEN s
  else
    let currentPosition :=
      getBufferPosition (editor env) (_lastMoveEvent s) in
    match currentPosition, _range s with
    | Some currentPosition, Some range =>
        if containsPoint range currentPosition then s
        else _setState env HIDDEN s
    | _, _ => _setState env HIDDEN s
    end.

Definition _hideIfOutside (env : Env) (s : Session) : Session :=
  if decide (_datatipState s <> VISIBLE) then s
  else if _interactedWith s
  then set_hideIfOutsideDebounce (call_debounced (_hideIfOutsideDebounce s)) s
  else _hideIfOutsideImmediate env s.

(** The session's [createPinnedDataTip]: a [PinnedDatatip] is constructed
    and returned.  [new_PinnedDatatip] is the identity the runtime gives the
    new object; its two callbacks are [pinned_onDispose] and
    [pinned_hideDataTips] below. *)
Definition createPinnedDataTip
    (new_PinnedDatatip : PinnedDatatip) (datatip : Datatip) (s : Session)
  : PinnedDatatip * Session :=
  let pinnedDatatip := new_PinnedDatatip in
  (pinnedDatatip, s).

Definition _handlePinClicked
    (env : Env) (new_PinnedDatatip : PinnedDatatip) (datatip : Datatip)
    (s : Session) : Traced Session :=
  tell (Track "datatip-pinned-open") ;;;
  let s := _setState env HIDDEN s in
  ret (set_pinnedDatatips ({[new_PinnedDatatip]} ∪ _pinnedDatatips s) s).

(** The [onDispose] callback both constructions hand to a pinned datatip;
    the one of the pin-click handler also reports the close to analytics. *)
Definition pinned_onDispose (pinnedDatatip : PinnedDatatip) (s : Session)
  : Session :=
  set_pinnedDatatips (_pinnedDatatips s ∖ {[pinnedDatatip]}) s.

(** The [hideDataTips] callback both constructions hand to a pinned
    datatip. *)
Definition pinned_hideDataTips (env : Env) (s : Session) : Session :=
  _hideDatatip env s.

(** [idx(e, _ => _.originalEvent.type)] is the argument [maybeEventType]. *)
Definition _toggleDatatip
    (env : Env) (maybeEventType : option string) (s : Session)
  : Traced (Session * option PendingFetch) :=
  if negb (isActiveTextEditor (editor env)) then ret (s, None)
  else
    let forceShow :=
      bool_decide (maybeEventType = Some "keydown")
      && (100 <? performance_now env - _lastHiddenTime s) in
    let forceHide := bool_decide (maybeEventType = Some "keyup") in
    let forceToggle :=
      bool_decide (maybeEventType <> Some "keydown")
      && bool_decide (maybeEventType <> Some "keyup") in
    if forceShow || (forceToggle && bool_decide (_datatipState s = HIDDEN))
    then
      let s := set_lastFetchedFromCursorPosition true s in
      startFetching_begin env CursorScreenPosition s
    else if forceHide || forceToggle
    then ret (_hideOrCancel env s, None)
    else ret (s, None).

Definition dispose (env : Env) (s : Session) : Session :=
  _setState env HIDDEN s.

(** *** The event subscriptions of the constructor *)

Definition on_focus (env : Env) (s : Session) : Session :=
  let s := set_shouldDropNextMouseMoveAfterFocus true s in
  if negb (_insideDatatip s) then _setState env HIDDEN s else s.

Definition on_blur (env : Env) (s : Session) : Session :=
  if negb (_insideDatatip s) then _setState env HIDDEN s else s.

Definition on_mousemove (env : Env) (e : MouseEvent) (s : Session) : Session :=
  let s := set_lastFetchedFromCursorPosition false s in
  if _shouldDropNextMouseMoveAfterFocus s
  then set_shouldDropNextMouseMoveAfterFocus false s
  else
    let s := set_lastMoveEvent (Some e) s in
    let s := set_heldKeys (getModifierKeysFromMouseEvent e) s in
    if decide (_datatipState s = HIDDEN)
    then set_startFetchingDebounce (call_debounced (_startFetchingDebounce s)) s
    else _hideIfOutside env s.

Definition on_mouseleave (env : Env) (s : Session) : Session :=
  _hideIfOutside env (set_lastMoveEvent None s).

(** [targetInDatatip]: the walk up from [e.target] meets the overlay
    element. *)
Definition on_mousedown (env : Env) (targetInDatatip : bool) (s : Session)
  : Session :=
  if targetInDatatip then s else _hideOrCancel env s.

Definition on_keydown (env : Env) (e : KeyboardEvent) (s : Session)
  : Traced (Session * option PendingFetch) :=
  match getModifierKeyFromKeyboardEvent e with
  | Some modifierKey =>
      let s := set_heldKeys ({[modifierKey]} ∪ _heldKeys s) s in
      if decide (_datatipState s <> HIDDEN)
      then _fetchInResponseToKeyPress env s
      else ret (s, None)
  | None => ret (_hideOrCancel env s, None)
  end.

Definition on_keyup (env : Env) (e : KeyboardEvent) (s : Session)
  : Traced (Session * option PendingFetch) :=
  match getModifierKeyFromKeyboardEvent e with
  | Some modifierKey =>
      let s := set_heldKeys (_heldKeys s ∖ {[modifierKey]}) s in
      if decide (_datatipState s <> HIDDEN)
      then _fetchInResponseToKeyPress env s
      else ret (s, None)
  | None => ret (s, None)
  end.

Definition on_datatip_wheel (deltaX : spec_float) (s : Session) : Session :=
  let s :=
    set_cumulativeWheelX (js_add (_cumulativeWheelX s) (Math_abs deltaX)) s in
  if SFltb CUMULATIVE_WHEELX_THRESHOLD (_cumulativeWheelX s)
  then set_interactedWith true s else s.

Definition on_datatip_mousedown (s : Session) : Session :=
  set_interactedWith true s.

Definition on_datatip_mouseenter (env : Env) (s : Session) : Session :=
  _hideIfOutside env (set_insideDatatip true s).

Definition on_datatip_mouseleave (env : Env) (s : Session) : Session :=
  _hideIfOutside env (set_insideDatatip false s).

Definition on_scrollTop (env : Env) (s : Session) : Session :=
  let s := set_lastMoveEvent None s in
  if decide (_datatipState s = VISIBLE) then _setState env HIDDEN s else s.

(** The callbacks of the two debounced functions, run when a delay
    elapses. *)
Definition startFetchingDebounce_fires (env : Env) (s : Session)
  : Traced (Session * option PendingFetch) :=
  let s :=
    set_startFetchingDebounce
      (mkDebounce (wait (_startFetchingDebounce s)) false) s in
  startFetching_begin env LastMoveEventPosition s.

Definition hideIfOutsideDebounce_fires (env : Env) (s : Session) : Session :=
  let s :=
    set_hideIfOutsideDebounce
      (mkDebounce (wait (_hideIfOutsideDebounce s)) false) s in
  _hideIfOutsideImmediate env s.

(** ** A session in its environment *)

(** Everything that can make the session run.  [SharedArraysMutated] is not
    a subscription of the class: it is the manager changing the two arrays
    it shares with the session. *)
Inductive Event :=
| Focus
| Blur
| MouseMove (e : MouseEvent)
| MouseLeave
| MouseDown (targetInDatatip : bool)
| KeyDown (e : KeyboardEvent)
| KeyUp (e : KeyboardEvent)
| DatatipWheel (deltaX : spec_float)
| DatatipMouseDown
| DatatipMouseEnter
| DatatipMouseLeave
| ScrollTop
| Toggle (maybeEventType : option string)
| ConfigDebounceDelay
| ConfigInteractedDelay
| StartFetchingTimer
| HideIfOutsideTimer
| FetchSettles (i : nat)
| PinClicked (new_PinnedDatatip : PinnedDatatip) (datatip : Datatip)
| CreatePinned (new_PinnedDatatip : PinnedDatatip) (datatip : Datatip)
| PinnedDisposed (pinnedDatatip : PinnedDatatip)
| PinnedHidesDataTips
| Dispose
| SharedArraysMutated (datatipProviders : list DatatipProvider)
    (modifierDatatipProviders : list ModifierDatatipProvider).

(** The session, the calls of [_startFetching] that wait at their [await],
    and the effects so far. *)
Record World := mkWorld {
  session : Session;
  fetches : list PendingFetch;
  trace : list Effect
}.

Definition silent (w : World) (s : Session) : World :=
  mkWorld s (fetches w) (trace w).

Definition fetching (w : World) (r : Traced (Session * option PendingFetch))
  : World :=
  let '((s, pf), t) := r in
  mkWorld s (fetches w ++ option_list pf) (trace w ++ t).

Definition handle (env : Env) (ev : Event) (w : World) : World :=
  let s := session w in
  match ev with
  | Focus => silent w (on_focus env s)
  | Blur => silent w (on_blur env s)
  | MouseMove e => silent w (on_mousemove env e s)
  | MouseLeave => silent w (on_mouseleave env s)
  | MouseDown inside => silent w (on_mousedown env inside s)
  | KeyDown e => fetching w (on_keydown env e s)
  | KeyUp e => fetching w (on_keyup env e s)
  | DatatipWheel deltaX => silent w (on_datatip_wheel deltaX s)
  | DatatipMouseDown => silent w (on_datatip_mousedown s)
  | DatatipMouseEnter => silent w (on_datatip_mouseenter env s)
  | DatatipMouseLeave => silent w (on_datatip_mouseleave env s)
  | ScrollTop => silent w (on_scrollTop env s)
  | Toggle maybeEventType => fetching w (_toggleDatatip env maybeEventType s)
  | ConfigDebounceDelay => silent w (_setStartFetchingDebounce env s)
  | ConfigInteractedDelay => silent w (_setHideIfOutsideDebounce env s)
  | StartFetchingTimer => fetching w (startFetchingDebounce_fires env s)
  | HideIfOutsideTimer => silent w (hideIfOutsideDebounce_fires env s)
  | FetchSettles i =>
      match fetches w !! i with
      | None => w
      | Some pf =>
          let '(s', t) := startFetching_resume env pf s in
          mkWorld s' (delete i (fetches w)) (trace w ++ t)
      end
  | PinClicked fresh datatip =>
      let '(s', t) := _handlePinClicked env fresh datatip s in
      mkWorld s' (fetches w) (trace w ++ t)
  | CreatePinned fresh datatip =>
      silent w (snd (createPinnedDataTip fresh datatip s))
  | PinnedDisposed pinnedDatatip => silent w (pinned_onDispose pinnedDatatip s)
  | PinnedHidesDataTips => silent w (pinned_hideDataTips env s)
  | Dispose => silent w (dispose env s)
  | SharedArraysMutated datatipProviders modifierDatatipProviders =>
      silent w
        (shared_arrays_mutated datatipProviders modifierDatatipProviders s)
  end.

Definition initial
    (env : Env) (datatipProviders : list DatatipProvider)
    (modifierDatatipProviders : list ModifierDatatipProvider) : World :=
  mkWorld
    (new_DatatipManagerForEditor env datatipProviders modifierDatatipProviders)
    [] [].

(** The worlds a session can be in: the arrays it is constructed with, the
    environment and the order of events are arbitrary.  A debounced
    function that was replaced can still fire its timer, and callbacks that
    captured the session run after [dispose], so no event is ever
    disabled. *)
Inductive reachable : World -> Prop :=
| reachable_initial env datatipProviders modifierDatatipProviders :
    reachable (initial env datatipProviders modifierDatatipProviders)
| reachable_step env ev w : reachable w -> reachable (handle env ev w).

(** ** The top-level [DatatipManager] *)

Module DatatipManager.

(** [atom$TextEditor] as a key of [_editorManagers]: the editor's
    identity. *)
Definition TextEditor := positive.

(** The two arrays are shared with every session in [_editorManagers]: a
    session's [_datatipProviders] field is the manager's array itself.  The
    model keeps a copy in each session and writes all the copies whenever
    the manager changes its array. *)
Record t := mk {
  _datatipProviders : list DatatipProvider;
  _modifierDatatipProviders : list ModifierDatatipProvider;
  _editorManagers : gmap TextEditor Session
}.

Definition new : t := mk [] [] ∅.

(** The callback of [observeTextEditors]: the new session is handed the
    manager's two arrays. *)
Definition on_editor (env : Env) (editor : TextEditor) (m : t) : t :=
  let manager :=
    new_DatatipManagerForEditor env (_datatipProviders m)
      (_modifierDatatipProviders m) in
  mk (_datatipProviders m) (_modifierDatatipProviders m)
     (<[editor := manager]> (_editorManagers m)).

(** The [dispose] closure registered with [editor.onDidDestroy]. *)
Definition on_editor_destroyed (editor : TextEditor) (m : t) : t :=
  mk (_datatipProviders m) (_modifierDatatipProviders m)
     (delete editor (_editorManagers m)).

(** [this._datatipProviders.push(provider)]: the push is seen through every
    session's reference to the array.  The disposable that is returned,
    which removes the provider from the array again, is not part of the
    embedding: providers hold functions and have no identity to search the
    array for; at the level of a session [SharedArraysMutated] covers it. *)
Definition addProvider (provider : DatatipProvider) (m : t) : t :=
  let datatipProviders := _datatipProviders m ++ [provider] in
  mk datatipProviders (_modifierDatatipProviders m)
     (set_datatipProviders datatipProviders <$> _editorManagers m).

Definition addModifierProvider (provider : ModifierDatatipProvider) (m : t)
  : t :=
  let modifierDatatipProviders := _modifierDatatipProviders m ++ [provider] in
  mk (_datatipProviders m) modifierDatatipProviders
     (set_modifierDatatipProviders modifierDatatipProviders
        <$> _editorManagers m).

(** [inl] is the thrown [Error]. *)
Definition createPinnedDataTip
    (new_PinnedDatatip : PinnedDatatip) (datatip : Datatip)
    (editor : TextEditor) (m : t) : Error + PinnedDatatip * t :=
  match _editorManagers m !! editor with
  | None =>
      inl ("Trying to create a pinned data tip on an editor that has "
           +:+ "no datatip manager")
  | Some manager =>
      let '(pinnedDatatip, manager) :=
        createPinnedDataTip new_PinnedDatatip datatip manager in
      inr (pinnedDatatip,
           mk (_datatipProviders m) (_modifierDatatipProviders m)
              (<[editor := manager]> (_editorManagers m)))
  end.

Definition dispose (m : t) : t :=
  mk (_datatipProviders m) (_modifierDatatipProviders m) ∅.

End DatatipManager.

(** ** The diagnostics package

    Source: the main module of the diagnostics UI package (a source file
    whose name is not known).  It registers a datatip provider with the
    manager above, opens the files that have errors, and keeps the index
    the go-to-diagnostic commands move. *)

Module Diagnostics.

Definition MAX_OPEN_ALL_FILES : nat := 20.

Inductive MessageScope := ScopeFile | ScopeProject.

#[export] Instance MessageScope_eq_dec : EqDecision MessageScope.
Proof. solve_decision. Defined.

Record Trace := mkTrace {
  trace_filePath : option string;
  trace_range : option Range
}.

Record DiagnosticMessage := mkDiagnosticMessage {
  msg_scope : MessageScope;
  msg_text : string;
  msg_filePath : option string;
  msg_range : option Range;
  msg_trace : option (list Trace)
}.

(** What the package does to the workbench: analytics, navigation and
    notifications. *)
Inductive Action :=
| TrackEvent (eventName : string)
| GoToLocation (file : option string) (line column : option Z)
| AddError (message : string).

(** [Activation._datatip]; [messagesForFile] is
    [this._fileDiagnostics.get(editor)], and the component made from the
    message is its text. *)
Definition _datatip
    (messagesForFile : option (list DiagnosticMessage)) (position : Point)
  : option Datatip :=
  match messagesForFile with
  | None => None
  | Some messagesForFile =>
      let messagesAtPosition :=
        List.filter
          (fun message =>
             match msg_range message with
             | Some range => containsPoint range position
             | None => false
             end)
          messagesForFile in
      match messagesAtPosition with
      | [] => None
      | message :: _ =>
          Some (mkDatatip (msg_text message) (msg_range message) (Some false))
      end
  end.

(** The provider [consumeDatatipService] registers. *)
Definition datatipProvider
    (_fileDiagnostics : Editor -> option (list DiagnosticMessage))
  : DatatipProvider :=
  mkDatatipProvider (Some "nuclide-diagnostics-datatip") 1 (fun _ => true)
    (fun editor position =>
       Resolved (_datatip (_fileDiagnostics editor) position)).

(** A JavaScript [Map] from file paths to lines: the entries in insertion
    order; [set] on a present key keeps its place. *)
Definition JSMap := list (string * Z).

Fixpoint Map_get (m : JSMap) (key : string) : option Z :=
  match m with
  | [] => None
  | (k, v) :: m' => if decide (k = key) then Some v else Map_get m' key
  end.

Fixpoint Map_set (m : JSMap) (key : string) (value : Z) : JSMap :=
  match m with
  | [] => [(key, value)]
  | (k, v) :: m' =>
      if decide (k = key) then (k, value) :: m'
      else (k, v) :: Map_set m' key value
  end.

(** The body of the [forEach] in [getTopMostErrorLocationsByFilePath]. *)
Definition recordErrorLocation
    (errorLocations : JSMap) (message : DiagnosticMessage) : JSMap :=
  match msg_scope message, msg_filePath message with
  | ScopeFile, Some filePath =>
      let line :=
        Z.max (match msg_range message with
               | Some range => row (range_start range)
               | None => 0
               end) 0 in
      let line :=
        match Map_get errorLocations filePath with
        | Some prevMinLine => Z.min prevMinLine line
        | None => line
        end in
      Map_set errorLocations filePath line
  | _, _ => errorLocations
  end.

Definition getTopMostErrorLocationsByFilePath
    (messages : list DiagnosticMessage) : JSMap :=
  foldl recordErrorLocation [] messages.

(** The subscriber of [openAllFilesWithErrors], run on the first list of
    messages. *)
Definition openAllFilesWithErrors (messages : list DiagnosticMessage)
  : list Action :=
  TrackEvent "diagnostics-panel-open-all-files-with-errors" ::
  (let errorsToOpen := getTopMostErrorLocationsByFilePath messages in
   if (MAX_OPEN_ALL_FILES <? length errorsToOpen)%nat
   then [AddError "Diagnostics: Will not open more than 20 files"]
   else
     map (fun entry : string * Z =>
            GoToLocation (Some (fst entry)) (Some (snd entry)) (Some 0))
       errorsToOpen).

(** [array[i]] for an integer [i]. *)
Definition at_index {A} (l : list A) (i : Z) : option A :=
  if i <? 0 then None else l !! Z.to_nat i.

Module KeyboardShortcuts.

Record t := mk {
  _diagnostics : list DiagnosticMessage;
  _index : option Z;
  _traceIndex : option Z
}.

Definition new : t := mk [] None None.

(** The subscriber of [allMessageUpdates]. *)
Definition on_allMessageUpdates (diagnostics : list DiagnosticMessage)
    (ks : t) : t :=
  mk (List.filter
        (fun diagnostic => bool_decide (msg_scope diagnostic = ScopeFile))
        diagnostics)
     None None.

(** [inl] is a thrown error: a failed [invariant], or a property read off
    [undefined]. *)
Definition gotoCurrentIndex (ks : t) : Error + list Action :=
  match _index ks with
  | None => inl "invariant"
  | Some index =>
      match _traceIndex ks with
      | Some _ => inl "invariant"
      | None =>
          match at_index (_diagnostics ks) index with
          | None => inl "TypeError"
          | Some diagnostic =>
              match msg_range diagnostic with
              | None => inr [GoToLocation (msg_filePath diagnostic) None None]
              | Some range =>
                  inr [GoToLocation (msg_filePath diagnostic)
                         (Some (row (range_start range)))
                         (Some (column (range_start range)))]
              end
          end
      end
  end.

Definition setIndex (index : Z) (ks : t) : Error + t * list Action :=
  let ks := mk (_diagnostics ks) (_index ks) None in
  if (length (_diagnostics ks) =? 0)%nat
  then inr (mk (_diagnostics ks) None (_traceIndex ks), [])
  else
    let ks :=
      mk (_diagnostics ks)
         (Some (Z.max 0 (Z.min index (Z.of_nat (length (_diagnostics ks)) - 1))))
         (_traceIndex ks) in
    match gotoCurrentIndex ks with
    | inl e => inl e
    | inr actions => inr (ks, actions)
    end.

Definition first (ks : t) : Error + t * list Action := setIndex 0 ks.

Definition last (ks : t) : Error + t * list Action :=
  setIndex (Z.of_nat (length (_diagnostics ks)) - 1) ks.

Definition next (ks : t) : Error + t * list Action :=
  match _index ks with
  | None => first ks
  | Some index => setIndex (index + 1) ks
  end.

Definition previous (ks : t) : Error + t * list Action :=
  match _index ks with
  | None => last ks
  | Some index => setIndex (index - 1) ks
  end.

Definition currentTraces (ks : t) : Error + option (list Trace) :=
  match _index ks with
  | None => inr None
  | Some index =>
      match at_index (_diagnostics ks) index with
      | None => inl "TypeError"
      | Some diagnostic => inr (msg_trace diagnostic)
      end
  end.

Definition trySetCurrentTrace (traces : list Trace) (traceIndex : Z) (ks : t)
  : Error + bool * t * list Action :=
  match at_index traces traceIndex with
  | None => inl "TypeError"
  | Some trace =>
      match trace_filePath trace, trace_range trace with
      | Some filePath, Some range =>
          inr (true, mk (_diagnostics ks) (_index ks) (Some traceIndex),
               [GoToLocation (Some filePath)
                  (Some (row (range_start range)))
                  (Some (column (range_start range)))])
      | _, _ => inr (false, ks, [])
      end
  end.

(** What follows a trace loop that found nothing. *)
Definition backToDiagnostic (ks : t) : Error + t * list Action :=
  let ks := mk (_diagnostics ks) (_index ks) None in
  match gotoCurrentIndex ks with
  | inl e => inl e
  | inr actions => inr (ks, actions)
  end.

(** The [while] loop of [nextTrace]; [None] when [fuel] runs out. *)
Fixpoint nextTrace_loop (fuel : nat) (traces : list Trace)
    (candidateTrace : Z) (ks : t) : option (Error + t * list Action) :=
  if candidateTrace <? Z.of_nat (length traces)
  then
    match fuel with
    | O => None
    | S fuel =>
        match trySetCurrentTrace traces candidateTrace ks with
        | inl e => Some (inl e)
        | inr (true, ks, actions) => Some (inr (ks, actions))
        | inr (false, ks, _) =>
            nextTrace_loop fuel traces (candidateTrace + 1) ks
        end
    end
  else Some (backToDiagnostic ks).

Definition nextTrace (ks : t) : option (Error + t * list Action) :=
  match currentTraces ks with
  | inl e => Some (inl e)
  | inr None => Some (inr (ks, []))
  | inr (Some traces) =>
      let candidateTrace :=
        match _traceIndex ks with
        | None => 0
        | Some traceIndex => traceIndex + 1
        end in
      nextTrace_loop (S (length traces)) traces candidateTrace ks
  end.

(** The [while] loop of [previousTrace]. *)
Fixpoint previousTrace_loop (fuel : nat) (traces : list Trace)
    (candidateTrace : Z) (ks : t) : option (Error + t * list Action) :=
  if 0 <=? candidateTrace
  then
    match fuel with
    | O => None
    | S fuel =>
        match trySetCurrentTrace traces candidateTrace ks with
        | inl e => Some (inl e)
        | inr (true, ks, actions) => Some (inr (ks, actions))
        | inr (false, ks, _) =>
            previousTrace_loop fuel traces (candidateTrace - 1) ks
        end
    end
  else Some (backToDiagnostic ks).

Definition previousTrace (ks : t) : option (Error + t * list Action) :=
  match currentTraces ks with
  | inl e => Some (inl e)
  | inr None => Some (inr (ks, []))
  | inr (Some traces) =>
      let candidateTrace :=
        match _traceIndex ks with
        | None => Z.of_nat (length traces) - 1
        | Some traceIndex => traceIndex - 1
        end in
      previousTrace_loop (S (length traces)) traces candidateTrace ks
  end.

(** The commands and the message updates. *)
Inductive Command :=
| GoToFirst
| GoToLast
| GoToNext
| GoToPrevious
| GoToNextTrace
| GoToPreviousTrace
| MessageUpdate (diagnostics : list DiagnosticMessage).

Definition run (command : Command) (ks : t)
  : option (Error + t * list Action) :=
  match command with
  | GoToFirst => Some (first ks)
  | GoToLast => Some (last ks)
  | GoToNext => Some (next ks)
  | GoToPrevious => Some (previous ks)
  | GoToNextTrace => nextTrace ks
  | GoToPreviousTrace => previousTrace ks
  | MessageUpdate diagnostics =>
      Some (inr (on_allMessageUpdates diagnostics ks, []))
  end.

(** The states the object goes through: a command that throws leaves no
    successor. *)
Inductive reachable : t -> Prop :=
| reachable_new : reachable new
| reachable_run command ks ks' actions :
    reachable ks ->
    run command ks = Some (inr (ks', actions)) ->
    reachable ks'.

End KeyboardShortcuts.

End Diagnostics.

(** ** Inputs used in the examples *)

Module Examples.

Definition anyScope (_ : string) : bool := true.

Definition range05 : Range := mkRange (mkPoint 0 0) (mkPoint 0 5).

Definition tipA : Datatip := mkDatatip "A" (Some range05) None.
Definition tipB : Datatip := mkDatatip "B" (Some range05) None.

(** A provider that always resolves to [tip]. *)
Definition resolving (name : string) (priority : Z) (tip : Datatip)
  : DatatipProvider :=
  mkDatatipProvider (Some name) priority anyScope
    (fun _ _ => Resolved (Some tip)).

(** A provider whose invocation throws. *)
Definition throwing (name : string) (priority : Z) : DatatipProvider :=
  mkDatatipProvider (Some name) priority anyScope (fun _ _ => Threw "boom").

Definition providerLow : DatatipProvider := resolving "low" 5 tipA.
Definition providerHigh : DatatipProvider := resolving "high" 10 tipB.
Definition providerOff : DatatipProvider := resolving "off" 0 tipB.
Definition providerBad : DatatipProvider := throwing "bad" 1.

(** An editor whose text component maps a pointer at [clientX] to column
    [clientX] of row 0, one pixel per column. *)
Definition text : TextComponent :=
  mkTextComponent
    (fun e => mkPoint 0 (clientX e))
    (fun e => mkPixel (clientX e) 0)
    (fun p => mkPixel (column p) 0).

Definition theEditor : Editor :=
  mkEditor "source.js" (Some text) 1 (fun p => p) (mkPoint 0 2) (mkPoint 0 2)
    true.

Definition cfg : Config := mkConfig JSUndefined JSUndefined.

(** Both delays configured as NaN. *)
Definition cfgNaN : Config := mkConfig (JSNumber S754_nan) (JSNumber S754_nan).

Definition env_at (now : Z) (hovering : PinnedDatatip -> bool) : Env :=
  mkEnv theEditor now hovering cfg.

Definition nobody (_ : PinnedDatatip) : bool := false.
Definition everybody (_ : PinnedDatatip) : bool := true.

Definition invokeAt (provider : DatatipProvider) : Settled (option Datatip) :=
  datatip provider theEditor (mkPoint 0 2).

Definition mouseAt (x : Z) : MouseEvent :=
  mkMouseEvent x 0 false false false false.

Definition env0 : Env := env_at 0 nobody.
Definition envNaN : Env := mkEnv theEditor 0 nobody cfgNaN.
Definition envHovering : Env := env_at 0 everybody.

Definition altKeyEvent : KeyboardEvent := mkKeyboardEvent (Some ALT).
Definition escapeKeyEvent : KeyboardEvent := mkKeyboardEvent None.

(** The doubles 250 and -250. *)
Definition SF250 : spec_float := S754_finite false 8796093022208000 (-45).
Definition SFminus250 : spec_float := S754_finite true 8796093022208000 (-45).

(** Run a list of events, each in its own environment. *)
Definition run (evs : list (Env * Event)) (w : World) : World :=
  foldl (fun w ee => handle (fst ee) (snd ee) w) w evs.

(** The toggle command from the palette, then the fetch it started
    settles: the tooltip of [providerLow] is shown. *)
Definition show : list (Env * Event) :=
  [(env0, Toggle None); (env0, FetchSettles 0)].

(** The tooltip is shown, and hidden by a key at time 1000. *)
Definition hiddenAt1000 : World :=
  run (show ++ [(env_at 1000 nobody, KeyDown escapeKeyEvent)])
    (initial env0 [providerLow] []).

Definition envSoon : Env := env_at 1050 nobody.
Definition envLate : Env := env_at 1101 nobody.

(** A hidden session with the pointer over column 2. *)
Definition pointerAt2 : Session :=
  session (run [(env0, MouseMove (mouseAt 2))]
             (initial env0 [providerLow] [])).

(** A manager with the provider [providerLow] and one open editor,
    number 7. *)
Definition oneEditor : DatatipManager.t :=
  DatatipManager.on_editor env0 7%positive
    (DatatipManager.addProvider providerLow DatatipManager.new).

End Examples.


(** ** Inputs used in the further examples *)

Module Scenarios.
Import Examples Diagnostics Diagnostics.KeyboardShortcuts.

(** A tooltip of [providerLow] over columns 0 to 5, freshly shown. *)
Definition visibleSession : Session :=
  session (Examples.run show (initial env0 [providerLow] [])).


(** The doubles 0.4 (the nearest one), 15 and -10. *)
Definition SF0_4 : spec_float := S754_finite false 7205759403792794 (-54).
Definition SF15 : spec_float := S754_finite false 8444249301319680 (-49).
Definition SFminus10 : spec_float := S754_finite true 5629499534213120 (-49).

(** The same with the pointer over column 9, outside the range. *)
Definition pointerAway : Session :=
  set_lastMoveEvent (Some (mouseAt 9)) visibleSession.

(** A fetch in flight with the pointer over column 2. *)
Definition fetchingSession : Session :=
  session (Examples.run [(env0, MouseMove (mouseAt 2)); (env0, Toggle None)]
             (initial env0 [providerLow] [])).

(** A hidden session whose last mousemove was left of the content. *)
Definition pointerLeftOfText : Session :=
  session (Examples.run [(env0, MouseMove (mouseAt (-3)))]
             (initial env0 [providerLow] [])).

Definition dataA : FetchData := mkFetchData (Some range05) [(tipA, "low")].

(** Two messages of a.js, the second with two traces of which only the
    second can be gone to, and one project message. *)
Definition traceWithoutFile : Trace := mkTrace None None.
Definition traceInB : Trace :=
  mkTrace (Some "b.js") (Some (mkRange (mkPoint 7 0) (mkPoint 7 4))).

Definition messageAt3 : DiagnosticMessage :=
  mkDiagnosticMessage ScopeFile "unused variable" (Some "a.js")
    (Some (mkRange (mkPoint 3 1) (mkPoint 3 6))) None.

Definition messageAt1 : DiagnosticMessage :=
  mkDiagnosticMessage ScopeFile "type error" (Some "a.js")
    (Some (mkRange (mkPoint 1 0) (mkPoint 1 9)))
    (Some [traceWithoutFile; traceInB]).

Definition projectMessage : DiagnosticMessage :=
  mkDiagnosticMessage ScopeProject "build failed" None None None.

Definition someMessages : list DiagnosticMessage :=
  [messageAt3; projectMessage; messageAt1].

(** The shortcuts after these messages arrive, and after going to the
    last diagnostic. *)
Definition shortcutsUpdated : KeyboardShortcuts.t :=
  on_allMessageUpdates someMessages KeyboardShortcuts.new.

Definition shortcutsAtLast : KeyboardShortcuts.t :=
  KeyboardShortcuts.mk [messageAt3; messageAt1] (Some 1) None.

(** An editor with one message over columns 0 to 5 of row 0, and the
    diagnostics provider as the only provider. *)
Definition messageAt0 : DiagnosticMessage :=
  mkDiagnosticMessage ScopeFile "missing semicolon" (Some "a.js")
    (Some range05) None.

Definition diagnosticsOf (_ : Editor) : option (list DiagnosticMessage) :=
  Some [messageAt0].

Definition diagnosticsEnv : Env :=
  mkEnv theEditor 0 nobody cfg.

End Scenarios.

(** ** Vocabulary of the properties *)

Section Vocabulary.
Context {T : Type} `{AnyDatatipProvider T}.

(** The invocation of a provider rejects or throws. *)
Definition fails (invoke : T -> Settled (option Datatip)) (provider : T)
  : Prop :=
  exists e, invoke provider = Rejected e \/ invoke provider = Threw e.

(** The entry the [catch] block writes for a provider. *)
Definition errorEntry (provider : T) : Effect :=
  LoggerError
    ("Error getting datatip from provider " ++ fst (getProviderName provider)).

End Vocabulary.

(** A configured delay that [ensurePositiveNumber] does not accept: a value
    whose [typeof] is not "number", or a number below zero.  NaN is neither:
    its type is "number" and no comparison with it holds. *)
Inductive invalidDelay : JSValue -> Prop :=
| invalid_not_a_number value :
    typeof value <> "number" -> invalidDelay value
| invalid_negative x :
    SFltb x SFzero = true -> invalidDelay (JSNumber x).

Definition is_mousemove (ev : Event) : bool :=
  match ev with MouseMove _ => true | _ => false end.

(** What one handler can do to the state and the overlay. *)
Inductive Transition (s s' : Session) : Prop :=
| T_hide :
    _datatipState s' = HIDDEN ->
    (_datatipState s <> HIDDEN ->
     _marker s' = None /\ rendered (_datatipElement s') = None) ->
    (_datatipState s = HIDDEN ->
     _marker s' = _marker s /\ _datatipElement s' = _datatipElement s) ->
    Transition s s'
| T_mount :
    _datatipState s' = VISIBLE ->
    is_Some (_marker s') ->
    display (_datatipElement s') = DisplayBlock ->
    Transition s s'
| T_fetch :
    _datatipState s' = FETCHING ->
    _marker s' = _marker s ->
    _datatipElement s' = _datatipElement s ->
    Transition s s'
| T_same :
    _datatipState s' = _datatipState s ->
    _marker s' = _marker s ->
    _datatipElement s' = _datatipElement s ->
    Transition s s'
| T_unmount :
    _datatipState s' = _datatipState s ->
    _marker s' = None ->
    rendered (_datatipElement s') = None ->
    Transition s s'.

(** *** Vocabulary of the further properties *)

Section ProviderVocabulary.
Context {T : Type} `{AnyDatatipProvider T}.

(** The test of [filterProvidersByScopeName]. *)
Definition applicable (scope : string) (provider : T) : bool :=
  (0 <? inclusionPriority provider) && validForScope provider scope.

(** Descending inclusion priority. *)
Definition descending (providerA providerB : T) : Prop :=
  inclusionPriority providerB <= inclusionPriority providerA.

End ProviderVocabulary.

Definition is_invoke (e : Effect) : bool :=
  match e with Invoke _ => true | _ => false end.

(** The three places that hold the overlay. *)
Definition overlay (s : Session)
  : option Range * option Marker * Element :=
  (_range s, _marker s, _datatipElement s).

(** The overlay as [mountDatatipWithMarker] leaves it. *)
Definition mounted (range : Range) (content : Rendered)
  : option Range * option Marker * Element :=
  (Some range,
   Some (mkMarker range (mkElement DisplayBlock (Some content))),
   mkElement DisplayBlock (Some content)).

(** The overlay as [_hideDatatip] leaves it. *)
Definition unmounted : option Range * option Marker * Element :=
  (None, None, mkElement DisplayNone None).

(** A burst of mousemove events, and of wheel events over the tooltip. *)
Definition mousemoves (moves : list (Env * MouseEvent)) (s : Session)
  : Session :=
  foldl (fun s ee => on_mousemove (fst ee) (snd ee) s) s moves.

Definition wheels (deltas : list spec_float) (s : Session) : Session :=
  foldl (fun s deltaX => on_datatip_wheel deltaX s) s deltas.

(** The running total of wheel distances: the double that adding the
    absolute values one after the other, each sum rounded, arrives at. *)
Definition wheelTotal (start : spec_float) (deltas : list spec_float)
  : spec_float :=
  foldl (fun total deltaX => js_add total (Math_abs deltaX)) start deltas.

(** The two arrays a session holds. *)
Definition arrays (s : Session)
  : list DatatipProvider * list ModifierDatatipProvider :=
  (_datatipProviders s, _modifierDatatipProviders s).

(** Every session of the manager holds what the manager's two arrays
    hold. *)
Definition shares_arrays (m : DatatipManager.t) : Prop :=
  forall editor manager,
    DatatipManager._editorManagers m !! editor = Some manager ->
    arrays manager
    = (DatatipManager._datatipProviders m,
       DatatipManager._modifierDatatipProviders m).

(** The one event that is the manager writing the shared arrays. *)
Definition is_array_mutation (ev : Event) : bool :=
  match ev with SharedArraysMutated _ _ => true | _ => false end.

(** *** Vocabulary of the diagnostics properties *)

Module DiagnosticsVocabulary.
Import Diagnostics Diagnostics.KeyboardShortcuts.

(** The messages [getTopMostErrorLocationsByFilePath] counts for a file,
    and the line it takes from one. *)
Definition reportsFile (filePath : string) (message : DiagnosticMessage)
  : Prop :=
  msg_scope message = ScopeFile /\ msg_filePath message = Some filePath.

Definition lineOf (message : DiagnosticMessage) : Z :=
  Z.max (match msg_range message with
         | Some range => row (range_start range)
         | None => 0
         end) 0.

Definition is_goto (action : Action) : bool :=
  match action with GoToLocation _ _ _ => true | _ => false end.

(** A trace the trace commands can go to. *)
Definition navigable (trace : Trace) : Prop :=
  is_Some (trace_filePath trace) /\ is_Some (trace_range trace).

(** Where [gotoCurrentIndex] goes for a diagnostic. *)
Definition locationOf (diagnostic : DiagnosticMessage) : Action :=
  match msg_range diagnostic with
  | None => GoToLocation (msg_filePath diagnostic) None None
  | Some range =>
      GoToLocation (msg_filePath diagnostic)
        (Some (row (range_start range)))
        (Some (column (range_start range)))
  end.

(** The index is null or points into [_diagnostics]; the trace index is
    null or points at a navigable trace of the current diagnostic. *)
Definition in_bounds (ks : t) : Prop :=
  match _index ks with
  | None => _traceIndex ks = None
  | Some index =>
      0 <= index < Z.of_nat (length (_diagnostics ks))
      /\ match _traceIndex ks with
         | None => True
         | Some traceIndex =>
             exists diagnostic traces trace,
               at_index (_diagnostics ks) index = Some diagnostic
               /\ msg_trace diagnostic = Some traces
               /\ at_index traces traceIndex = Some trace
               /\ navigable trace
         end
  end.

(** The outcome of a trace loop over the traces of the current diagnostic:
    the trace index points at a navigable trace, or is null again. *)
Definition found (ks ks' : t) (traces : list Trace) (j : Z) : Prop :=
  ks' = mk (_diagnostics ks) (_index ks) (Some j)
  /\ exists trace, at_index traces j = Some trace /\ navigable trace.

End DiagnosticsVocabulary.

(** * Properties *)

(** ** The provider race *)

Section RaceFacts.
Context {T : Type} `{AnyDatatipProvider T}.
Implicit Types (providers : list T) (invoke : T -> Settled (option Datatip)).

Lemma mapTraced_fst {A B} (f : A -> Traced B) (l : list A) :
  fst (mapTraced f l) = map (fun a => fst (f a)) l.
Proof.
  induction l as [|a l IH]; [reflexivity|].
  cbn [mapTraced map]. unfold bind.
  destruct (f a) as [b t1]. destruct (mapTraced f l) as [bs t2].
  cbn in *. now rewrite IH.
Qed.

Lemma mapTraced_snd {A B} (f : A -> Traced B) (l : list A) :
  snd (mapTraced f l) = concat (map (fun a => snd (f a)) l).
Proof.
  induction l as [|a l IH]; [reflexivity|].
  cbn [mapTraced map concat]. unfold bind.
  destruct (f a) as [b t1]. destruct (mapTraced f l) as [bs t2].
  cbn in *. rewrite <- IH. now rewrite app_nil_r.
Qed.

Lemma asyncFind_map {A B U} (f : A -> B) (test : B -> option U) (l : list A) :
  asyncFind (map f l) test = asyncFind l (fun a => test (f a)).
Proof.
  induction l as [|a l IH]; [reflexivity|].
  cbn. destruct (test (f a)); [reflexivity | exact IH].
Qed.

Lemma asyncFind_ext {A U} (f g : A -> option U) (l : list A) :
  (forall a, f a = g a) -> asyncFind l f = asyncFind l g.
Proof.
  intros E. induction l as [|a l IH]; [reflexivity|].
  cbn. rewrite E. destruct (g a); [reflexivity | exact IH].
Qed.

Lemma asyncFind_app {A U} (test : A -> option U) (l1 l2 : list A) :
  asyncFind (l1 ++ l2) test =
  match asyncFind l1 test with
  | Some r => Some r
  | None => asyncFind l2 test
  end.
Proof.
  induction l1 as [|a l1 IH]; [reflexivity|].
  cbn. destruct (test a); [reflexivity | exact IH].
Qed.

Lemma asyncFind_none {A U} (test : A -> option U) (l : list A) :
  (forall a, In a l -> test a = None) -> asyncFind l test = None.
Proof.
  induction l as [|a l IH]; intros Hn; [reflexivity|].
  cbn. rewrite (Hn a (or_introl eq_refl)).
  apply IH. intros b Hb. apply Hn. now right.
Qed.

(** The promise of one provider settles to what the provider resolves to,
    and to null when it resolves to null, rejects or throws. *)
Lemma datatipPromise_fst invoke (provider : T) :
  fst (datatipPromise invoke provider) = resolvesTo invoke provider.
Proof.
  unfold datatipPromise, resolvesTo, getProviderName, bind, tell, ret.
  destruct (providerName provider); cbn;
    destruct (invoke provider) as [[d|]|e|e]; reflexivity.
Qed.

(** With no applicable provider the race returns null and nothing runs:
    no provider is invoked and nothing is logged. *)
Lemma race_no_applicable providers editor position invoke :
  filterProvidersByScopeName providers (scopeName editor) = [] ->
  getTopDatatipAndProvider providers editor position invoke = (None, []).
Proof.
  intros E. unfold getTopDatatipAndProvider. now rewrite E.
Qed.

(** With an applicable provider the race maps over the whole [providers]
    array, in registration order. *)
Lemma race_registration_order providers editor position invoke :
  filterProvidersByScopeName providers (scopeName editor) <> [] ->
  fst (getTopDatatipAndProvider providers editor position invoke) =
  asyncFind providers (resolvesTo invoke).
Proof.
  intros NE. unfold getTopDatatipAndProvider.
  destruct (filterProvidersByScopeName providers (scopeName editor))
    as [|p0 ps] eqn:E; [congruence|].
  cbn [length Nat.eqb]. unfold bind, ret.
  pose proof (mapTraced_fst (datatipPromise invoke) providers) as Hm.
  destruct (mapTraced (datatipPromise invoke) providers) as [bs t].
  cbn in *. subst bs.
  rewrite asyncFind_map. apply asyncFind_ext. apply datatipPromise_fst.
Qed.

(** Its trace is the traces of the promises, provider by provider. *)
Lemma race_trace providers editor position invoke :
  filterProvidersByScopeName providers (scopeName editor) <> [] ->
  snd (getTopDatatipAndProvider providers editor position invoke) =
  concat (map (fun p => snd (datatipPromise invoke p)) providers).
Proof.
  intros NE. unfold getTopDatatipAndProvider.
  destruct (filterProvidersByScopeName providers (scopeName editor))
    as [|p0 ps] eqn:E; [congruence|].
  cbn [length Nat.eqb]. unfold bind, ret.
  pose proof (mapTraced_snd (datatipPromise invoke) providers) as Hm.
  destruct (mapTraced (datatipPromise invoke) providers) as [bs t].
  cbn in *. subst t. apply app_nil_r.
Qed.

(** When [providers] is already what the filter returns (every provider
    applicable, registered in descending priority order), the race is the
    race of the spec. *)
Lemma race_agrees_when_sorted providers editor position invoke :
  filterProvidersByScopeName providers (scopeName editor) = providers ->
  fst (getTopDatatipAndProvider providers editor position invoke)
  = spec_race providers editor invoke.
Proof.
  intros E. unfold spec_race. rewrite E.
  destruct providers as [|p ps].
  - now rewrite race_no_applicable.
  - apply race_registration_order. rewrite E. discriminate.
Qed.

(** If every provider resolves to null, rejects or throws, the race
    returns null. *)
Lemma race_all_null providers editor position invoke :
  (forall p, In p providers -> resolvesTo invoke p = None) ->
  fst (getTopDatatipAndProvider providers editor position invoke) = None.
Proof.
  intros Hn.
  destruct (filterProvidersByScopeName providers (scopeName editor)) eqn:E.
  - now rewrite race_no_applicable.
  - rewrite race_registration_order by congruence.
    now apply asyncFind_none.
Qed.

End RaceFacts.

Section RaceFailures.
Context {T : Type} `{AnyDatatipProvider T}.
Implicit Types (providers : list T) (invoke : T -> Settled (option Datatip)).

Ltac count_entries :=
  repeat first
    [ rewrite count_occ_cons_eq by reflexivity
    | rewrite count_occ_cons_neq by (cbn; discriminate) ];
  reflexivity.

(** A provider that rejects or throws counts as one that resolved to
    null. *)
Lemma failure_is_null invoke (provider : T) :
  fails invoke provider -> fst (datatipPromise invoke provider) = None.
Proof.
  intros [e [E|E]]; rewrite datatipPromise_fst; unfold resolvesTo;
    now rewrite E.
Qed.

(** Its promise logs the [catch] entry, naming the provider, exactly
    once. *)
Lemma failure_logged_once invoke (provider : T) :
  fails invoke provider ->
  count_occ Effect_eq_dec (snd (datatipPromise invoke provider))
    (errorEntry provider) = 1%nat.
Proof.
  intros [e [E|E]];
    unfold errorEntry, datatipPromise, getProviderName, bind, tell, ret;
    rewrite E; destruct (providerName provider); cbn [fst snd app];
    count_entries.
Qed.

(** A provider that resolves logs no [catch] entry. *)
Lemma success_not_logged invoke (provider : T) r :
  invoke provider = Resolved r ->
  count_occ Effect_eq_dec (snd (datatipPromise invoke provider))
    (errorEntry provider) = 0%nat.
Proof.
  intros E.
  unfold errorEntry, datatipPromise, getProviderName, bind, tell, ret.
  rewrite E. destruct (providerName provider), r; cbn [fst snd app];
    count_entries.
Qed.

(** The failure does not stop the race: as long as the other providers
    still include an applicable one, the outcome is the outcome over the
    other providers. *)
Lemma failure_skipped invoke editor position (l1 l2 : list T) (provider : T) :
  fails invoke provider ->
  filterProvidersByScopeName (l1 ++ l2) (scopeName editor) <> [] ->
  filterProvidersByScopeName (l1 ++ provider :: l2) (scopeName editor) <> [] ->
  fst (getTopDatatipAndProvider (l1 ++ provider :: l2) editor position invoke)
  = fst (getTopDatatipAndProvider (l1 ++ l2) editor position invoke).
Proof.
  intros F N1 N2.
  rewrite !race_registration_order by assumption.
  rewrite !asyncFind_app. cbn [asyncFind].
  assert (resolvesTo invoke provider = None) as ->; [|reflexivity].
  rewrite <- datatipPromise_fst. now apply failure_is_null.
Qed.

End RaceFailures.

Import Examples.

(** C1 (code defect).  The race maps over [providers], not over the sorted
    list of applicable providers it has just computed: with a priority-5
    provider registered before a priority-10 one, the race returns the
    priority-5 result, where the first provider in descending priority
    order is the priority-10 one. *)
Theorem C1_race_ignores_priority_order :
  snd <$> fst (getTopDatatipAndProvider [providerLow; providerHigh]
                 theEditor (mkPoint 0 2) invokeAt) = Some tipA
  /\ snd <$> spec_race [providerLow; providerHigh] theEditor invokeAt
     = Some tipB
  /\ tipA <> tipB.
Proof. split; [reflexivity | split; [reflexivity | discriminate]]. Qed.

(** For the same reason a provider with priority 0 is invoked, and wins,
    as soon as some other provider is applicable. *)
Example race_invokes_inapplicable :
  filterProvidersByScopeName [providerOff; providerLow] "source.js"
  = [providerLow]
  /\ snd <$> fst (getTopDatatipAndProvider [providerOff; providerLow]
                    theEditor (mkPoint 0 2) invokeAt) = Some tipB
  /\ In (Invoke "off")
       (snd (getTopDatatipAndProvider [providerOff; providerLow]
               theEditor (mkPoint 0 2) invokeAt)).
Proof. split; [reflexivity | split; [reflexivity | cbn; tauto]]. Qed.

(** [filterProvidersByScopeName] itself orders by descending priority. *)
Example filter_sorts_descending :
  filterProvidersByScopeName [providerLow; providerOff; providerHigh]
    "source.js" = [providerHigh; providerLow].
Proof. reflexivity. Qed.

(** C6 (code defect, the one of C1).  A provider that throws is the only
    applicable one, next to a priority-0 provider: the race over both
    returns the priority-0 provider's datatip, the race over the other
    provider alone returns null. *)
Theorem C6_failure_changes_outcome :
  invokeAt providerBad = Threw "boom"
  /\ snd <$> fst (getTopDatatipAndProvider [providerBad; providerOff]
                    theEditor (mkPoint 0 2) invokeAt) = Some tipB
  /\ fst (getTopDatatipAndProvider [providerOff]
            theEditor (mkPoint 0 2) invokeAt) = None.
Proof. repeat split; reflexivity. Qed.

(** The log of that race: one entry, naming the provider that threw. *)
Example failure_log :
  List.filter (fun e => match e with LoggerError _ => true | _ => false end)
    (snd (getTopDatatipAndProvider [providerBad; providerOff]
            theEditor (mkPoint 0 2) invokeAt))
  = [LoggerError "Error getting datatip from provider bad"].
Proof. reflexivity. Qed.

(** ** Configured delays *)

Lemma not_less_than_zero x : SFleb SFzero x = true -> SFltb x SFzero = false.
Proof.
  destruct x as [s|s| |s m e]; try destruct s; cbn; congruence.
Qed.

Lemma ensurePositiveNumber_invalid value defaultValue :
  invalidDelay value -> ensurePositiveNumber value defaultValue = defaultValue.
Proof.
  intros [v Hv | x Hx]; cbn.
  - destruct v; cbn in *; congruence.
  - now rewrite Hx.
Qed.

Lemma ensurePositiveNumber_valid x defaultValue :
  SFltb x SFzero = false -> ensurePositiveNumber (JSNumber x) defaultValue = x.
Proof. intros Hx. cbn. now rewrite Hx. Qed.

Lemma invalidDelay_cases value :
  invalidDelay value
  \/ exists x, value = JSNumber x /\ SFltb x SFzero = false.
Proof.
  destruct value as [| | b | str | x | ];
    try (left; apply invalid_not_a_number; discriminate).
  destruct (SFltb x SFzero) eqn:Hx.
  - left. now apply invalid_negative.
  - right. now exists x.
Qed.

Lemma nan_is_not_invalid : ~ invalidDelay (JSNumber S754_nan).
Proof.
  intros H. inversion H as [v Hv | x Hx]; subst.
  - now apply Hv.
  - discriminate Hx.
Qed.

(** C8 (amended).  A configured delay whose type is not number, or that is
    a number below zero, is replaced by the default, which is 1000 for both
    delays.  Every other value is a number that is not below zero and is
    returned unchanged, and is the delay the debounced function is built
    with: the non-negative numbers, and also NaN, which no test of the
    function catches. *)
Theorem C8_ensurePositiveNumber (env : Env) (s : Session) :
  DEFAULT_DATATIP_DEBOUNCE_DELAY = SF1000
  /\ DEFAULT_DATATIP_INTERACTED_DEBOUNCE_DELAY = SF1000
  /\ (forall value d, invalidDelay value -> ensurePositiveNumber value d = d)
  /\ (forall value,
        invalidDelay value
        \/ exists x, value = JSNumber x /\ SFltb x SFzero = false)
  /\ (forall x d,
        SFltb x SFzero = false -> ensurePositiveNumber (JSNumber x) d = x)
  /\ (forall x d,
        SFleb SFzero x = true -> ensurePositiveNumber (JSNumber x) d = x)
  /\ (~ invalidDelay (JSNumber S754_nan)
      /\ forall d, ensurePositiveNumber (JSNumber S754_nan) d = S754_nan)
  /\ (invalidDelay (datatipDebounceDelay (config env)) ->
      wait (_startFetchingDebounce (_setStartFetchingDebounce env s)) = SF1000)
  /\ (invalidDelay (datatipInteractedWithDebounceDelay (config env)) ->
      wait (_hideIfOutsideDebounce (_setHideIfOutsideDebounce env s)) = SF1000)
  /\ (forall x,
        datatipDebounceDelay (config env) = JSNumber x ->
        SFltb x SFzero = false ->
        wait (_startFetchingDebounce (_setStartFetchingDebounce env s)) = x)
  /\ (forall x,
        datatipInteractedWithDebounceDelay (config env) = JSNumber x ->
        SFltb x SFzero = false ->
        wait (_hideIfOutsideDebounce (_setHideIfOutsideDebounce env s)) = x).
Proof.
  split; [reflexivity|]. split; [reflexivity|].
  split; [intros value d; apply ensurePositiveNumber_invalid|].
  split; [apply invalidDelay_cases|].
  split; [intros x d; apply ensurePositiveNumber_valid|].
  split.
  { intros x d Hx. now apply ensurePositiveNumber_valid, not_less_than_zero. }
  split; [split; [apply nan_is_not_invalid | reflexivity]|].
  split; [intros Hv; cbn; now apply ensurePositiveNumber_invalid|].
  split; [intros Hv; cbn; now apply ensurePositiveNumber_invalid|].
  split; intros x E Hx; cbn; rewrite E; now apply ensurePositiveNumber_valid.
Qed.

(** C8 as stated fails at NaN: it is "not a number", and not a non-negative
    number either, yet it is not replaced by the default; the debounced
    functions are built with NaN as their delay. *)
Lemma C8_nan_delay_is_not_replaced :
  typeof (JSNumber S754_nan) = "number"
  /\ SFltb S754_nan SFzero = false
  /\ SFleb SFzero S754_nan = false
  /\ ensurePositiveNumber (JSNumber S754_nan) SF1000 = S754_nan
  /\ S754_nan <> SF1000
  /\ wait (_startFetchingDebounce
             (new_DatatipManagerForEditor envNaN [providerLow] []))
     = S754_nan
  /\ wait (_hideIfOutsideDebounce
             (new_DatatipManagerForEditor envNaN [providerLow] []))
     = S754_nan.
Proof. repeat split; try reflexivity. discriminate. Qed.

(** NaN has type "number" and is not less than zero: it is returned as it
    is. *)
Example ensurePositiveNumber_nan d :
  ensurePositiveNumber (JSNumber S754_nan) d = S754_nan.
Proof. reflexivity. Qed.

(** C8 at a string, at -250, at 250, at NaN, at an unset configuration and
    at a configuration of NaN. *)
Lemma C8_ensurePositiveNumber_witness :
  ensurePositiveNumber (JSString "fast") SF1000 = SF1000
  /\ ensurePositiveNumber (JSNumber SFminus250) SF1000 = SF1000
  /\ ensurePositiveNumber (JSNumber SF250) SF1000 = SF250
  /\ ensurePositiveNumber (JSNumber S754_nan) SF1000 = S754_nan
  /\ wait (_startFetchingDebounce
             (_setStartFetchingDebounce env0
                (new_DatatipManagerForEditor env0 [providerLow] [])))
     = SF1000
  /\ wait (_startFetchingDebounce
             (_setStartFetchingDebounce envNaN
                (new_DatatipManagerForEditor env0 [providerLow] [])))
     = S754_nan.
Proof.
  destruct (C8_ensurePositiveNumber env0
              (new_DatatipManagerForEditor env0 [providerLow] []))
    as (_ & _ & Hinvalid & _ & Hvalid & _ & _ & Hstart & _).
  destruct (C8_ensurePositiveNumber envNaN
              (new_DatatipManagerForEditor env0 [providerLow] []))
    as (_ & _ & _ & _ & _ & _ & _ & _ & _ & HstartNaN & _).
  split; [|split; [|split; [|split; [|split]]]].
  - apply Hinvalid. apply invalid_not_a_number. discriminate.
  - apply Hinvalid. apply invalid_negative. reflexivity.
  - apply Hvalid. reflexivity.
  - apply Hvalid. reflexivity.
  - apply Hstart. apply invalid_not_a_number. discriminate.
  - apply (HstartNaN S754_nan); reflexivity.
Defined.

(** ** The session *)

Section SessionFacts.
Implicit Types (env : Env) (s : Session) (w : World).

Lemma setState_state env st s : _datatipState (_setState env st s) = st.
Proof.
  unfold _setState, _hideDatatip.
  repeat case_match; reflexivity.
Qed.

Lemma session_eta s :
  set_lastPosition (_lastPosition s)
    (set_lastDatatipAndProviderPromise (_lastDatatipAndProviderPromise s) s)
  = s.
Proof. now destruct s. Qed.

(** [_fetchAndRender] touches nothing of the session but the position
    cache. *)
Lemma fetchAndRender_begin_session env position s :
  exists lastPosition promise,
    fst (fst (fetchAndRender_begin env position s)) =
    set_lastPosition lastPosition
      (set_lastDatatipAndProviderPromise promise s).
Proof.
  unfold fetchAndRender_begin, bind, ret.
  repeat case_match; simplify_eq; cbn [fst snd].
  - eexists _, _. symmetry. apply session_eta.
  - eexists _, _. reflexivity.
  - eexists _, _. reflexivity.
Qed.

(** [_startFetching] up to its [await]: either there is no position and
    nothing happens, or the state becomes FETCHING and the call waits. *)
Lemma startFetching_begin_cases env getPosition s :
  (evalGetPosition env s getPosition = None
   /\ fst (startFetching_begin env getPosition s) = (s, None))
  \/ (exists lastPosition promise results,
        evalGetPosition env s getPosition <> None
        /\ fst (startFetching_begin env getPosition s) =
           (set_lastPosition lastPosition
              (set_lastDatatipAndProviderPromise promise
                 (_setState env FETCHING s)),
            Some (mkPendingFetch getPosition results))).
Proof.
  unfold startFetching_begin.
  destruct (evalGetPosition env s getPosition) as [position|]; [right|left].
  - destruct (fetchAndRender_begin_session env position
                (_setState env FETCHING s)) as (lp & pr & E).
    unfold bind, ret.
    destruct (fetchAndRender_begin env position (_setState env FETCHING s))
      as [[s' results] t].
    cbn [fst snd] in *. subst s'. eexists lp, pr, results.
    split; [discriminate | reflexivity].
  - split; reflexivity.
Qed.

(** *** Hide or cancel on a hidden session *)

(** C7 (amended).  On a session whose state is HIDDEN, [_hideOrCancel]
    leaves the state HIDDEN and the overlay as it is, and changes one field:
    the blacklisted position becomes the buffer position under the last
    mouse move (null when there is none).  A second call in the same
    environment changes nothing more. *)
Theorem C7_hideOrCancel_when_hidden env s :
  _datatipState s = HIDDEN ->
  _hideOrCancel env s =
    set_blacklistedPosition
      (getBufferPosition (editor env) (_lastMoveEvent s)) s
  /\ _datatipState (_hideOrCancel env s) = HIDDEN
  /\ _marker (_hideOrCancel env s) = _marker s
  /\ _datatipElement (_hideOrCancel env s) = _datatipElement s
  /\ _hideOrCancel env (_hideOrCancel env s) = _hideOrCancel env s.
Proof.
  intros Hs.
  assert (_hideOrCancel env s =
          set_blacklistedPosition
            (getBufferPosition (editor env) (_lastMoveEvent s)) s) as E.
  { unfold _hideOrCancel. now rewrite Hs. }
  rewrite E. split; [reflexivity|]. split; [exact Hs|].
  split; [reflexivity|]. split; [reflexivity|].
  unfold _hideOrCancel. cbn. now rewrite Hs.
Qed.

(** When the pointer is over no text, and nothing was blacklisted, the call
    changes nothing at all. *)
Lemma hideOrCancel_noop_without_position env s :
  _datatipState s = HIDDEN ->
  _blacklistedPosition s = None ->
  getBufferPosition (editor env) (_lastMoveEvent s) = None ->
  _hideOrCancel env s = s.
Proof.
  intros Hs Hb Hp. unfold _hideOrCancel. rewrite Hs, Hp. cbn.
  destruct s; cbn in *; now subst.
Qed.

(** *** The toggle command *)

(** C5 (amended).  For the session of the active editor, a toggle command
    delivered as a keydown more than 100ms after the last hide starts a
    fetch at the cursor position whatever the state is; delivered up to
    100ms after the last hide it does nothing. *)
Theorem C5_toggle_keydown env s :
  isActiveTextEditor (editor env) = true ->
  (100 < performance_now env - _lastHiddenTime s ->
   exists s' results,
     fst (_toggleDatatip env (Some "keydown") s) =
       (s', Some (mkPendingFetch CursorScreenPosition results))
     /\ _datatipState s' = FETCHING
     /\ _lastFetchedFromCursorPosition s' = true)
  /\ (performance_now env - _lastHiddenTime s <= 100 ->
      _toggleDatatip env (Some "keydown") s = ((s, None), [])).
Proof.
  intros Ha. unfold _toggleDatatip. rewrite Ha. cbn [negb].
  split; intros Ht.
  - assert ((100 <? performance_now env - _lastHiddenTime s) = true) as ->
      by now apply Z.ltb_lt.
    cbn [bool_decide decide_rel andb orb].
    rewrite bool_decide_eq_true_2 by reflexivity. cbn [andb orb].
    destruct (startFetching_begin_cases env CursorScreenPosition
                (set_lastFetchedFromCursorPosition true s))
      as [[E _] | (lp & pr & results & _ & E)]; [discriminate E|].
    rewrite E. eexists _, results. split; [reflexivity|].
    cbn. rewrite setState_state. split; [reflexivity|].
    unfold _setState. cbn. reflexivity.
  - assert ((100 <? performance_now env - _lastHiddenTime s) = false) as ->
      by now apply Z.ltb_ge.
    rewrite bool_decide_eq_true_2 by reflexivity.
    rewrite (bool_decide_eq_false_2 (Some "keydown" <> Some "keydown"))
      by (intros N; now apply N).
    rewrite (bool_decide_eq_false_2 (Some "keydown" = Some "keyup"))
      by discriminate.
    reflexivity.
Qed.

(** *** The mouse move after a focus *)

Lemma setState_keeps_drop_flag env st s :
  _shouldDropNextMouseMoveAfterFocus (_setState env st s)
  = _shouldDropNextMouseMoveAfterFocus s.
Proof. unfold _setState, _hideDatatip. repeat case_match; reflexivity. Qed.

Lemma startFetching_begin_keeps_drop_flag env getPosition s :
  _shouldDropNextMouseMoveAfterFocus
    (fst (fst (startFetching_begin env getPosition s)))
  = _shouldDropNextMouseMoveAfterFocus s.
Proof.
  destruct (startFetching_begin_cases env getPosition s)
    as [[_ E] | (lp & pr & results & _ & E)]; rewrite E; cbn [fst].
  - reflexivity.
  - cbn. apply setState_keeps_drop_flag.
Qed.

Lemma fetching_session w (r : Traced (Session * option PendingFetch)) :
  session (fetching w r) = fst (fst r).
Proof. now destruct r as [[s pf] t]. Qed.

Lemma startFetching_withData_keeps_drop_flag env getPosition data s :
  _shouldDropNextMouseMoveAfterFocus
    (startFetching_withData env getPosition data s)
  = _shouldDropNextMouseMoveAfterFocus s.
Proof.
  unfold startFetching_withData, mountDatatipWithMarker.
  repeat case_match; simplify_eq; cbn;
    rewrite ?setState_keeps_drop_flag; reflexivity.
Qed.

(** Only the focus and the mousemove subscriptions write the flag. *)
Lemma handle_keeps_drop_flag env ev w :
  is_mousemove ev = false ->
  _shouldDropNextMouseMoveAfterFocus (session w) = true ->
  _shouldDropNextMouseMoveAfterFocus (session (handle env ev w)) = true.
Proof.
  intros Hev Hflag. destruct ev; try discriminate Hev; cbn [handle];
    rewrite ?fetching_session; cbn [session silent].
  - unfold on_focus. case_match; rewrite ?setState_keeps_drop_flag;
      reflexivity.
  - unfold on_blur. case_match; rewrite ?setState_keeps_drop_flag;
      assumption.
  - unfold on_mouseleave, _hideIfOutside, _hideIfOutsideImmediate.
    repeat case_match; rewrite ?setState_keeps_drop_flag; assumption.
  - unfold on_mousedown, _hideOrCancel.
    repeat case_match; rewrite ?setState_keeps_drop_flag; assumption.
  - unfold on_keydown, _fetchInResponseToKeyPress, _hideOrCancel.
    repeat case_match; cbn [fst ret];
      rewrite ?startFetching_begin_keeps_drop_flag,
        ?setState_keeps_drop_flag;
      assumption.
  - unfold on_keyup, _fetchInResponseToKeyPress.
    repeat case_match; cbn [fst ret];
      rewrite ?startFetching_begin_keeps_drop_flag; assumption.
  - unfold on_datatip_wheel. case_match; assumption.
  - assumption.
  - unfold on_datatip_mouseenter, _hideIfOutside, _hideIfOutsideImmediate.
    repeat case_match; rewrite ?setState_keeps_drop_flag; assumption.
  - unfold on_datatip_mouseleave, _hideIfOutside, _hideIfOutsideImmediate.
    repeat case_match; rewrite ?setState_keeps_drop_flag; assumption.
  - unfold on_scrollTop. case_match; rewrite ?setState_keeps_drop_flag;
      assumption.
  - unfold _toggleDatatip, _hideOrCancel.
    repeat case_match; cbn [fst ret];
      rewrite ?startFetching_begin_keeps_drop_flag,
        ?setState_keeps_drop_flag;
      assumption.
  - assumption.
  - assumption.
  - unfold startFetchingDebounce_fires.
    rewrite startFetching_begin_keeps_drop_flag. assumption.
  - unfold hideIfOutsideDebounce_fires, _hideIfOutsideImmediate.
    repeat case_match; rewrite ?setState_keeps_drop_flag; assumption.
  - destruct (fetches w !! i) as [pf|]; [|assumption].
    unfold startFetching_resume, bind, ret.
    destruct (fetchAndRender_resume env (pf_results pf)) as [[data|e|e] t];
      cbn [session]; rewrite ?app_nil_r;
      rewrite ?startFetching_withData_keeps_drop_flag; assumption.
  - unfold _handlePinClicked, bind, tell, ret. cbn.
    rewrite setState_keeps_drop_flag. assumption.
  - assumption.
  - assumption.
  - unfold pinned_hideDataTips, _hideDatatip. assumption.
  - unfold dispose. rewrite setState_keeps_drop_flag. assumption.
  - assumption.
Qed.

Lemma run_keeps_drop_flag (evs : list (Env * Event)) w :
  Forall (fun ee => is_mousemove (snd ee) = false) evs ->
  _shouldDropNextMouseMoveAfterFocus (session w) = true ->
  _shouldDropNextMouseMoveAfterFocus (session (run evs w)) = true.
Proof.
  intros Hevs. revert w.
  induction Hevs as [|[env ev] evs Hev _ IH]; intros w Hw; [exact Hw|].
  cbn [run foldl]. apply IH. now apply handle_keeps_drop_flag.
Qed.

Lemma focus_sets_drop_flag env w :
  _shouldDropNextMouseMoveAfterFocus (session (handle env Focus w)) = true.
Proof.
  cbn. unfold on_focus. case_match; rewrite ?setState_keeps_drop_flag;
    reflexivity.
Qed.

(** C10.  After a focus, and whatever else happens in between, the first
    mousemove is dropped: it clears the flag the focus handler set (and the
    cursor-fetch flag, which every mousemove clears) and does nothing else;
    it does not record the event, does not call the debounced fetch and does
    not run the hide check.  The mousemove after it is recorded and, in
    state HIDDEN, calls the debounced fetch. *)
Theorem C10_first_mousemove_after_focus_dropped
    env envMove e (evs : list (Env * Event)) w :
  Forall (fun ee => is_mousemove (snd ee) = false) evs ->
  let w1 := run evs (handle env Focus w) in
  let w2 := handle envMove (MouseMove e) w1 in
  _shouldDropNextMouseMoveAfterFocus (session w1) = true
  /\ session w2 =
       set_shouldDropNextMouseMoveAfterFocus false
         (set_lastFetchedFromCursorPosition false (session w1))
  /\ fetches w2 = fetches w1
  /\ trace w2 = trace w1
  /\ _lastMoveEvent (session w2) = _lastMoveEvent (session w1)
  /\ _startFetchingDebounce (session w2) = _startFetchingDebounce (session w1)
  /\ _datatipState (session w2) = _datatipState (session w1)
  /\ _marker (session w2) = _marker (session w1)
  /\ (forall envNext e',
        _datatipState (session w2) = HIDDEN ->
        let w3 := handle envNext (MouseMove e') w2 in
        _lastMoveEvent (session w3) = Some e'
        /\ pending (_startFetchingDebounce (session w3)) = true).
Proof.
  intros Hevs w1 w2.
  assert (_shouldDropNextMouseMoveAfterFocus (session w1) = true) as Hflag.
  { apply run_keeps_drop_flag; [exact Hevs | apply focus_sets_drop_flag]. }
  assert (session w2 =
          set_shouldDropNextMouseMoveAfterFocus false
            (set_lastFetchedFromCursorPosition false (session w1))) as E.
  { subst w2. cbn [handle session silent]. unfold on_mousemove.
    cbn. now rewrite Hflag. }
  split; [exact Hflag|]. split; [exact E|].
  split; [reflexivity|]. split; [reflexivity|].
  rewrite E. repeat (split; [reflexivity|]).
  intros envNext e' Hhidden. cbn [handle session silent].
  rewrite E. unfold on_mousemove. cbn. cbn in Hhidden.
  rewrite Hhidden. cbn. split; reflexivity.
Qed.

(** *** State and overlay *)

Ltac transition :=
  cbn [fst snd session silent ret];
  repeat match goal with
         | H : decide _ = _ |- _ => clear H
         | n : ¬ (_ ≠ _) |- _ => apply dec_stable in n
         end;
  first
    [ solve [apply T_same; cbn; congruence]
    | solve [apply T_hide; cbn; intuition congruence]
    | solve [apply T_fetch; cbn; congruence]
    | solve [apply T_mount; cbn; eauto]
    | solve [apply T_unmount; cbn; congruence] ].

Ltac unfold_session :=
  repeat progress unfold on_focus, on_blur, on_mousemove, on_mouseleave, on_mousedown,
    on_keydown, on_keyup, on_datatip_wheel, on_datatip_mousedown,
    on_datatip_mouseenter, on_datatip_mouseleave, on_scrollTop,
    _toggleDatatip, _fetchInResponseToKeyPress, _hideOrCancel,
    _hideIfOutside, _hideIfOutsideImmediate, hideIfOutsideDebounce_fires,
    startFetchingDebounce_fires, _setStartFetchingDebounce,
    _setHideIfOutsideDebounce, pinned_hideDataTips, pinned_onDispose,
    dispose, createPinnedDataTip, startFetching_withData,
    mountDatatipWithMarker, _setState, _hideDatatip in *.

Lemma startFetching_begin_transition env getPosition s :
  Transition s (fst (fst (startFetching_begin env getPosition s))).
Proof.
  destruct (startFetching_begin_cases env getPosition s)
    as [[_ E] | (lp & pr & results & _ & E)]; rewrite E.
  - transition.
  - unfold_session. repeat case_match; transition.
Qed.

Lemma startFetching_begin_after env getPosition s0 s :
  _datatipState s = _datatipState s0 ->
  _marker s = _marker s0 ->
  _datatipElement s = _datatipElement s0 ->
  Transition s0 (fst (fst (startFetching_begin env getPosition s))).
Proof.
  intros Hst Hm He.
  destruct (startFetching_begin_transition env getPosition s)
    as [H1 H2 H3 | H1 H2 H3 | H1 H2 H3 | H1 H2 H3 | H1 H2 H3].
  - apply T_hide; [assumption | rewrite <- Hst; exact H2 |].
    rewrite <- Hst, <- Hm, <- He. exact H3.
  - now apply T_mount.
  - apply T_fetch; congruence.
  - apply T_same; congruence.
  - apply T_unmount; congruence.
Qed.

Lemma startFetching_withData_transition env getPosition data s :
  Transition s (startFetching_withData env getPosition data s).
Proof.
  unfold_session. repeat case_match; simplify_eq; transition.
Qed.

(** Every handler hides, mounts, starts a fetch, leaves state and overlay
    alone, or (the [hideDataTips] callback) unmounts without a change of
    state. *)
Lemma handle_transition env ev w :
  Transition (session w) (session (handle env ev w)).
Proof.
  destruct ev; cbn [handle]; rewrite ?fetching_session;
    cbn [session silent].
  - unfold_session. repeat case_match; transition.
  - unfold_session. repeat case_match; transition.
  - unfold_session. repeat case_match; transition.
  - unfold_session. repeat case_match; transition.
  - unfold_session. repeat case_match; transition.
  - unfold on_keydown, _fetchInResponseToKeyPress.
    repeat case_match; cbn [fst ret];
      try (apply startFetching_begin_after; reflexivity);
      unfold_session; repeat case_match; transition.
  - unfold on_keyup, _fetchInResponseToKeyPress.
    repeat case_match; cbn [fst ret];
      first [apply startFetching_begin_after; reflexivity | transition].
  - unfold_session. repeat case_match; transition.
  - unfold_session. transition.
  - unfold_session. repeat case_match; transition.
  - unfold_session. repeat case_match; transition.
  - unfold_session. repeat case_match; transition.
  - unfold _toggleDatatip.
    repeat case_match; cbn [fst ret];
      try (apply startFetching_begin_after; reflexivity);
      unfold_session; repeat case_match; transition.
  - unfold_session. transition.
  - unfold_session. transition.
  - unfold startFetchingDebounce_fires.
    apply startFetching_begin_after; reflexivity.
  - unfold_session. repeat case_match; transition.
  - destruct (fetches w !! i) as [pf|]; [|transition].
    unfold startFetching_resume, bind, ret.
    destruct (fetchAndRender_resume env (pf_results pf)) as [[data|e|e] t];
      cbn [session]; try transition.
    apply startFetching_withData_transition.
  - unfold _handlePinClicked, bind, tell, ret. cbn [session fst snd].
    unfold_session. repeat case_match; transition.
  - unfold_session. transition.
  - unfold_session. transition.
  - unfold_session. transition.
  - unfold_session. repeat case_match; transition.
  - unfold shared_arrays_mutated. transition.
Qed.

Lemma run_reachable (evs : list (Env * Event)) w :
  reachable w -> reachable (run evs w).
Proof.
  revert w. induction evs as [|[env ev] evs IH]; intros w Hw; [exact Hw|].
  cbn [run foldl]. apply IH. now apply reachable_step.
Qed.

Lemma reachable_hidden_unmounted w :
  reachable w ->
  _datatipState (session w) = HIDDEN ->
  _marker (session w) = None
  /\ rendered (_datatipElement (session w)) = None.
Proof.
  induction 1 as [env | env ev w Hw IH]; intros Hs.
  - split; reflexivity.
  - destruct (handle_transition env ev w)
      as [H1 H2 H3 | H1 H2 H3 | H1 H2 H3 | H1 H2 H3 | H1 H2 H3].
    + destruct (decide (_datatipState (session w) = HIDDEN)) as [E|N].
      * destruct (H3 E) as [Em Ee]. rewrite Em, Ee. now apply IH.
      * now apply H2.
    + congruence.
    + congruence.
    + rewrite H2, H3. apply IH. congruence.
    + now split.
Qed.

(** C2 (amended).  In every reachable state no overlay exists while the
    state is HIDDEN: every transition into HIDDEN leaves the overlay
    unmounted, and every transition into VISIBLE mounts one. *)
Theorem C2_no_overlay_while_hidden w :
  reachable w ->
  (_datatipState (session w) = HIDDEN ->
   _marker (session w) = None
   /\ rendered (_datatipElement (session w)) = None)
  /\ (forall env ev,
        _datatipState (session (handle env ev w)) = HIDDEN ->
        _marker (session (handle env ev w)) = None
        /\ rendered (_datatipElement (session (handle env ev w))) = None)
  /\ (forall env ev,
        _datatipState (session w) <> VISIBLE ->
        _datatipState (session (handle env ev w)) = VISIBLE ->
        is_Some (_marker (session (handle env ev w)))
        /\ display (_datatipElement (session (handle env ev w)))
           = DisplayBlock).
Proof.
  intros Hw. split; [now apply reachable_hidden_unmounted|]. split.
  - intros env ev. apply reachable_hidden_unmounted.
    now apply reachable_step.
  - intros env ev Hn Hv.
    destruct (handle_transition env ev w)
      as [H1 H2 H3 | H1 H2 H3 | H1 H2 H3 | H1 H2 H3 | H1 H2 H3];
      try congruence.
    now split.
Qed.

(** *** Late results *)

Lemma evalGetPosition_lastMoveEvent env s s' getPosition :
  _lastMoveEvent s' = _lastMoveEvent s ->
  evalGetPosition env s' getPosition = evalGetPosition env s getPosition.
Proof. intros E. destruct getPosition; cbn; now rewrite ?E. Qed.

Lemma setState_lastMoveEvent env st s :
  _lastMoveEvent (_setState env st s) = _lastMoveEvent s.
Proof. unfold _setState, _hideDatatip. repeat case_match; reflexivity. Qed.

(** A result whose range no longer contains the current position is
    discarded: the state becomes HIDDEN. *)
Lemma moved_away_discarded env getPosition data s :
  (forall position range,
     evalGetPosition env s getPosition = Some position ->
     fd_range data = Some range ->
     containsPoint range position = false) ->
  _datatipState (startFetching_withData env getPosition (Some data) s)
  = HIDDEN.
Proof.
  intros Hout. unfold startFetching_withData.
  set (s1 := if decide (_datatipState s <> FETCHING)
             then _setState env HIDDEN s else s).
  assert (evalGetPosition env s1 getPosition
          = evalGetPosition env s getPosition) as Epos.
  { apply evalGetPosition_lastMoveEvent. subst s1.
    case_match; [apply setState_lastMoveEvent | reflexivity]. }
  rewrite Epos.
  repeat case_match; simplify_eq; rewrite ?setState_state; try reflexivity.
  all: match goal with
       | H : negb (containsPoint ?r ?p) = false |- _ =>
           rewrite (Hout p r) in H by first [reflexivity | assumption];
           discriminate H
       end.
Qed.

(** *** Pinned datatips *)

Lemma isHoveringOverPinnedTip_spec env s :
  _isHoveringOverPinnedTip env s = true <->
  exists pinnedDatatip,
    pinnedDatatip ∈ _pinnedDatatips s /\ isHovering env pinnedDatatip = true.
Proof.
  unfold _isHoveringOverPinnedTip. rewrite Nat.ltb_lt. split.
  - intros Hlen.
    destruct (List.filter (isHovering env) (elements (_pinnedDatatips s)))
      as [|p l] eqn:E; [cbn in Hlen; lia|].
    assert (In p (List.filter (isHovering env)
                    (elements (_pinnedDatatips s)))) as Hin
      by (rewrite E; now left).
    apply filter_In in Hin as [Hin Hh]. exists p. split; [|exact Hh].
    apply elem_of_elements. now apply list_elem_of_In.
  - intros (p & Hin & Hh).
    assert (In p (List.filter (isHovering env)
                    (elements (_pinnedDatatips s)))) as Hp.
    { apply filter_In. split; [|exact Hh].
      apply list_elem_of_In. now apply elem_of_elements. }
    destruct (List.filter (isHovering env) (elements (_pinnedDatatips s)));
      [destruct Hp | cbn; lia].
Qed.

Lemma setState_pinnedDatatips env st s :
  _pinnedDatatips (_setState env st s) = _pinnedDatatips s.
Proof. unfold _setState, _hideDatatip. repeat case_match; reflexivity. Qed.

Lemma isHoveringOverPinnedTip_setState env st s :
  _isHoveringOverPinnedTip env (_setState env st s)
  = _isHoveringOverPinnedTip env s.
Proof.
  unfold _isHoveringOverPinnedTip. now rewrite setState_pinnedDatatips.
Qed.

(** With the pointer over a pinned datatip of the session's set, a fetch
    result is not mounted. *)
Lemma hovered_pinned_blocks_mount env getPosition data s pinnedDatatip :
  pinnedDatatip ∈ _pinnedDatatips s ->
  isHovering env pinnedDatatip = true ->
  _datatipState (startFetching_withData env getPosition data s) = HIDDEN.
Proof.
  intros Hin Hh.
  assert (_isHoveringOverPinnedTip env s = true) as Hs
    by (apply isHoveringOverPinnedTip_spec; eauto).
  unfold startFetching_withData.
  repeat case_match; simplify_eq; rewrite ?setState_state; try reflexivity.
  all: rewrite ?isHoveringOverPinnedTip_setState in *; congruence.
Qed.

(** With the pointer over a pinned datatip of the session's set and not
    inside the tooltip, the hide check hides a visible tooltip. *)
Lemma hovered_pinned_hides_visible env s pinnedDatatip :
  pinnedDatatip ∈ _pinnedDatatips s ->
  isHovering env pinnedDatatip = true ->
  _insideDatatip s = false ->
  _datatipState (_hideIfOutsideImmediate env s) <> VISIBLE.
Proof.
  intros Hin Hh Hi.
  assert (_isHoveringOverPinnedTip env s = true) as Hs
    by (apply isHoveringOverPinnedTip_spec; eauto).
  unfold _hideIfOutsideImmediate. rewrite Hi, Hs.
  case_match; [assumption | rewrite setState_state; discriminate].
Qed.

(** The pin-click handler puts the new pinned datatip in the set. *)
Lemma pinClicked_registers env pinnedDatatip datatip s :
  pinnedDatatip
    ∈ _pinnedDatatips (fst (_handlePinClicked env pinnedDatatip datatip s)).
Proof.
  unfold _handlePinClicked, bind, tell, ret. cbn. set_solver.
Qed.

(** The session's [createPinnedDataTip] does not. *)
Lemma createPinnedDataTip_session pinnedDatatip datatip s :
  createPinnedDataTip pinnedDatatip datatip s = (pinnedDatatip, s).
Proof. reflexivity. Qed.

End SessionFacts.

(** *** The overlay outside VISIBLE *)

Ltac conjuncts := intros; repeat match goal with |- _ /\ _ => split end.

(** C2, as stated, fails: after a modifier key is pressed while a tooltip
    is visible, the state is FETCHING and the overlay is still mounted. *)
Lemma C2_overlay_while_fetching :
  let w :=
    run (show ++ [(env0, KeyDown altKeyEvent)])
      (initial env0 [providerLow] []) in
  reachable w
  /\ _datatipState (session w) = FETCHING
  /\ is_Some (_marker (session w)).
Proof.
  split; [apply run_reachable, reachable_initial|].
  split; [vm_compute; reflexivity | vm_compute; eauto].
Qed.

(** The [hideDataTips] callback of a pinned datatip unmounts the overlay
    and leaves the state VISIBLE. *)
Example visible_without_overlay :
  let w :=
    run (show ++ [(env0, PinnedHidesDataTips)])
      (initial env0 [providerLow] []) in
  reachable w
  /\ _datatipState (session w) = VISIBLE
  /\ _marker (session w) = None.
Proof.
  split; [apply run_reachable, reachable_initial|].
  split; vm_compute; reflexivity.
Qed.

(** C2 (amended) at a visible tooltip that a blur hides. *)
Lemma C2_no_overlay_while_hidden_witness :
  let w := run show (initial env0 [providerLow] []) in
  _datatipState (session w) = VISIBLE
  /\ _datatipState (session (handle env0 Blur w)) = HIDDEN
  /\ _marker (session (handle env0 Blur w)) = None.
Proof.
  destruct (C2_no_overlay_while_hidden
              (run show (initial env0 [providerLow] []))
              (run_reachable show _ (reachable_initial env0 [providerLow] [])))
    as (_ & Hhide & _).
  split; [vm_compute; reflexivity|]. split; [vm_compute; reflexivity|].
  apply (Hhide env0 Blur). vm_compute. reflexivity.
Defined.

(** C3 (code defect).  When the result arrives and the state is no longer
    FETCHING, [_startFetching] sets the state to HIDDEN and goes on instead
    of returning: a fetch started by the toggle command and superseded by a
    blur is mounted all the same. *)
Theorem C3_superseded_result_is_mounted :
  let w1 :=
    run [(env0, Toggle None); (env0, Blur)] (initial env0 [providerLow] []) in
  let w2 := handle env0 (FetchSettles 0) w1 in
  _datatipState (session w1) = HIDDEN
  /\ length (fetches w1) = 1%nat
  /\ _datatipState (session w2) = VISIBLE
  /\ is_Some (_marker (session w2)).
Proof.
  split; [vm_compute; reflexivity|]. split; [vm_compute; reflexivity|].
  split; [vm_compute; reflexivity | vm_compute; eauto].
Qed.

(** The same after [dispose]. *)
Example result_mounted_after_dispose :
  let w := run [(env0, Toggle None); (env0, Dispose);
                (env0, FetchSettles 0)] (initial env0 [providerLow] []) in
  _datatipState (session w) = VISIBLE /\ is_Some (_marker (session w)).
Proof. split; [vm_compute; reflexivity | vm_compute; eauto]. Qed.

(** C4 (code defect).  The session's [createPinnedDataTip] does not add the
    pinned datatip it returns to [_pinnedDatatips], so the hover check never
    asks it: with the pointer over that pinned datatip, a fetch result is
    mounted.  A pinned datatip made by the pin-click handler does block
    it. *)
Theorem C4_api_pinned_tip_not_consulted :
  let pinned := 1%positive in
  let viaApi :=
    run [(env0, CreatePinned pinned tipA); (env0, Toggle None);
         (envHovering, FetchSettles 0)] (initial env0 [providerLow] []) in
  let viaClick :=
    run (show ++ [(env0, PinClicked pinned tipA); (env0, Toggle None);
                  (envHovering, FetchSettles 0)])
      (initial env0 [providerLow] []) in
  isHovering envHovering pinned = true
  /\ DatatipManager.createPinnedDataTip pinned tipA 7%positive oneEditor
     = inr (pinned, oneEditor)
  /\ _pinnedDatatips (session viaApi) = ∅
  /\ _datatipState (session viaApi) = VISIBLE
  /\ _pinnedDatatips (session viaClick) = {[pinned]}
  /\ _datatipState (session viaClick) = HIDDEN.
Proof. conjuncts; vm_compute; reflexivity. Qed.

(** *** Counterexamples and witnesses for the toggle and the cancel *)

(** C5, as stated, fails: a tooltip is shown and then hidden by a key at
    time 1000; the toggle command delivered as a keydown at time 1050
    changes nothing and starts no fetch. *)
Lemma C5_keydown_50ms_after_hide_ignored :
  _lastHiddenTime (session hiddenAt1000) = 1000
  /\ performance_now envSoon - _lastHiddenTime (session hiddenAt1000) = 50
  /\ isActiveTextEditor (editor envSoon) = true
  /\ _datatipState (session hiddenAt1000) = HIDDEN
  /\ handle envSoon (Toggle (Some "keydown")) hiddenAt1000 = hiddenAt1000.
Proof.
  conjuncts; vm_compute; reflexivity.
Qed.

(** C5 (amended) at a keydown 101ms after the hide. *)
Lemma C5_toggle_keydown_witness :
  exists s' results,
    fst (_toggleDatatip envLate (Some "keydown") (session hiddenAt1000)) =
      (s', Some (mkPendingFetch CursorScreenPosition results))
    /\ _datatipState s' = FETCHING
    /\ _lastFetchedFromCursorPosition s' = true.
Proof.
  destruct (C5_toggle_keydown envLate (session hiddenAt1000)) as [Hshow _].
  - vm_compute. reflexivity.
  - apply Hshow. vm_compute. reflexivity.
Defined.

(** C7, as stated, fails: with the pointer over column 2, [_hideOrCancel]
    on a hidden session records that position as blacklisted, and the next
    fetch there is suppressed instead of shown. *)
Lemma C7_hideOrCancel_changes_blacklist :
  _datatipState pointerAt2 = HIDDEN
  /\ _blacklistedPosition pointerAt2 = None
  /\ _blacklistedPosition (_hideOrCancel env0 pointerAt2)
     = Some (mkPoint 0 2)
  /\ _datatipState (session (run show (mkWorld pointerAt2 [] []))) = VISIBLE
  /\ _datatipState
       (session (run show (mkWorld (_hideOrCancel env0 pointerAt2) [] [])))
     = HIDDEN.
Proof.
  conjuncts; vm_compute; reflexivity.
Qed.

(** C7 (amended) at the hidden session with the pointer over column 2. *)
Lemma C7_hideOrCancel_when_hidden_witness :
  _blacklistedPosition (_hideOrCancel env0 pointerAt2) = Some (mkPoint 0 2)
  /\ _hideOrCancel env0 (_hideOrCancel env0 pointerAt2)
     = _hideOrCancel env0 pointerAt2.
Proof.
  destruct (C7_hideOrCancel_when_hidden env0 pointerAt2)
    as (E & _ & _ & _ & Hidem).
  - vm_compute. reflexivity.
  - split; [rewrite E; vm_compute; reflexivity | exact Hidem].
Defined.

(** C10 at a focus followed by a modifier key press. *)
Lemma C10_first_mousemove_after_focus_dropped_witness :
  Forall (fun ee => is_mousemove (snd ee) = false)
    [(env0, KeyDown altKeyEvent)]
  /\ _shouldDropNextMouseMoveAfterFocus
       (session (run [(env0, KeyDown altKeyEvent)]
                   (handle env0 Focus (initial env0 [providerLow] [])))) = true.
Proof.
  assert (Forall (fun ee => is_mousemove (snd ee) = false)
            [(env0, KeyDown altKeyEvent)]) as Hevs
    by (repeat constructor).
  split; [exact Hevs|].
  exact (proj1 (C10_first_mousemove_after_focus_dropped env0 env0 (mouseAt 2)
                  [(env0, KeyDown altKeyEvent)]
                  (initial env0 [providerLow] []) Hevs)).
Defined.

(** ** The manager *)

(** C9.  [createPinnedDataTip] throws for an editor that has no session in
    [_editorManagers]; for an editor that has one it returns the new pinned
    datatip and leaves the manager as it was. *)
Theorem C9_createPinnedDataTip_requires_session
    (new_PinnedDatatip : PinnedDatatip) (datatip : Datatip)
    (editor : DatatipManager.TextEditor) (m : DatatipManager.t) :
  (DatatipManager._editorManagers m !! editor = None ->
   exists error,
     DatatipManager.createPinnedDataTip new_PinnedDatatip datatip editor m
     = inl error)
  /\ (is_Some (DatatipManager._editorManagers m !! editor) ->
      DatatipManager.createPinnedDataTip new_PinnedDatatip datatip editor m
      = inr (new_PinnedDatatip, m)).
Proof.
  unfold DatatipManager.createPinnedDataTip. split.
  - intros E. rewrite E. eexists. reflexivity.
  - intros [manager E]. rewrite E. cbn.
    rewrite insert_id by exact E. now destruct m.
Qed.

(** C9 at a manager with editor 7 open: editor 8 throws, editor 7 gets its
    pinned datatip. *)
Lemma C9_createPinnedDataTip_requires_session_witness :
  (exists error,
     DatatipManager.createPinnedDataTip 1%positive tipA 8%positive oneEditor
     = inl error)
  /\ DatatipManager.createPinnedDataTip 1%positive tipA 7%positive oneEditor
     = inr (1%positive, oneEditor).
Proof.
  split.
  - apply (C9_createPinnedDataTip_requires_session 1%positive tipA 8%positive
             oneEditor). vm_compute. reflexivity.
  - apply (C9_createPinnedDataTip_requires_session 1%positive tipA 7%positive
             oneEditor). vm_compute. eauto.
Defined.

(** * Further properties *)

(** ** Filtering and racing providers *)

Section ProviderFacts.
Context {T : Type} `{AnyDatatipProvider T}.
Implicit Types (providers : list T) (invoke : T -> Settled (option Datatip)).

Lemma sort_insert_perm (cmp : T -> T -> Z) (x : T) (l : list T) :
  Permutation (sort_insert cmp x l) (x :: l).
Proof.
  induction l as [|y l IH]; [reflexivity|].
  cbn. destruct (cmp x y <=? 0); [reflexivity|].
  rewrite perm_swap. now constructor.
Qed.

Lemma sort_perm (cmp : T -> T -> Z) (l : list T) : Permutation (sort cmp l) l.
Proof.
  induction l as [|x l IH]; [reflexivity|].
  cbn. rewrite sort_insert_perm. now constructor.
Qed.

Lemma sort_insert_descending (x : T) (l : list T) :
  StronglySorted descending l ->
  StronglySorted descending (sort_insert byInclusionPriority x l).
Proof.
  induction l as [|y l IH]; intros Hs; cbn.
  - repeat constructor.
  - apply StronglySorted_inv in Hs as [Hl Hy].
    unfold byInclusionPriority at 1.
    destruct (inclusionPriority y - inclusionPriority x <=? 0) eqn:E.
    + apply Z.leb_le in E. constructor; [now constructor|].
      constructor; [unfold descending; lia|].
      eapply Forall_impl; [exact Hy|].
      intros z Hz. unfold descending in *. lia.
    + apply Z.leb_gt in E. constructor; [now apply IH|].
      eapply Permutation_Forall;
        [symmetry; apply sort_insert_perm|].
      constructor; [unfold descending; lia | exact Hy].
Qed.

Lemma asyncFind_first {A U} (test : A -> option U) (l : list A) (r : U) :
  asyncFind l test = Some r ->
  exists l1 a l2,
    l = l1 ++ a :: l2 /\ test a = Some r
    /\ forall b, In b l1 -> test b = None.
Proof.
  induction l as [|a l IH]; [discriminate|].
  cbn. destruct (test a) as [u|] eqn:E.
  - intros [= ->]. exists [], a, l. split; [reflexivity|].
    split; [exact E | intros b []].
  - intros Hr. destruct (IH Hr) as (l1 & b & l2 & -> & Hb & Hn).
    exists (a :: l1), b, l2. split; [reflexivity|].
    split; [exact Hb|]. intros c [<-|Hc]; [exact E | now apply Hn].
Qed.

Lemma datatipPromise_invokes_once invoke (provider : T) :
  List.filter is_invoke (snd (datatipPromise invoke provider))
  = [Invoke (fst (getProviderName provider))].
Proof.
  unfold datatipPromise, getProviderName, bind, tell, ret.
  destruct (providerName provider); cbn;
    destruct (invoke provider) as [[d|]|e|e]; reflexivity.
Qed.

Lemma promises_invoke_once invoke providers :
  List.filter is_invoke
    (concat (map (fun p => snd (datatipPromise invoke p)) providers))
  = map (fun provider => Invoke (fst (getProviderName provider))) providers.
Proof.
  induction providers as [|p ps IH]; [reflexivity|].
  cbn [map concat]. rewrite List.filter_app, datatipPromise_invokes_once.
  cbn [app]. f_equal. exact IH.
Qed.

Lemma filter_keeps_the_applicable_in providers (scope : string) (provider : T) :
  In provider providers
  /\ 0 < inclusionPriority provider
  /\ validForScope provider scope = true ->
  In provider (filterProvidersByScopeName providers scope).
Proof.
  intros (Hin & Hp & Hv).
  apply (Permutation_in _ (Permutation_sym (sort_perm _ _))).
  apply filter_In. split; [exact Hin|].
  apply andb_true_iff. split; [now apply Z.ltb_lt | exact Hv].
Qed.

(** What [filterProvidersByScopeName] returns holds exactly the providers
    with a positive priority that are valid for the scope, each as often as
    it is registered. *)
Theorem filter_keeps_the_applicable providers (scope : string) :
  Permutation (filterProvidersByScopeName providers scope)
    (List.filter (applicable scope) providers)
  /\ forall provider,
      In provider (filterProvidersByScopeName providers scope) <->
      In provider providers
      /\ 0 < inclusionPriority provider
      /\ validForScope provider scope = true.
Proof.
  assert (Permutation (filterProvidersByScopeName providers scope)
            (List.filter (applicable scope) providers)) as P
    by apply sort_perm.
  split; [exact P|]. intros provider. split.
  - intros Hin. apply (Permutation_in _ P) in Hin.
    apply filter_In in Hin as [Hin Ha]. unfold applicable in Ha.
    apply andb_true_iff in Ha as [Hp Hv]. apply Z.ltb_lt in Hp. tauto.
  - intros (Hin & Hp & Hv). apply (Permutation_in _ (Permutation_sym P)).
    apply filter_In. split; [exact Hin|]. unfold applicable.
    apply andb_true_iff. split; [now apply Z.ltb_lt | exact Hv].
Qed.

(** What it returns is in descending priority order. *)
Theorem filter_sorts_by_descending_priority providers (scope : string) :
  StronglySorted descending (filterProvidersByScopeName providers scope).
Proof.
  unfold filterProvidersByScopeName, sort.
  induction (List.filter _ providers) as [|x l IH]; cbn.
  - constructor.
  - now apply sort_insert_descending.
Qed.

(** A datatip the race returns comes from a registered provider whose
    invocation resolved to it, and no provider registered before that one
    resolved to a datatip. *)
Theorem race_result_is_first_resolved
    providers editor position invoke (provider : T) (datatip : Datatip) :
  fst (getTopDatatipAndProvider providers editor position invoke)
  = Some (provider, datatip) ->
  invoke provider = Resolved (Some datatip)
  /\ exists before after,
      providers = before ++ provider :: after
      /\ forall earlier, In earlier before ->
           resolvesTo invoke earlier = None.
Proof.
  intros Hr.
  destruct (filterProvidersByScopeName providers (scopeName editor)) eqn:E.
  - rewrite race_no_applicable in Hr by exact E. discriminate Hr.
  - rewrite race_registration_order in Hr by congruence.
    apply asyncFind_first in Hr as (l1 & a & l2 & -> & Ha & Hn).
    unfold resolvesTo in Ha.
    destruct (invoke a) as [[d|]|e|e] eqn:Ei; try discriminate Ha.
    injection Ha as -> ->. split; [exact Ei|].
    exists l1, l2. split; [reflexivity | exact Hn].
Qed.

(** When some provider is applicable, every registered provider is invoked
    exactly once, in registration order. *)
Theorem race_invokes_every_provider_once providers editor position invoke :
  filterProvidersByScopeName providers (scopeName editor) <> [] ->
  List.filter is_invoke
    (snd (getTopDatatipAndProvider providers editor position invoke))
  = map (fun provider => Invoke (fst (getProviderName provider))) providers.
Proof.
  intros NE. rewrite race_trace by exact NE. apply promises_invoke_once.
Qed.

End ProviderFacts.

(** ** The session: overlay, mouse and wheel *)

Section SessionMore.
Implicit Types (env : Env) (s : Session) (w : World).

Ltac unfold_session :=
  repeat progress unfold on_focus, on_blur, on_mousemove, on_mouseleave, on_mousedown,
    on_keydown, on_keyup, on_datatip_wheel, on_datatip_mousedown,
    on_datatip_mouseenter, on_datatip_mouseleave, on_scrollTop,
    _toggleDatatip, _fetchInResponseToKeyPress, _hideOrCancel,
    _hideIfOutside, _hideIfOutsideImmediate, hideIfOutsideDebounce_fires,
    startFetchingDebounce_fires, _setStartFetchingDebounce,
    _setHideIfOutsideDebounce, pinned_hideDataTips, pinned_onDispose,
    dispose, createPinnedDataTip, startFetching_withData,
    mountDatatipWithMarker, _setState, _hideDatatip in *.

Ltac overlay_case :=
  cbn [fst snd session silent ret];
  unfold overlay, mounted, unmounted; cbn;
  first
    [ left; reflexivity
    | right; left; reflexivity
    | right; right; eexists _, _; reflexivity ].

Lemma startFetching_begin_overlay env getPosition s :
  overlay (fst (fst (startFetching_begin env getPosition s))) = overlay s.
Proof.
  destruct (startFetching_begin_cases env getPosition s)
    as [[_ E] | (lp & pr & results & _ & E)]; rewrite E; reflexivity.
Qed.

(** A handler leaves the overlay alone, unmounts it, or mounts it. *)
Lemma handle_overlay env ev w :
  overlay (session (handle env ev w)) = overlay (session w)
  \/ overlay (session (handle env ev w)) = unmounted
  \/ exists range content,
       overlay (session (handle env ev w)) = mounted range content.
Proof.
  destruct ev; cbn [handle]; rewrite ?fetching_session;
    cbn [session silent].
  - unfold_session. repeat case_match; overlay_case.
  - unfold_session. repeat case_match; overlay_case.
  - unfold_session. repeat case_match; overlay_case.
  - unfold_session. repeat case_match; overlay_case.
  - unfold_session. repeat case_match; overlay_case.
  - unfold on_keydown, _fetchInResponseToKeyPress.
    repeat case_match; cbn [fst ret];
      rewrite ?startFetching_begin_overlay;
      unfold_session; repeat case_match; overlay_case.
  - unfold on_keyup, _fetchInResponseToKeyPress.
    repeat case_match; cbn [fst ret];
      rewrite ?startFetching_begin_overlay; overlay_case.
  - unfold_session. repeat case_match; overlay_case.
  - unfold_session. overlay_case.
  - unfold_session. repeat case_match; overlay_case.
  - unfold_session. repeat case_match; overlay_case.
  - unfold_session. repeat case_match; overlay_case.
  - unfold _toggleDatatip.
    repeat case_match; cbn [fst ret];
      rewrite ?startFetching_begin_overlay;
      unfold_session; repeat case_match; overlay_case.
  - unfold_session. overlay_case.
  - unfold_session. overlay_case.
  - unfold startFetchingDebounce_fires.
    rewrite startFetching_begin_overlay. overlay_case.
  - unfold_session. repeat case_match; overlay_case.
  - destruct (fetches w !! i) as [pf|]; [|overlay_case].
    unfold startFetching_resume, bind, ret.
    destruct (fetchAndRender_resume env (pf_results pf)) as [[data|e|e] t];
      cbn [session]; try overlay_case.
    unfold_session. repeat case_match; simplify_eq; overlay_case.
  - unfold _handlePinClicked, bind, tell, ret. cbn [session fst snd].
    unfold_session. repeat case_match; overlay_case.
  - unfold_session. overlay_case.
  - unfold_session. overlay_case.
  - unfold_session. overlay_case.
  - unfold_session. repeat case_match; overlay_case.
  - unfold shared_arrays_mutated. overlay_case.
Qed.

Lemma on_mousemove_hidden env e s :
  _datatipState s = HIDDEN ->
  _shouldDropNextMouseMoveAfterFocus s = false ->
  on_mousemove env e s =
    set_startFetchingDebounce
      (mkDebounce (wait (_startFetchingDebounce s)) true)
      (set_heldKeys (getModifierKeysFromMouseEvent e)
         (set_lastMoveEvent (Some e)
            (set_lastFetchedFromCursorPosition false s))).
Proof.
  intros Hs Hf. unfold on_mousemove. cbn. rewrite Hf, Hs. reflexivity.
Qed.

Lemma mousemoves_hidden (moves : list (Env * MouseEvent)) s :
  _datatipState s = HIDDEN ->
  _shouldDropNextMouseMoveAfterFocus s = false ->
  _datatipState (mousemoves moves s) = HIDDEN
  /\ _shouldDropNextMouseMoveAfterFocus (mousemoves moves s) = false
  /\ wait (_startFetchingDebounce (mousemoves moves s))
     = wait (_startFetchingDebounce s)
  /\ overlay (mousemoves moves s) = overlay s.
Proof.
  revert s. induction moves as [|[env e] moves IH]; intros s Hs Hf.
  - repeat split; assumption.
  - cbn [mousemoves foldl fst snd]. fold (mousemoves moves).
    rewrite on_mousemove_hidden by assumption.
    destruct (IH (set_startFetchingDebounce
                    (mkDebounce (wait (_startFetchingDebounce s)) true)
                    (set_heldKeys (getModifierKeysFromMouseEvent e)
                       (set_lastMoveEvent (Some e)
                          (set_lastFetchedFromCursorPosition false s)))))
      as (H1 & H2 & H3 & H4); [exact Hs | exact Hf |].
    repeat split; assumption.
Qed.

Lemma on_datatip_wheel_fields (d : spec_float) s :
  _cumulativeWheelX (on_datatip_wheel d s)
  = js_add (_cumulativeWheelX s) (Math_abs d)
  /\ _interactedWith (on_datatip_wheel d s)
     = SFltb CUMULATIVE_WHEELX_THRESHOLD
         (js_add (_cumulativeWheelX s) (Math_abs d))
       || _interactedWith s
  /\ _datatipState (on_datatip_wheel d s) = _datatipState s
  /\ overlay (on_datatip_wheel d s) = overlay s.
Proof.
  unfold on_datatip_wheel.
  cbn [_cumulativeWheelX set_cumulativeWheelX].
  destruct (SFltb CUMULATIVE_WHEELX_THRESHOLD
              (js_add (_cumulativeWheelX s) (Math_abs d))); cbn;
    repeat split; reflexivity.
Qed.

Lemma wheels_running_total (deltas : list spec_float) s :
  _cumulativeWheelX (wheels deltas s) = wheelTotal (_cumulativeWheelX s) deltas
  /\ (_interactedWith (wheels deltas s) = true <->
      _interactedWith s = true
      \/ exists n, (0 < n <= length deltas)%nat
           /\ SFltb CUMULATIVE_WHEELX_THRESHOLD
                (wheelTotal (_cumulativeWheelX s) (take n deltas)) = true)
  /\ _datatipState (wheels deltas s) = _datatipState s
  /\ overlay (wheels deltas s) = overlay s.
Proof.
  revert s. induction deltas as [|d deltas IH]; intros s.
  - cbn. repeat split; try reflexivity; [tauto|].
    intros [Hi | (n & Hn & _)]; [exact Hi | lia].
  - change (wheels (d :: deltas) s)
      with (wheels deltas (on_datatip_wheel d s)).
    destruct (IH (on_datatip_wheel d s)) as (H1 & H2 & H3 & H4).
    destruct (on_datatip_wheel_fields d s) as (Ec & Ei & Es & Eo).
    rewrite Ec in H1, H2. rewrite Ei in H2. rewrite H1, H3, H4, Es, Eo.
    split; [reflexivity|]. split; [|split; reflexivity].
    rewrite H2. rewrite orb_true_iff. split.
    + intros [[Hd | Hi] | (n & Hn & Ht)].
      * right. exists 1%nat. split; [cbn; lia|].
        exact Hd.
      * now left.
      * right. exists (S n). split; [cbn; lia|]. exact Ht.
    + intros [Hi | (n & Hn & Ht)]; [left; now right|].
      destruct n as [|n]; [lia|]. cbn [length] in Hn.
      destruct n as [|n].
      * left. left. exact Ht.
      * right. exists (S n). split; [lia|]. exact Ht.
Qed.

Lemma startFetching_withData_arrays env getPosition data s :
  arrays (startFetching_withData env getPosition data s) = arrays s.
Proof.
  unfold startFetching_withData, mountDatatipWithMarker, _setState,
    _hideDatatip.
  repeat case_match; simplify_eq; reflexivity.
Qed.

Lemma startFetching_begin_arrays env getPosition s :
  arrays (fst (fst (startFetching_begin env getPosition s))) = arrays s.
Proof.
  destruct (startFetching_begin_cases env getPosition s)
    as [[_ E] | (lp & pr & results & _ & E)]; rewrite E; [reflexivity|].
  unfold _setState, _hideDatatip. repeat case_match; reflexivity.
Qed.

Lemma handle_keeps_arrays (env : Env) (ev : Event) (w : World) :
  is_array_mutation ev = false ->
  arrays (session (handle env ev w)) = arrays (session w).
Proof.
  intros Hev. destruct ev; try discriminate Hev; cbn [handle];
    rewrite ?fetching_session; cbn [session silent].
  - unfold_session. repeat case_match; reflexivity.
  - unfold_session. repeat case_match; reflexivity.
  - unfold_session. repeat case_match; reflexivity.
  - unfold_session. repeat case_match; reflexivity.
  - unfold_session. repeat case_match; reflexivity.
  - unfold on_keydown, _fetchInResponseToKeyPress.
    repeat case_match; cbn [fst ret];
      rewrite ?startFetching_begin_arrays;
      unfold_session; repeat case_match; reflexivity.
  - unfold on_keyup, _fetchInResponseToKeyPress.
    repeat case_match; cbn [fst ret];
      rewrite ?startFetching_begin_arrays; reflexivity.
  - unfold_session. repeat case_match; reflexivity.
  - reflexivity.
  - unfold_session. repeat case_match; reflexivity.
  - unfold_session. repeat case_match; reflexivity.
  - unfold_session. repeat case_match; reflexivity.
  - unfold _toggleDatatip.
    repeat case_match; cbn [fst ret];
      rewrite ?startFetching_begin_arrays;
      unfold_session; repeat case_match; reflexivity.
  - reflexivity.
  - reflexivity.
  - unfold startFetchingDebounce_fires.
    rewrite startFetching_begin_arrays. reflexivity.
  - unfold_session. repeat case_match; reflexivity.
  - destruct (fetches w !! i) as [pf|]; [|reflexivity].
    unfold startFetching_resume, bind, ret.
    destruct (fetchAndRender_resume env (pf_results pf)) as [[data|e|e] t];
      cbn [session]; rewrite ?startFetching_withData_arrays;
      reflexivity.
  - unfold _handlePinClicked, bind, tell, ret. cbn [session fst snd].
    unfold_session. repeat case_match; reflexivity.
  - reflexivity.
  - reflexivity.
  - reflexivity.
  - unfold_session. repeat case_match; reflexivity.
Qed.

End SessionMore.

(** In every reachable state the range, the marker and the overlay element
    agree: nothing is mounted (as at construction, or as [_hideDatatip]
    leaves it), or the marker spans [_range] and carries the element, which
    is displayed with rendered content. *)
Theorem overlay_parts_agree (w : World) :
  reachable w ->
  overlay (session w) = (None, None, mkElement DisplayUnset None)
  \/ overlay (session w) = unmounted
  \/ exists range content, overlay (session w) = mounted range content.
Proof.
  induction 1 as [env | env ev w Hw IH].
  - left. reflexivity.
  - destruct (handle_overlay env ev w) as [E | [E | E]].
    + rewrite E. exact IH.
    + right. left. exact E.
    + right. right. exact E.
Qed.

(** A burst of mousemoves over a hidden session starts no fetch: the state
    stays HIDDEN, the overlay is untouched, and what remains is one pending
    call of the debounced fetch, with the last event and its modifier keys
    recorded. *)
Theorem mousemove_burst_leaves_one_pending_fetch
    (moves : list (Env * MouseEvent)) (env : Env) (e : MouseEvent)
    (s : Session) :
  _datatipState s = HIDDEN ->
  _shouldDropNextMouseMoveAfterFocus s = false ->
  let s' := mousemoves (moves ++ [(env, e)]) s in
  _datatipState s' = HIDDEN
  /\ _lastMoveEvent s' = Some e
  /\ _heldKeys s' = getModifierKeysFromMouseEvent e
  /\ _startFetchingDebounce s'
     = mkDebounce (wait (_startFetchingDebounce s)) true
  /\ overlay s' = overlay s.
Proof.
  intros Hs Hf s'. subst s'. unfold mousemoves. rewrite foldl_app.
  fold (mousemoves moves s). cbn [foldl fst snd].
  destruct (mousemoves_hidden moves s Hs Hf) as (H1 & H2 & H3 & H4).
  rewrite on_mousemove_hidden by assumption.
  cbn. rewrite H3. repeat split; try reflexivity; assumption.
Qed.

(** When the debounced fetch fires it uses the last mousemove: with no
    buffer position under it nothing happens; otherwise the state becomes
    FETCHING and a fetch waits whose position is re-read from the last
    mousemove when it settles. *)
Theorem debounced_fetch_reads_last_mousemove (env : Env) (s : Session) :
  (getBufferPosition (editor env) (_lastMoveEvent s) = None ->
   startFetchingDebounce_fires env s =
     ((set_startFetchingDebounce
         (mkDebounce (wait (_startFetchingDebounce s)) false) s, None), []))
  /\ (getBufferPosition (editor env) (_lastMoveEvent s) <> None ->
      exists s' results,
        fst (startFetchingDebounce_fires env s) =
          (s', Some (mkPendingFetch LastMoveEventPosition results))
        /\ _datatipState s' = FETCHING
        /\ pending (_startFetchingDebounce s') = false).
Proof.
  unfold startFetchingDebounce_fires. split.
  - intros Hn. unfold startFetching_begin. cbn. now rewrite Hn.
  - intros Hp.
    destruct (startFetching_begin_cases env LastMoveEventPosition
                (set_startFetchingDebounce
                   (mkDebounce (wait (_startFetchingDebounce s)) false) s))
      as [[E _] | (lp & pr & results & _ & E)].
    + cbn in E. contradiction.
    + rewrite E. eexists _, results. split; [reflexivity|].
      cbn. rewrite setState_state. split; [reflexivity|].
      unfold _setState. cbn. reflexivity.
Qed.

(** A pointer further right of the text than one default character width
    (past the end of the line), or left of the editor content, resolves to
    no position, so the debounced fetch does nothing there: no state change,
    no provider invoked. *)
Theorem hover_beside_the_text_starts_no_fetch
    (env : Env) (s : Session) (e : MouseEvent) (text : TextComponent) :
  _lastMoveEvent s = Some e ->
  component (editor env) = Some text ->
  left (pixelPositionForMouseEvent text e) < 0
  \/ getDefaultCharWidth (editor env)
     < left (pixelPositionForMouseEvent text e)
       - left (pixelPositionForScreenPosition text
                 (screenPositionForMouseEvent text e)) ->
  getBufferPosition (editor env) (Some e) = None
  /\ _datatipState (fst (fst (startFetchingDebounce_fires env s)))
     = _datatipState s
  /\ snd (fst (startFetchingDebounce_fires env s)) = None
  /\ snd (startFetchingDebounce_fires env s) = [].
Proof.
  intros He Hc Hout.
  assert (getBufferPosition (editor env) (Some e) = None) as Hn.
  { unfold getBufferPosition. rewrite Hc.
    destruct Hout as [Hl | Hr].
    - apply Z.ltb_lt in Hl. now rewrite Hl.
    - apply Z.ltb_lt in Hr. rewrite Hr. now rewrite orb_true_r. }
  split; [exact Hn|].
  unfold startFetchingDebounce_fires, startFetching_begin. cbn.
  rewrite He, Hn. cbn. repeat split; reflexivity.
Qed.

(** Scrolling over a tooltip (wheel events on the overlay element): the
    session adds the absolute horizontal distances as doubles, each sum
    rounded, and never resets the total itself.  The tooltip counts as
    interacted with after the events exactly when it did before or the
    running total was above 20 after one of them; the state and the overlay
    never change. *)
Theorem wheel_interaction_threshold (deltas : list spec_float) (s : Session) :
  _cumulativeWheelX (wheels deltas s) = wheelTotal (_cumulativeWheelX s) deltas
  /\ (_interactedWith (wheels deltas s) = true <->
      _interactedWith s = true
      \/ exists n, (0 < n <= length deltas)%nat
           /\ SFltb CUMULATIVE_WHEELX_THRESHOLD
                (wheelTotal (_cumulativeWheelX s) (take n deltas)) = true)
  /\ _datatipState (wheels deltas s) = _datatipState s
  /\ overlay (wheels deltas s) = overlay s.
Proof. apply wheels_running_total. Qed.

(** ** The session: hiding, keys, cache, results and pins *)

Lemma isEqual_refl (p : Point) : isEqual p p = true.
Proof. unfold isEqual. now rewrite !Z.eqb_refl. Qed.

Lemma hideIfOutsideImmediate_outside
    (env : Env) (s : Session) (r : Range) :
  _datatipState s = VISIBLE ->
  _insideDatatip s = false ->
  _range s = Some r ->
  (forall position,
     getBufferPosition (editor env) (_lastMoveEvent s) = Some position ->
     containsPoint r position = false) ->
  _datatipState (_hideIfOutsideImmediate env s) = HIDDEN.
Proof.
  intros Hs Hi Hr Hout. unfold _hideIfOutsideImmediate.
  rewrite Hs, Hi, Hr. case_decide; [congruence|].
  destruct (_isHoveringOverPinnedTip env s); [apply setState_state|].
  destruct (getBufferPosition (editor env) (_lastMoveEvent s)) as [p|] eqn:E;
    [|apply setState_state].
  rewrite (Hout p eq_refl). apply setState_state.
Qed.

(** When the pointer has left the range of a visible tooltip (and is not
    inside the tooltip), the tooltip is hidden at once if the user has not
    interacted with it; if the user has, the hide is debounced: the tooltip
    stays VISIBLE with the hide pending, and is hidden when the delay
    elapses. *)
Theorem leaving_the_range_hides_now_or_debounced
    (env : Env) (s : Session) (r : Range) :
  _datatipState s = VISIBLE ->
  _insideDatatip s = false ->
  _range s = Some r ->
  (forall position,
     getBufferPosition (editor env) (_lastMoveEvent s) = Some position ->
     containsPoint r position = false) ->
  (_interactedWith s = false ->
   _datatipState (_hideIfOutside env s) = HIDDEN)
  /\ (_interactedWith s = true ->
      _hideIfOutside env s =
        set_hideIfOutsideDebounce
          (mkDebounce (wait (_hideIfOutsideDebounce s)) true) s
      /\ _datatipState
           (hideIfOutsideDebounce_fires env (_hideIfOutside env s)) = HIDDEN).
Proof.
  intros Hs Hi Hr Hout. split; intros Hw.
  - unfold _hideIfOutside. rewrite Hs, Hw. case_decide; [congruence|].
    now apply (hideIfOutsideImmediate_outside env s r).
  - assert (_hideIfOutside env s =
            set_hideIfOutsideDebounce
              (mkDebounce (wait (_hideIfOutsideDebounce s)) true) s) as E.
    { unfold _hideIfOutside. rewrite Hs, Hw.
      case_decide; [congruence | reflexivity]. }
    split; [exact E|]. rewrite E. unfold hideIfOutsideDebounce_fires.
    apply (hideIfOutsideImmediate_outside env _ r); assumption.
Qed.

(** The hide check keeps a visible tooltip exactly when the pointer is
    inside the tooltip, or no pinned datatip is hovered and the pointer is
    over a position of the range; it then changes nothing. *)
Theorem tooltip_stays_exactly_when_pointed_at (env : Env) (s : Session) :
  _datatipState s = VISIBLE ->
  (_datatipState (_hideIfOutsideImmediate env s) = VISIBLE <->
   _insideDatatip s = true
   \/ (_isHoveringOverPinnedTip env s = false
       /\ exists position r,
            getBufferPosition (editor env) (_lastMoveEvent s) = Some position
            /\ _range s = Some r
            /\ containsPoint r position = true))
  /\ (_datatipState (_hideIfOutsideImmediate env s) = VISIBLE ->
      _hideIfOutsideImmediate env s = s).
Proof.
  intros Hs. unfold _hideIfOutsideImmediate. rewrite Hs.
  case_decide; [congruence|].
  destruct (_insideDatatip s).
  { split; [|reflexivity]. split; [now left | intros _; exact Hs]. }
  destruct (_isHoveringOverPinnedTip env s).
  { rewrite setState_state. split; [|discriminate].
    split; [discriminate|]. intros [F | [F _]]; discriminate F. }
  destruct (getBufferPosition (editor env) (_lastMoveEvent s)) as [p|].
  2:{ rewrite setState_state. split; [|discriminate].
      split; [discriminate|].
      intros [F | (_ & q & r & F & _)]; discriminate F. }
  destruct (_range s) as [r|].
  2:{ rewrite setState_state. split; [|discriminate].
      split; [discriminate|].
      intros [F | (_ & q & r & _ & F & _)]; discriminate F. }
  destruct (containsPoint r p) eqn:Ec.
  - split; [|reflexivity]. split; [|intros _; exact Hs].
    intros _. right. split; [reflexivity|]. now exists p, r.
  - rewrite setState_state. split; [|discriminate].
    split; [discriminate|].
    intros [F | (_ & q & r' & [= <-] & [= <-] & F)]; congruence.
Qed.




(** After a fetch at a position the position is cached: a second fetch at
    the same position leaves the session as it is and runs only the race
    of the modifier providers, whatever the two provider arrays hold by
    then. *)
Theorem position_cache_spares_the_plain_providers
    (env1 env2 : Env) (position : Point) (s : Session)
    (datatipProviders : list DatatipProvider)
    (modifierDatatipProviders : list ModifierDatatipProvider) :
  let s1 := fst (fst (fetchAndRender_begin env1 position s)) in
  let s2 :=
    shared_arrays_mutated datatipProviders modifierDatatipProviders s1 in
  (exists cached,
     _lastPosition s1 = Some cached /\ isEqual position cached = true)
  /\ fst (fst (fetchAndRender_begin env2 position s1)) = s1
  /\ snd (fetchAndRender_begin env2 position s1)
     = snd (getTopDatatipAndProvider (_modifierDatatipProviders s1)
              (editor env2) position
              (fun provider =>
                 modifierDatatip provider (editor env2) position
                   (_heldKeys s1)))
  /\ fst (fst (fetchAndRender_begin env2 position s2)) = s2
  /\ snd (fetchAndRender_begin env2 position s2)
     = snd (getTopDatatipAndProvider modifierDatatipProviders
              (editor env2) position
              (fun provider =>
                 modifierDatatip provider (editor env2) position
                   (_heldKeys s1))).
Proof.
  intros s1 s2.
  assert (exists cached,
            _lastPosition s1 = Some cached /\ isEqual position cached = true)
    as (cached & Hc & He).
  { subst s1. unfold fetchAndRender_begin, bind, ret.
    destruct (_lastPosition s) as [last|] eqn:El.
    - destruct (isEqual position last) eqn:Ei.
      + destruct (getTopDatatipAndProvider (_modifierDatatipProviders s) _ _ _).
        cbn. exists last. now split.
      + destruct (getTopDatatipAndProvider (_datatipProviders s) _ _ _).
        destruct (getTopDatatipAndProvider (_modifierDatatipProviders s) _ _ _).
        cbn. exists position. split; [reflexivity | apply isEqual_refl].
    - destruct (getTopDatatipAndProvider (_datatipProviders s) _ _ _).
      destruct (getTopDatatipAndProvider (_modifierDatatipProviders s) _ _ _).
      cbn. exists position. split; [reflexivity | apply isEqual_refl]. }
  assert (forall s',
            _lastPosition s' = Some cached ->
            fst (fst (fetchAndRender_begin env2 position s')) = s'
            /\ snd (fetchAndRender_begin env2 position s')
               = snd (getTopDatatipAndProvider (_modifierDatatipProviders s')
                        (editor env2) position
                        (fun provider =>
                           modifierDatatip provider (editor env2) position
                             (_heldKeys s')))) as Hcached.
  { intros s' Hc'. unfold fetchAndRender_begin, bind, ret. rewrite Hc', He.
    destruct (getTopDatatipAndProvider (_modifierDatatipProviders s') _ _ _).
    cbn. split; [reflexivity | apply app_nil_r]. }
  split; [now exists cached|].
  destruct (Hcached s1 Hc) as [E1 E2].
  destruct (Hcached s2 Hc) as [E3 E4].
  repeat split; assumption.
Qed.

(** Cancelling while a fetch is in flight does not change the state, it
    blacklists the position under the pointer: when the fetch settles with
    a range that contains that position the result is dropped, the state
    becomes HIDDEN and the blacklist is cleared. *)
Theorem cancelled_fetch_is_suppressed
    (env envLater : Env) (getPosition : GetPosition) (data : FetchData)
    (s : Session) (position : Point) (r : Range) :
  _datatipState s = FETCHING ->
  getBufferPosition (editor env) (_lastMoveEvent s) = Some position ->
  fd_range data = Some r ->
  containsPoint r position = true ->
  let cancelled := _hideOrCancel env s in
  let settled :=
    startFetching_withData envLater getPosition (Some data) cancelled in
  _datatipState cancelled = FETCHING
  /\ _blacklistedPosition cancelled = Some position
  /\ _datatipState settled = HIDDEN
  /\ _blacklistedPosition settled = None.
Proof.
  intros Hs Hp Hr Hc cancelled settled.
  assert (cancelled = set_blacklistedPosition (Some position) s) as E.
  { subst cancelled. unfold _hideOrCancel. rewrite Hs, Hp. reflexivity. }
  subst settled. rewrite E. split; [exact Hs|]. split; [reflexivity|].
  unfold startFetching_withData.
  cbn [_datatipState set_blacklistedPosition _blacklistedPosition].
  rewrite Hs, Hr. case_decide; [congruence|].
  change (_blacklistedPosition (set_blacklistedPosition (Some position) s))
    with (Some position).
  cbv iota beta. rewrite Hc.
  split; [apply setState_state|].
  unfold _setState, _hideDatatip.
  repeat case_match; first [reflexivity | congruence].
Qed.

(** A result that arrives in state FETCHING with a range that contains the
    current position, and neither a blacklisted position nor a hovered
    pinned datatip, is mounted: the state becomes VISIBLE, marker, range and
    element show the result, and the interaction counters are reset. *)
Theorem fetched_datatip_is_mounted
    (env : Env) (getPosition : GetPosition) (data : FetchData)
    (s : Session) (position : Point) (r : Range) :
  _datatipState s = FETCHING ->
  fd_range data = Some r ->
  (forall blacklisted,
     _blacklistedPosition s = Some blacklisted ->
     containsPoint r blacklisted = false) ->
  evalGetPosition env s getPosition = Some position ->
  containsPoint r position = true ->
  _isHoveringOverPinnedTip env s = false ->
  let s' := startFetching_withData env getPosition (Some data) s in
  _datatipState s' = VISIBLE
  /\ overlay s' = mounted r (renderedProviders data)
  /\ _interactedWith s' = false
  /\ _cumulativeWheelX s' = SFzero.
Proof.
  intros Hs Hr Hb Hp Hc Hh s'. subst s'.
  unfold startFetching_withData. rewrite Hs, Hr.
  case_decide; [congruence|].
  assert ((match _blacklistedPosition s with
           | Some blacklistedPosition => containsPoint r blacklistedPosition
           | None => false
           end) = false) as ->.
  { destruct (_blacklistedPosition s) as [b|]; [now apply Hb | reflexivity]. }
  rewrite Hp, Hc, Hh. cbn [negb].
  unfold _setState, mountDatatipWithMarker.
  case_decide; [discriminate|]. split; [reflexivity|].
  split; [reflexivity|]. split; reflexivity.
Qed.

(** The tooltip takes its range from the first result, the one of the
    plain providers when there is one, and renders every result in
    order. *)
Theorem tooltip_shows_every_result_at_the_first_range
    (env : Env) (datatipsAndProviders : list (AnyProvider * Datatip))
    (provider0 : AnyProvider) (datatip0 : Datatip)
    (rest : list (AnyProvider * Datatip)) (r : Range) :
  datatipsAndProviders = (provider0, datatip0) :: rest ->
  range datatip0 = Some r ->
  exists content,
    fst (fetchAndRender_resume env datatipsAndProviders)
    = Resolved (Some (mkFetchData (Some r) content))
    /\ map fst content = map snd datatipsAndProviders
    /\ map snd content
       = map (fun dp => fst (getProviderName (fst dp))) datatipsAndProviders.
Proof.
  intros -> Hr. unfold fetchAndRender_resume.
  set (f := fun dp : AnyProvider * Datatip =>
              bind (getProviderName (fst dp)) (fun key => ret (snd dp, key))).
  pose proof (mapTraced_fst f ((provider0, datatip0) :: rest)) as Hm.
  unfold bind at 1. destruct (getProviderName provider0) as [n0 t0].
  rewrite Hr. unfold bind, tell, ret.
  destruct (mapTraced f ((provider0, datatip0) :: rest)) as [content t].
  cbn [fst snd] in *. exists content. split; [reflexivity|].
  subst content. rewrite !map_map. split; apply map_ext; intros [p d];
    subst f; unfold bind, ret; cbn; destruct (getProviderName p); reflexivity.
Qed.

(** The toggle command ignores the session of an editor that is not the
    active one.  For the active editor: on a keyup it hides or cancels; with
    no keyboard event it starts a fetch at the cursor when the state is
    HIDDEN, hides a VISIBLE tooltip, and while FETCHING only blacklists the
    position under the pointer. *)
Theorem toggle_command_routing
    (env : Env) (maybeEventType : option string) (s : Session) :
  (isActiveTextEditor (editor env) = false ->
   _toggleDatatip env maybeEventType s = ((s, None), []))
  /\ (isActiveTextEditor (editor env) = true ->
      _toggleDatatip env (Some "keyup") s = ((_hideOrCancel env s, None), []))
  /\ (isActiveTextEditor (editor env) = true ->
      maybeEventType <> Some "keydown" ->
      maybeEventType <> Some "keyup" ->
      (_datatipState s = HIDDEN ->
       exists s' results,
         fst (_toggleDatatip env maybeEventType s)
         = (s', Some (mkPendingFetch CursorScreenPosition results))
         /\ _datatipState s' = FETCHING
         /\ _lastFetchedFromCursorPosition s' = true)
      /\ (_datatipState s = VISIBLE ->
          _toggleDatatip env maybeEventType s
          = ((_setState env HIDDEN s, None), []))
      /\ (_datatipState s = FETCHING ->
          _toggleDatatip env maybeEventType s
          = ((set_blacklistedPosition
                (getBufferPosition (editor env) (_lastMoveEvent s)) s,
              None), []))).
Proof.
  split; [|split].
  - intros Ha. unfold _toggleDatatip. now rewrite Ha.
  - intros Ha. unfold _toggleDatatip. rewrite Ha. cbn [negb].
    rewrite (bool_decide_eq_false_2 (Some "keyup" = Some "keydown"))
      by discriminate.
    rewrite (bool_decide_eq_true_2 (Some "keyup" = Some "keyup"))
      by reflexivity.
    rewrite (bool_decide_eq_false_2 (Some "keyup" <> Some "keyup"))
      by (intros N; now apply N).
    rewrite andb_false_r. reflexivity.
  - intros Ha Nd Nu. unfold _toggleDatatip. rewrite Ha. cbn [negb].
    rewrite (bool_decide_eq_false_2 _ Nd), (bool_decide_eq_false_2 _ Nu).
    rewrite (bool_decide_eq_true_2 _ Nd), (bool_decide_eq_true_2 _ Nu).
    cbn [andb orb]. split; [|split]; intros Hs.
    + rewrite bool_decide_eq_true_2 by exact Hs.
      destruct (startFetching_begin_cases env CursorScreenPosition
                  (set_lastFetchedFromCursorPosition true s))
        as [[E _] | (lp & pr & results & _ & E)]; [discriminate E|].
      rewrite E. eexists _, results. split; [reflexivity|].
      cbn. rewrite setState_state. split; [reflexivity|].
      unfold _setState. case_decide; [discriminate | reflexivity].
    + rewrite bool_decide_eq_false_2 by congruence.
      unfold _hideOrCancel. rewrite Hs.
      rewrite !bool_decide_eq_false_2 by discriminate. reflexivity.
    + rewrite bool_decide_eq_false_2 by congruence.
      unfold _hideOrCancel. rewrite Hs.
      rewrite (bool_decide_eq_true_2 (FETCHING = FETCHING)) by reflexivity.
      rewrite orb_true_r. reflexivity.
Qed.

(** A click on the pin hides the hover tooltip and registers the new pinned
    datatip, which from then on masks the hover tooltip whenever the
    pointer is over it; disposing of the pinned datatip removes it again,
    which restores the set when the datatip was new. *)
Theorem pin_click_registers_until_disposed
    (env envLater : Env) (pinnedDatatip : PinnedDatatip) (datatip : Datatip)
    (s : Session) :
  let pinned := fst (_handlePinClicked env pinnedDatatip datatip s) in
  _datatipState pinned = HIDDEN
  /\ _pinnedDatatips pinned = {[pinnedDatatip]} ∪ _pinnedDatatips s
  /\ (isHovering envLater pinnedDatatip = true ->
      _isHoveringOverPinnedTip envLater pinned = true)
  /\ _pinnedDatatips (pinned_onDispose pinnedDatatip pinned)
     = _pinnedDatatips s ∖ {[pinnedDatatip]}
  /\ (pinnedDatatip ∉ _pinnedDatatips s ->
      _pinnedDatatips (pinned_onDispose pinnedDatatip pinned)
      = _pinnedDatatips s).
Proof.
  intros pinned.
  assert (_pinnedDatatips pinned = {[pinnedDatatip]} ∪ _pinnedDatatips s)
    as Ep.
  { subst pinned. unfold _handlePinClicked, bind, tell, ret. cbn.
    now rewrite setState_pinnedDatatips. }
  split.
  { subst pinned. unfold _handlePinClicked, bind, tell, ret. cbn.
    apply setState_state. }
  split; [exact Ep|]. split.
  { intros Hh. apply isHoveringOverPinnedTip_spec.
    exists pinnedDatatip. split; [|exact Hh].
    rewrite Ep. apply elem_of_union. left. now apply elem_of_singleton. }
  change (_pinnedDatatips (pinned_onDispose pinnedDatatip pinned))
    with (_pinnedDatatips pinned ∖ {[pinnedDatatip]}).
  rewrite Ep. clear Ep.
  split; [|intros Hn]; apply set_eq; intros x;
    rewrite !elem_of_difference, elem_of_union, !elem_of_singleton.
  - tauto.
  - split.
    + intros [[E|Hx] Nx]; [contradiction | exact Hx].
    + intros Hx. split; [now right|]. intros ->. contradiction.
Qed.

(** ** The manager: editors and providers *)

(** The manager has a session exactly for the editors that are open:
    opening an editor gives it a fresh hidden session that is handed the
    manager's two provider arrays, and for which pinned datatips can be
    created; after the editor is destroyed, or the manager disposed of,
    creating one throws.  Other editors keep their sessions.  Registering a
    provider appends it to the manager's array, and every open session
    reads the longer array from then on and is otherwise unchanged: after
    every operation of the manager its sessions hold what its arrays
    hold. *)
Theorem manager_tracks_open_editors
    (env : Env) (opened other : DatatipManager.TextEditor)
    (new_PinnedDatatip : PinnedDatatip) (datatip : Datatip)
    (m : DatatipManager.t) :
  DatatipManager._editorManagers (DatatipManager.on_editor env opened m)
    !! opened
  = Some (new_DatatipManagerForEditor env
            (DatatipManager._datatipProviders m)
            (DatatipManager._modifierDatatipProviders m))
  /\ DatatipManager.createPinnedDataTip new_PinnedDatatip datatip opened
       (DatatipManager.on_editor env opened m)
     = inr (new_PinnedDatatip, DatatipManager.on_editor env opened m)
  /\ (exists error,
        DatatipManager.createPinnedDataTip new_PinnedDatatip datatip opened
          (DatatipManager.on_editor_destroyed opened
             (DatatipManager.on_editor env opened m))
        = inl error)
  /\ (exists error,
        DatatipManager.createPinnedDataTip new_PinnedDatatip datatip opened
          (DatatipManager.dispose (DatatipManager.on_editor env opened m))
        = inl error)
  /\ (opened <> other ->
      DatatipManager._editorManagers (DatatipManager.on_editor env opened m)
        !! other = DatatipManager._editorManagers m !! other
      /\ DatatipManager._editorManagers
           (DatatipManager.on_editor_destroyed opened m) !! other
         = DatatipManager._editorManagers m !! other)
  /\ (forall provider,
        DatatipManager._datatipProviders
          (DatatipManager.addProvider provider m)
        = DatatipManager._datatipProviders m ++ [provider]
        /\ DatatipManager._modifierDatatipProviders
             (DatatipManager.addProvider provider m)
           = DatatipManager._modifierDatatipProviders m
        /\ forall editor,
             DatatipManager._editorManagers
               (DatatipManager.addProvider provider m) !! editor
             = set_datatipProviders
                 (DatatipManager._datatipProviders m ++ [provider])
                 <$> DatatipManager._editorManagers m !! editor)
  /\ (forall provider,
        DatatipManager._modifierDatatipProviders
          (DatatipManager.addModifierProvider provider m)
        = DatatipManager._modifierDatatipProviders m ++ [provider]
        /\ DatatipManager._datatipProviders
             (DatatipManager.addModifierProvider provider m)
           = DatatipManager._datatipProviders m
        /\ forall editor,
             DatatipManager._editorManagers
               (DatatipManager.addModifierProvider provider m) !! editor
             = set_modifierDatatipProviders
                 (DatatipManager._modifierDatatipProviders m ++ [provider])
                 <$> DatatipManager._editorManagers m !! editor)
  /\ shares_arrays DatatipManager.new
  /\ (shares_arrays m ->
      shares_arrays (DatatipManager.on_editor env opened m)
      /\ shares_arrays (DatatipManager.on_editor_destroyed opened m)
      /\ shares_arrays (DatatipManager.dispose m)
      /\ (forall provider,
            shares_arrays (DatatipManager.addProvider provider m))
      /\ (forall provider,
            shares_arrays (DatatipManager.addModifierProvider provider m))
      /\ (forall pinnedDatatip m',
            DatatipManager.createPinnedDataTip new_PinnedDatatip datatip
              other m = inr (pinnedDatatip, m') ->
            shares_arrays m')).
Proof.
  assert (DatatipManager._editorManagers
            (DatatipManager.on_editor env opened m) !! opened
          = Some (new_DatatipManagerForEditor env
                    (DatatipManager._datatipProviders m)
                    (DatatipManager._modifierDatatipProviders m))) as E
    by (cbn; apply lookup_insert_eq).
  split; [exact E|]. split.
  { unfold DatatipManager.createPinnedDataTip. rewrite E. cbn.
    now rewrite insert_insert_eq. }
  split.
  { unfold DatatipManager.createPinnedDataTip. cbn.
    rewrite lookup_delete_eq. eexists. reflexivity. }
  split.
  { unfold DatatipManager.createPinnedDataTip. cbn.
    rewrite lookup_empty. eexists. reflexivity. }
  split.
  { intros Hne. cbn. split;
      [now apply lookup_insert_ne | now apply lookup_delete_ne]. }
  split.
  { intros provider. split; [reflexivity|]. split; [reflexivity|].
    intros editor. cbn. apply lookup_fmap. }
  split.
  { intros provider. split; [reflexivity|]. split; [reflexivity|].
    intros editor. cbn. apply lookup_fmap. }
  split.
  { intros editor manager. cbn. rewrite lookup_empty. discriminate. }
  intros Hm. unfold shares_arrays in Hm. split.
  { intros editor manager. cbn.
    destruct (decide (opened = editor)) as [->|Hne].
    - rewrite lookup_insert_eq. intros [= <-]. reflexivity.
    - rewrite lookup_insert_ne by exact Hne. apply Hm. }
  split.
  { intros editor manager. cbn. intros Hl.
    apply lookup_delete_Some in Hl as [_ Hl]. exact (Hm editor manager Hl). }
  split.
  { intros editor manager. cbn. rewrite lookup_empty. discriminate. }
  split.
  { intros provider editor manager. cbn. rewrite lookup_fmap.
    destruct (DatatipManager._editorManagers m !! editor) as [s|] eqn:El;
      [|discriminate].
    intros [= <-]. apply Hm in El. unfold arrays in *. cbn.
    congruence. }
  split.
  { intros provider editor manager. cbn. rewrite lookup_fmap.
    destruct (DatatipManager._editorManagers m !! editor) as [s|] eqn:El;
      [|discriminate].
    intros [= <-]. apply Hm in El. unfold arrays in *. cbn.
    congruence. }
  intros pinnedDatatip m'. unfold DatatipManager.createPinnedDataTip.
  destruct (DatatipManager._editorManagers m !! other) as [s|] eqn:El;
    [|discriminate].
  cbn. intros [= _ <-]. intros editor manager. cbn.
  destruct (decide (other = editor)) as [->|Hne].
  - rewrite lookup_insert_eq. intros [= <-]. exact (Hm editor s El).
  - rewrite lookup_insert_ne by exact Hne. apply Hm.
Qed.

(** A session never writes the two arrays itself: whatever it handles, it
    holds the same arrays afterwards, unless the event is the manager
    changing them. *)
Theorem session_never_writes_the_shared_arrays
    (env : Env) (ev : Event) (w : World) :
  is_array_mutation ev = false ->
  arrays (session (handle env ev w)) = arrays (session w).
Proof. apply handle_keeps_arrays. Qed.

(** ** The diagnostics package *)

Section DiagnosticsFacts.
Import Diagnostics Diagnostics.KeyboardShortcuts DiagnosticsVocabulary.

Lemma Map_get_set_eq (m : JSMap) (key : string) (value : Z) :
  Map_get (Map_set m key value) key = Some value.
Proof.
  induction m as [|[k v] m IH]; cbn.
  - now rewrite decide_True.
  - destruct (decide (k = key)) as [E|N]; cbn.
    + now rewrite decide_True.
    + now rewrite decide_False.
Qed.

Lemma Map_get_set_ne (m : JSMap) (key other : string) (value : Z) :
  key <> other -> Map_get (Map_set m key value) other = Map_get m other.
Proof.
  intros Hne. induction m as [|[k v] m IH]; cbn.
  - now rewrite decide_False.
  - destruct (decide (k = key)) as [->|N]; cbn.
    + now rewrite !decide_False.
    + destruct (decide (k = other)); [reflexivity | exact IH].
Qed.

Lemma Map_set_keys (m : JSMap) (key : string) (value : Z) :
  map fst (Map_set m key value) =
    match Map_get m key with
    | Some _ => map fst m
    | None => map fst m ++ [key]
    end.
Proof.
  induction m as [|[k v] m IH]; cbn; [reflexivity|].
  destruct (decide (k = key)) as [->|N]; cbn; [reflexivity|].
  rewrite IH. now destruct (Map_get m key).
Qed.

Lemma Map_get_None_keys (m : JSMap) (key : string) :
  Map_get m key = None <-> ~ In key (map fst m).
Proof.
  induction m as [|[k v] m IH]; cbn; [tauto|].
  destruct (decide (k = key)) as [->|N].
  - split; [discriminate | intros F; exfalso; apply F; now left].
  - rewrite IH. tauto.
Qed.

Lemma Map_get_In (m : JSMap) (key : string) (value : Z) :
  NoDup (map fst m) -> (Map_get m key = Some value <-> In (key, value) m).
Proof.
  induction m as [|[k v] m IH]; cbn; intros Hnd.
  - split; [discriminate | tauto].
  - apply NoDup_cons in Hnd as [Hk Hnd].
    destruct (decide (k = key)) as [->|N].
    + split.
      * intros [= ->]. now left.
      * intros [[= ->]|Hin]; [reflexivity|].
        exfalso. apply Hk, list_elem_of_In.
        now apply (in_map fst) in Hin.
    + rewrite (IH Hnd). split; [tauto|].
      intros [[= E _]|Hin]; [contradiction | exact Hin].
Qed.

(** Every step keeps the keys distinct, the lines non-negative, and for
    each file the smallest line seen so far. *)
Lemma recordErrorLocation_keeps (m : JSMap) (message : DiagnosticMessage) :
  NoDup (map fst m) ->
  NoDup (map fst (recordErrorLocation m message))
  /\ forall filePath,
       Map_get (recordErrorLocation m message) filePath =
         if decide (reportsFile filePath message)
         then Some (match Map_get m filePath with
                    | Some prevMinLine => Z.min prevMinLine (lineOf message)
                    | None => lineOf message
                    end)
         else Map_get m filePath.
Proof.
  intros Hnd. unfold recordErrorLocation, reportsFile.
  destruct (msg_scope message) eqn:Es.
  2:{ split; [exact Hnd|]. intros filePath.
      rewrite decide_False; [reflexivity | intros [F _]; discriminate F]. }
  destruct (msg_filePath message) as [path|] eqn:Ep.
  2:{ split; [exact Hnd|]. intros filePath.
      rewrite decide_False; [reflexivity | intros [_ F]; discriminate F]. }
  split.
  - rewrite Map_set_keys. destruct (Map_get m path) eqn:Eg; [exact Hnd|].
    apply NoDup_app. split; [exact Hnd|].
    split; [|apply NoDup_singleton].
    intros x Hx Hin. apply list_elem_of_In in Hx, Hin.
    destruct Hin as [<-|[]]. now apply Map_get_None_keys in Eg.
  - intros filePath. destruct (decide (path = filePath)) as [<-|N].
    + rewrite Map_get_set_eq, decide_True by tauto. reflexivity.
    + rewrite Map_get_set_ne by exact N.
      rewrite decide_False; [reflexivity|]. intros [_ [= F]]. contradiction.
Qed.

Lemma errorLocations_from (messages : list DiagnosticMessage) (m : JSMap) :
  NoDup (map fst m) ->
  (forall filePath line, Map_get m filePath = Some line -> 0 <= line) ->
  let result := foldl recordErrorLocation m messages in
  NoDup (map fst result)
  /\ forall filePath,
       match Map_get result filePath with
       | None =>
           Map_get m filePath = None
           /\ forall message, In message messages ->
                ~ reportsFile filePath message
       | Some line =>
           0 <= line
           /\ (Map_get m filePath = Some line
               \/ exists message,
                    In message messages /\ reportsFile filePath message
                    /\ line = lineOf message)
           /\ (forall prev, Map_get m filePath = Some prev -> line <= prev)
           /\ forall message, In message messages ->
                reportsFile filePath message -> line <= lineOf message
       end.
Proof.
  revert m. induction messages as [|message messages IH]; intros m Hnd Hpos.
  - cbn. split; [exact Hnd|]. intros filePath.
    destruct (Map_get m filePath) as [line|] eqn:E.
    + split; [now apply (Hpos filePath)|]. split; [now left|].
      split; [intros prev [= <-]; lia | intros message []].
    + split; [reflexivity | intros message []].
  - cbn [foldl].
    destruct (recordErrorLocation_keeps m message Hnd) as [Hnd' Hget].
    assert (forall filePath line,
              Map_get (recordErrorLocation m message) filePath = Some line ->
              0 <= line) as Hpos'.
    { intros filePath line. rewrite Hget.
      destruct (decide (reportsFile filePath message)).
      - intros [= <-]. unfold lineOf.
        destruct (Map_get m filePath) as [prev|] eqn:E; [|lia].
        pose proof (Hpos filePath prev E). lia.
      - apply Hpos. }
    destruct (IH _ Hnd' Hpos') as [Hr1 Hr2]. split; [exact Hr1|].
    intros filePath. specialize (Hr2 filePath).
    rewrite Hget in Hr2.
    destruct (Map_get (foldl recordErrorLocation
                         (recordErrorLocation m message) messages) filePath)
      as [line|].
    + destruct Hr2 as (H0 & Hfrom & Hprev & Hle).
      split; [exact H0|].
      destruct (decide (reportsFile filePath message)) as [Hrep|Hrep].
      * specialize (Hprev _ eq_refl).
        split; [|split].
        -- destruct Hfrom as [[= Hl]|(msg & Hin & Hr & ->)].
           ++ destruct (Map_get m filePath) as [prev|] eqn:E.
              ** destruct (Z.min_spec prev (lineOf message)) as [[_ Em]|[_ Em]].
                 --- left. congruence.
                 --- right. exists message. split; [now left|].
                     split; [exact Hrep | congruence].
              ** right. exists message. split; [now left|]. now split.
           ++ right. exists msg. split; [now right|]. now split.
        -- intros prev E. rewrite E in Hprev. lia.
        -- intros msg [<-|Hin] Hr; [|now apply Hle].
           destruct (Map_get m filePath); lia.
      * split; [|split].
        -- destruct Hfrom as [E|(msg & Hin & Hr & ->)]; [now left|].
           right. exists msg. split; [now right|]. now split.
        -- exact Hprev.
        -- intros msg [<-|Hin] Hr; [contradiction | now apply Hle].
    + destruct Hr2 as [En Hno].
      destruct (decide (reportsFile filePath message)) as [Hrep|Hrep];
        [discriminate En|].
      split; [exact En|]. intros msg [<-|Hin]; [exact Hrep | now apply Hno].
Qed.

Lemma filter_first {A} (f : A -> bool) (l : list A) (x : A) (rest : list A) :
  List.filter f l = x :: rest ->
  exists before after,
    l = before ++ x :: after /\ f x = true
    /\ forall b, In b before -> f b = false.
Proof.
  induction l as [|a l IH]; [discriminate|].
  cbn. destruct (f a) eqn:E.
  - intros [= -> _]. exists [], l. split; [reflexivity|].
    split; [exact E | intros b []].
  - intros Hf. destruct (IH Hf) as (before & after & -> & Hx & Hb).
    exists (a :: before), after. split; [reflexivity|]. split; [exact Hx|].
    intros b [<-|Hin]; [exact E | now apply Hb].
Qed.

Lemma filter_nil {A} (f : A -> bool) (l : list A) :
  List.filter f l = [] -> forall a, In a l -> f a = false.
Proof.
  induction l as [|a l IH]; [intros _ b []|].
  cbn. destruct (f a) eqn:E; [discriminate|].
  intros Hf b [<-|Hin]; [exact E | now apply IH].
Qed.

(** What [_datatip] answers for a list of messages. *)
Lemma datatip_at_position (messages : list DiagnosticMessage)
    (position : Point) :
  match _datatip (Some messages) position with
  | None =>
      forall message r,
        In message messages -> msg_range message = Some r ->
        containsPoint r position = false
  | Some datatip =>
      pinnable datatip = Some false
      /\ exists before message after r,
           messages = before ++ message :: after
           /\ msg_range message = Some r
           /\ containsPoint r position = true
           /\ range datatip = Some r
           /\ payload datatip = msg_text message
           /\ forall earlier r',
                In earlier before -> msg_range earlier = Some r' ->
                containsPoint r' position = false
  end.
Proof.
  unfold _datatip.
  set (f := fun message : DiagnosticMessage =>
              match msg_range message with
              | Some range => containsPoint range position
              | None => false
              end).
  destruct (List.filter f messages) as [|message rest] eqn:E.
  - intros message r Hin Hr.
    pose proof (filter_nil f messages E message Hin) as Hf.
    subst f. cbn in Hf. now rewrite Hr in Hf.
  - split; [reflexivity|].
    destruct (filter_first f messages message rest E)
      as (before & after & -> & Hx & Hb).
    subst f. cbn in Hx.
    destruct (msg_range message) as [r|] eqn:Er; [|discriminate Hx].
    exists before, message, after, r. cbn.
    repeat (split; [first [reflexivity | assumption]|]).
    intros earlier r' Hin Hr'. specialize (Hb earlier Hin).
    cbn in Hb. now rewrite Hr' in Hb.
Qed.

(** The diagnostics provider answers with the first message of the file
    whose range contains the position: a datatip that is not pinnable,
    spans that message's range and shows its text.  It answers null when
    the editor has no message list or no message is at the position. *)
Theorem diagnostics_datatip_is_first_message_at_position
    (messagesForFile : option (list DiagnosticMessage)) (position : Point) :
  match _datatip messagesForFile position with
  | None =>
      forall messages message r,
        messagesForFile = Some messages ->
        In message messages -> msg_range message = Some r ->
        containsPoint r position = false
  | Some datatip =>
      pinnable datatip = Some false
      /\ exists messages before message after r,
           messagesForFile = Some messages
           /\ messages = before ++ message :: after
           /\ msg_range message = Some r
           /\ containsPoint r position = true
           /\ range datatip = Some r
           /\ payload datatip = msg_text message
           /\ forall earlier r',
                In earlier before -> msg_range earlier = Some r' ->
                containsPoint r' position = false
  end.
Proof.
  destruct messagesForFile as [messages|]; [|cbn; discriminate].
  pose proof (datatip_at_position messages position) as H.
  destruct (_datatip (Some messages) position) as [datatip|].
  - destruct H as (Hp & before & message & after & r & H).
    split; [exact Hp|]. exists messages, before, message, after, r.
    split; [reflexivity | exact H].
  - intros messages' message r [= <-]. apply H.
Qed.

(** With the diagnostics provider registered there is an applicable
    provider for every scope, so the race always runs; raced alone, the
    provider's answer is the race's answer and nothing is logged as an
    error. *)
Theorem diagnostics_provider_is_always_raced
    (_fileDiagnostics : Editor -> option (list DiagnosticMessage))
    (providers : list DatatipProvider) (editor : Editor) (position : Point) :
  (In (datatipProvider _fileDiagnostics) providers ->
   forall scope, filterProvidersByScopeName providers scope <> [])
  /\ getTopDatatipAndProvider [datatipProvider _fileDiagnostics] editor
       position (fun provider => datatip provider editor position)
     = (pair (datatipProvider _fileDiagnostics)
          <$> _datatip (_fileDiagnostics editor) position,
        [TimingTrackerNew "nuclide-diagnostics-datatip.datatip";
         Invoke "nuclide-diagnostics-datatip"]
        ++ match _datatip (_fileDiagnostics editor) position with
           | Some _ => [TimingOnSuccess "nuclide-diagnostics-datatip.datatip"]
           | None => []
           end).
Proof.
  split.
  - intros Hin scope E.
    assert (In (datatipProvider _fileDiagnostics)
              (filterProvidersByScopeName providers scope)) as Hf.
    { apply filter_keeps_the_applicable_in. split; [exact Hin|].
      split; [cbn; lia | reflexivity]. }
    rewrite E in Hf. destruct Hf.
  - unfold getTopDatatipAndProvider. cbn.
    destruct (_datatip (_fileDiagnostics editor) position); reflexivity.
Qed.

(** [getTopMostErrorLocationsByFilePath] holds one entry per file that a
    file-scoped message reports, with the smallest line among the file's
    messages, taking a message's line as 0 when it has no range or a
    negative row. *)
Theorem error_locations_are_topmost
    (messages : list DiagnosticMessage) (filePath : string) :
  NoDup (map fst (getTopMostErrorLocationsByFilePath messages))
  /\ match Map_get (getTopMostErrorLocationsByFilePath messages) filePath with
     | None =>
         forall message, In message messages -> ~ reportsFile filePath message
     | Some line =>
         0 <= line
         /\ (exists message,
               In message messages /\ reportsFile filePath message
               /\ line = lineOf message)
         /\ forall message,
              In message messages -> reportsFile filePath message ->
              line <= lineOf message
     end.
Proof.
  destruct (errorLocations_from messages []) as [Hnd Hget].
  { constructor. }
  { intros f l. discriminate. }
  split; [exact Hnd|]. specialize (Hget filePath).
  unfold getTopMostErrorLocationsByFilePath.
  destruct (Map_get (foldl recordErrorLocation [] messages) filePath).
  - destruct Hget as (H0 & [F|Hex] & _ & Hle); [discriminate F|].
    split; [exact H0|]. split; [exact Hex | exact Hle].
  - apply Hget.
Qed.

(** [openAllFilesWithErrors] never opens more than 20 files: with more than
    20 files in error it opens none and raises one error notification;
    otherwise it opens exactly the files in error, each at column 0 of its
    topmost error line. *)
Theorem open_all_files_is_capped (messages : list DiagnosticMessage) :
  let locations := getTopMostErrorLocationsByFilePath messages in
  let actions := openAllFilesWithErrors messages in
  (length (List.filter is_goto actions) <= 20)%nat
  /\ ((20 < length locations)%nat ->
      actions =
        [TrackEvent "diagnostics-panel-open-all-files-with-errors";
         AddError "Diagnostics: Will not open more than 20 files"])
  /\ ((length locations <= 20)%nat ->
      forall file line column,
        In (GoToLocation file line column) actions <->
        exists filePath l,
          file = Some filePath /\ line = Some l /\ column = Some 0
          /\ Map_get locations filePath = Some l).
Proof.
  intros locations actions. subst actions. unfold openAllFilesWithErrors.
  fold locations. unfold MAX_OPEN_ALL_FILES.
  assert (NoDup (map fst locations)) as Hnd.
  { destruct (errorLocations_from messages []) as [Hnd _];
      [constructor | intros f l; discriminate | exact Hnd]. }
  destruct (20 <? length locations)%nat eqn:E.
  - apply Nat.ltb_lt in E. split; [cbn; lia|].
    split; [reflexivity | lia].
  - apply Nat.ltb_ge in E. split.
    { cbn [List.filter is_goto].
      assert (forall l : JSMap,
                List.filter is_goto
                  (map (fun entry : string * Z =>
                          GoToLocation (Some (fst entry)) (Some (snd entry))
                            (Some 0)) l)
                = map (fun entry : string * Z =>
                         GoToLocation (Some (fst entry)) (Some (snd entry))
                           (Some 0)) l) as ->.
      { intros l. induction l as [|x l IH]; [reflexivity|].
        cbn. now rewrite IH. }
      now rewrite length_map. }
    split; [lia|]. intros _ file line column. split.
    + intros [F|Hin]; [discriminate F|].
      apply in_map_iff in Hin as ([filePath l] & [= <- <- <-] & Hin).
      exists filePath, l. repeat (split; [reflexivity|]).
      now apply Map_get_In.
    + intros (filePath & l & -> & -> & -> & Hg). right.
      apply in_map_iff. exists (filePath, l). split; [reflexivity|].
      now apply Map_get_In.
Qed.

(** *** The go-to-diagnostic commands *)

Lemma at_index_is_Some {A} (l : list A) (i : Z) :
  is_Some (at_index l i) <-> 0 <= i < Z.of_nat (length l).
Proof.
  unfold at_index. destruct (i <? 0) eqn:E.
  - apply Z.ltb_lt in E. split; [intros [x F]; discriminate F | lia].
  - apply Z.ltb_ge in E. rewrite lookup_lt_is_Some. lia.
Qed.

Lemma gotoCurrentIndex_in_bounds (ks : t) (index : Z) :
  _index ks = Some index ->
  _traceIndex ks = None ->
  0 <= index < Z.of_nat (length (_diagnostics ks)) ->
  exists diagnostic,
    at_index (_diagnostics ks) index = Some diagnostic
    /\ gotoCurrentIndex ks = inr [locationOf diagnostic].
Proof.
  intros Hi Ht Hb. apply at_index_is_Some in Hb as [diagnostic Hd].
  exists diagnostic. split; [exact Hd|].
  unfold gotoCurrentIndex, locationOf. rewrite Hi, Ht, Hd.
  now destruct (msg_range diagnostic).
Qed.

(** [setIndex] never throws: it clamps the index into the list, or sets it
    to null when the list is empty. *)
Lemma setIndex_clamps (index : Z) (ks : t) :
  (_diagnostics ks = [] /\ setIndex index ks = inr (mk [] None None, []))
  \/ (exists diagnostic,
        _diagnostics ks <> []
        /\ let clamped :=
             Z.max 0 (Z.min index (Z.of_nat (length (_diagnostics ks)) - 1)) in
           0 <= clamped < Z.of_nat (length (_diagnostics ks))
           /\ at_index (_diagnostics ks) clamped = Some diagnostic
           /\ setIndex index ks
              = inr (mk (_diagnostics ks) (Some clamped) None,
                     [locationOf diagnostic])).
Proof.
  unfold setIndex. cbn [_diagnostics _index _traceIndex].
  destruct (_diagnostics ks) as [|d ds] eqn:E; [left; now split|].
  right. change ((length (d :: ds) =? 0)%nat) with false. cbv iota.
  set (clamped := Z.max 0 (Z.min index (Z.of_nat (length (d :: ds)) - 1))).
  assert (0 <= clamped < Z.of_nat (length (d :: ds))) as Hb
    by (subst clamped; cbn [length]; lia).
  destruct (gotoCurrentIndex_in_bounds (mk (d :: ds) (Some clamped) None)
              clamped eq_refl eq_refl Hb) as (diagnostic & Hd & Hg).
  exists diagnostic. split; [discriminate|]. cbn zeta.
  split; [exact Hb|]. split; [exact Hd|].
  cbn [_diagnostics] in Hg. fold clamped. now rewrite Hg.
Qed.

Lemma setIndex_in_bounds (index : Z) (ks ks' : t) (actions : list Action) :
  setIndex index ks = inr (ks', actions) ->
  in_bounds ks' /\ _diagnostics ks' = _diagnostics ks.
Proof.
  destruct (setIndex_clamps index ks) as [[E ->] | (d & _ & Hb & _ & ->)];
    intros [= <- _].
  - split; [reflexivity | now rewrite E].
  - split; [|reflexivity]. unfold in_bounds. cbn. split; [exact Hb | exact I].
Qed.

Lemma trySetCurrentTrace_cases (traces : list Trace) (traceIndex : Z)
    (ks : t) (trace : Trace) :
  at_index traces traceIndex = Some trace ->
  (navigable trace
   /\ exists action,
        trySetCurrentTrace traces traceIndex ks
        = inr (true, mk (_diagnostics ks) (_index ks) (Some traceIndex),
               [action]))
  \/ (~ navigable trace
      /\ trySetCurrentTrace traces traceIndex ks = inr (false, ks, [])).
Proof.
  intros Ht. unfold trySetCurrentTrace, navigable. rewrite Ht.
  destruct (trace_filePath trace) as [f|], (trace_range trace) as [r|].
  - left. split; [split; eauto | eexists; reflexivity].
  - right. split; [intros [_ [x F]]; discriminate F | reflexivity].
  - right. split; [intros [[x F] _]; discriminate F | reflexivity].
  - right. split; [intros [[x F] _]; discriminate F | reflexivity].
Qed.

Lemma nextTrace_loop_finds (fuel : nat) (traces : list Trace)
    (candidateTrace : Z) (ks : t) (index : Z) :
  _index ks = Some index ->
  0 <= index < Z.of_nat (length (_diagnostics ks)) ->
  0 <= candidateTrace ->
  Z.of_nat (length traces) - candidateTrace < Z.of_nat fuel ->
  exists ks' actions,
    nextTrace_loop fuel traces candidateTrace ks = Some (inr (ks', actions))
    /\ ((exists j,
           found ks ks' traces j /\ candidateTrace <= j
           /\ forall k trace,
                candidateTrace <= k < j -> at_index traces k = Some trace ->
                ~ navigable trace)
        \/ (ks' = mk (_diagnostics ks) (_index ks) None
            /\ forall k trace,
                 candidateTrace <= k -> at_index traces k = Some trace ->
                 ~ navigable trace)).
Proof.
  intros Hi Hb. revert candidateTrace.
  induction fuel as [|fuel IH]; intros c Hc Hf.
  - cbn. assert ((c <? Z.of_nat (length traces)) = false) as ->
      by (apply Z.ltb_ge; lia).
    destruct (gotoCurrentIndex_in_bounds
                (mk (_diagnostics ks) (_index ks) None) index Hi eq_refl Hb)
      as (d & _ & Hg).
    unfold backToDiagnostic. rewrite Hg. eexists _, _.
    split; [reflexivity|]. right. split; [reflexivity|].
    intros k trace Hk Ht.
    assert (is_Some (at_index traces k)) as Hs by eauto.
    apply at_index_is_Some in Hs. lia.
  - cbn [nextTrace_loop].
    destruct (c <? Z.of_nat (length traces)) eqn:E.
    + apply Z.ltb_lt in E.
      assert (is_Some (at_index traces c)) as [trace Ht]
        by (apply at_index_is_Some; lia).
      destruct (trySetCurrentTrace_cases traces c ks trace Ht)
        as [[Hn (action & ->)] | [Hn ->]].
      * eexists _, _. split; [reflexivity|]. left. exists c.
        split; [split; [reflexivity | eauto]|]. split; [lia|].
        intros k trace' Hk. lia.
      * destruct (IH (c + 1)) as (ks' & actions & Hl & Hres); [lia | lia |].
        exists ks', actions. split; [exact Hl|].
        destruct Hres as [(j & Hfound & Hj & Hskip) | [-> Hnone]].
        -- left. exists j. split; [exact Hfound|]. split; [lia|].
           intros k trace' Hk Hk'.
           destruct (decide (k = c)) as [->|Nk].
           ++ rewrite Ht in Hk'. injection Hk' as <-. exact Hn.
           ++ apply (Hskip k trace'); [lia | exact Hk'].
        -- right. split; [reflexivity|]. intros k trace' Hk Hk'.
           destruct (decide (k = c)) as [->|Nk].
           ++ rewrite Ht in Hk'. injection Hk' as <-. exact Hn.
           ++ apply (Hnone k trace'); [lia | exact Hk'].
    + apply Z.ltb_ge in E.
      destruct (gotoCurrentIndex_in_bounds
                  (mk (_diagnostics ks) (_index ks) None) index Hi eq_refl Hb)
        as (d & _ & Hg).
      unfold backToDiagnostic. rewrite Hg. eexists _, _.
      split; [reflexivity|]. right. split; [reflexivity|].
      intros k trace Hk Ht.
      assert (is_Some (at_index traces k)) as Hs by eauto.
      apply at_index_is_Some in Hs. lia.
Qed.

Lemma previousTrace_loop_finds (fuel : nat) (traces : list Trace)
    (candidateTrace : Z) (ks : t) (index : Z) :
  _index ks = Some index ->
  0 <= index < Z.of_nat (length (_diagnostics ks)) ->
  candidateTrace < Z.of_nat (length traces) ->
  candidateTrace + 1 < Z.of_nat fuel ->
  exists ks' actions,
    previousTrace_loop fuel traces candidateTrace ks
    = Some (inr (ks', actions))
    /\ ((exists j,
           found ks ks' traces j /\ j <= candidateTrace
           /\ forall k trace,
                j < k <= candidateTrace -> at_index traces k = Some trace ->
                ~ navigable trace)
        \/ (ks' = mk (_diagnostics ks) (_index ks) None
            /\ forall k trace,
                 k <= candidateTrace -> at_index traces k = Some trace ->
                 ~ navigable trace)).
Proof.
  intros Hi Hb. revert candidateTrace.
  induction fuel as [|fuel IH]; intros c Hc Hf.
  - cbn. assert ((0 <=? c) = false) as -> by (apply Z.leb_gt; lia).
    destruct (gotoCurrentIndex_in_bounds
                (mk (_diagnostics ks) (_index ks) None) index Hi eq_refl Hb)
      as (d & _ & Hg).
    unfold backToDiagnostic. rewrite Hg. eexists _, _.
    split; [reflexivity|]. right. split; [reflexivity|].
    intros k trace Hk Ht.
    assert (is_Some (at_index traces k)) as Hs by eauto.
    apply at_index_is_Some in Hs. lia.
  - cbn [previousTrace_loop].
    destruct (0 <=? c) eqn:E.
    + apply Z.leb_le in E.
      assert (is_Some (at_index traces c)) as [trace Ht]
        by (apply at_index_is_Some; lia).
      destruct (trySetCurrentTrace_cases traces c ks trace Ht)
        as [[Hn (action & ->)] | [Hn ->]].
      * eexists _, _. split; [reflexivity|]. left. exists c.
        split; [split; [reflexivity | eauto]|]. split; [lia|].
        intros k trace' Hk. lia.
      * destruct (IH (c - 1)) as (ks' & actions & Hl & Hres); [lia | lia |].
        exists ks', actions. split; [exact Hl|].
        destruct Hres as [(j & Hfound & Hj & Hskip) | [-> Hnone]].
        -- left. exists j. split; [exact Hfound|]. split; [lia|].
           intros k trace' Hk Hk'.
           destruct (decide (k = c)) as [->|Nk].
           ++ rewrite Ht in Hk'. injection Hk' as <-. exact Hn.
           ++ apply (Hskip k trace'); [lia | exact Hk'].
        -- right. split; [reflexivity|]. intros k trace' Hk Hk'.
           destruct (decide (k = c)) as [->|Nk].
           ++ rewrite Ht in Hk'. injection Hk' as <-. exact Hn.
           ++ apply (Hnone k trace'); [lia | exact Hk'].
    + apply Z.leb_gt in E.
      destruct (gotoCurrentIndex_in_bounds
                  (mk (_diagnostics ks) (_index ks) None) index Hi eq_refl Hb)
        as (d & _ & Hg).
      unfold backToDiagnostic. rewrite Hg. eexists _, _.
      split; [reflexivity|]. right. split; [reflexivity|].
      intros k trace Hk Ht.
      assert (is_Some (at_index traces k)) as Hs by eauto.
      apply at_index_is_Some in Hs. lia.
Qed.

Lemma found_in_bounds (ks ks' : t) (index : Z) (diagnostic : DiagnosticMessage)
    (traces : list Trace) (j : Z) :
  _index ks = Some index ->
  0 <= index < Z.of_nat (length (_diagnostics ks)) ->
  at_index (_diagnostics ks) index = Some diagnostic ->
  msg_trace diagnostic = Some traces ->
  found ks ks' traces j ->
  in_bounds ks'.
Proof.
  intros Hi Hb Hd Ht [-> (trace & Hj & Hn)].
  unfold in_bounds. cbn. rewrite Hi. split; [exact Hb|].
  now exists diagnostic, traces, trace.
Qed.

(** Where a trace command starts looking. *)
Lemma trace_candidates (ks : t) (index : Z) (diagnostic : DiagnosticMessage)
    (traces : list Trace) :
  in_bounds ks ->
  _index ks = Some index ->
  at_index (_diagnostics ks) index = Some diagnostic ->
  msg_trace diagnostic = Some traces ->
  forall traceIndex,
    _traceIndex ks = Some traceIndex ->
    0 <= traceIndex < Z.of_nat (length traces).
Proof.
  unfold in_bounds. intros Hin Hi Hd Ht traceIndex Hti.
  rewrite Hi, Hti in Hin.
  destruct Hin as (_ & d & traces' & trace & Hd' & Ht' & Hj & _).
  rewrite Hd in Hd'. injection Hd' as <-.
  rewrite Ht in Ht'. injection Ht' as <-.
  apply at_index_is_Some. eauto.
Qed.

Lemma run_keeps_in_bounds (command : Command) (ks : t) :
  in_bounds ks ->
  exists ks' actions,
    run command ks = Some (inr (ks', actions)) /\ in_bounds ks'.
Proof.
  intros Hin. destruct command; cbn [run].
  - unfold first.
    destruct (setIndex_clamps 0 ks) as [[_ E] | (d & _ & _ & _ & E)];
      eexists _, _; (split; [now rewrite E|]);
      apply (setIndex_in_bounds _ _ _ _ E).
  - unfold last.
    destruct (setIndex_clamps (Z.of_nat (length (_diagnostics ks)) - 1) ks)
      as [[_ E] | (d & _ & _ & _ & E)];
      eexists _, _; (split; [now rewrite E|]);
      apply (setIndex_in_bounds _ _ _ _ E).
  - unfold next, first. destruct (_index ks) as [i|].
    + destruct (setIndex_clamps (i + 1) ks)
        as [[_ E] | (d & _ & _ & _ & E)];
        eexists _, _; (split; [now rewrite E|]);
        apply (setIndex_in_bounds _ _ _ _ E).
    + destruct (setIndex_clamps 0 ks) as [[_ E] | (d & _ & _ & _ & E)];
        eexists _, _; (split; [now rewrite E|]);
        apply (setIndex_in_bounds _ _ _ _ E).
  - unfold previous, last. destruct (_index ks) as [i|].
    + destruct (setIndex_clamps (i - 1) ks)
        as [[_ E] | (d & _ & _ & _ & E)];
        eexists _, _; (split; [now rewrite E|]);
        apply (setIndex_in_bounds _ _ _ _ E).
    + destruct (setIndex_clamps (Z.of_nat (length (_diagnostics ks)) - 1) ks)
        as [[_ E] | (d & _ & _ & _ & E)];
        eexists _, _; (split; [now rewrite E|]);
        apply (setIndex_in_bounds _ _ _ _ E).
  - unfold nextTrace, currentTraces.
    destruct (_index ks) as [index|] eqn:Hi; [|now exists ks, []].
    assert (0 <= index < Z.of_nat (length (_diagnostics ks))) as Hb
      by (unfold in_bounds in Hin; rewrite Hi in Hin; apply Hin).
    destruct (proj2 (at_index_is_Some _ _) Hb) as [d Hd]. rewrite Hd.
    destruct (msg_trace d) as [traces|] eqn:Ht; [|now exists ks, []].
    pose proof (trace_candidates ks index d traces Hin Hi Hd Ht) as Hc.
    destruct (nextTrace_loop_finds (S (length traces)) traces
                (match _traceIndex ks with
                 | Some traceIndex => traceIndex + 1
                 | None => 0
                 end) ks index Hi Hb)
      as (ks' & actions & Hl & Hres).
    { destruct (_traceIndex ks) as [ti|]; [|lia].
      specialize (Hc ti eq_refl). lia. }
    { destruct (_traceIndex ks) as [ti|]; [|lia].
      specialize (Hc ti eq_refl). lia. }
    exists ks', actions. split; [exact Hl|].
    destruct Hres as [(j & Hf & _) | [-> _]].
    + now apply (found_in_bounds ks ks' index d traces j).
    + unfold in_bounds. cbn. rewrite Hi. now split.
  - unfold previousTrace, currentTraces.
    destruct (_index ks) as [index|] eqn:Hi; [|now exists ks, []].
    assert (0 <= index < Z.of_nat (length (_diagnostics ks))) as Hb
      by (unfold in_bounds in Hin; rewrite Hi in Hin; apply Hin).
    destruct (proj2 (at_index_is_Some _ _) Hb) as [d Hd]. rewrite Hd.
    destruct (msg_trace d) as [traces|] eqn:Ht; [|now exists ks, []].
    pose proof (trace_candidates ks index d traces Hin Hi Hd Ht) as Hc.
    destruct (previousTrace_loop_finds (S (length traces)) traces
                (match _traceIndex ks with
                 | Some traceIndex => traceIndex - 1
                 | None => Z.of_nat (length traces) - 1
                 end) ks index Hi Hb)
      as (ks' & actions & Hl & Hres).
    { destruct (_traceIndex ks) as [ti|]; [|lia].
      specialize (Hc ti eq_refl). lia. }
    { destruct (_traceIndex ks) as [ti|]; [|lia].
      specialize (Hc ti eq_refl). lia. }
    exists ks', actions. split; [exact Hl|].
    destruct Hres as [(j & Hf & _) | [-> _]].
    + now apply (found_in_bounds ks ks' index d traces j).
    + unfold in_bounds. cbn. rewrite Hi. now split.
  - eexists _, _. split; reflexivity.
Qed.

Lemma reachable_in_bounds (ks : t) : reachable ks -> in_bounds ks.
Proof.
  induction 1 as [|command ks ks' actions Hr IH Hrun]; [reflexivity|].
  destruct (run_keeps_in_bounds command ks IH) as (ks2 & a2 & E & Hin).
  rewrite E in Hrun. now injection Hrun as <- _.
Qed.

Lemma run_keeps_file_scope (command : Command) (ks ks' : t)
    (actions : list Action) :
  Forall (fun d => msg_scope d = ScopeFile) (_diagnostics ks) ->
  in_bounds ks ->
  run command ks = Some (inr (ks', actions)) ->
  Forall (fun d => msg_scope d = ScopeFile) (_diagnostics ks').
Proof.
  intros Hf Hin Hrun.
  assert (forall index,
            setIndex index ks = inr (ks', actions) ->
            _diagnostics ks' = _diagnostics ks) as Hset
    by (intros index E; apply (setIndex_in_bounds _ _ _ _ E)).
  destruct command; cbn [run] in Hrun.
  - injection Hrun as Hrun. now rewrite (Hset _ Hrun).
  - injection Hrun as Hrun. now rewrite (Hset _ Hrun).
  - injection Hrun as Hrun. unfold next, first in Hrun.
    destruct (_index ks); now rewrite (Hset _ Hrun).
  - injection Hrun as Hrun. unfold previous, last in Hrun.
    destruct (_index ks); now rewrite (Hset _ Hrun).
  - unfold nextTrace, currentTraces in Hrun.
    destruct (_index ks) as [index|] eqn:Hi;
      [|injection Hrun as <- _; exact Hf].
    assert (0 <= index < Z.of_nat (length (_diagnostics ks))) as Hb
      by (unfold in_bounds in Hin; rewrite Hi in Hin; apply Hin).
    destruct (proj2 (at_index_is_Some _ _) Hb) as [d Hd].
    rewrite Hd in Hrun.
    destruct (msg_trace d) as [traces|] eqn:Ht;
      [|injection Hrun as <- _; exact Hf].
    pose proof (trace_candidates ks index d traces Hin Hi Hd Ht) as Hc.
    destruct (nextTrace_loop_finds (S (length traces)) traces
                (match _traceIndex ks with
                 | Some traceIndex => traceIndex + 1
                 | None => 0
                 end) ks index Hi Hb)
      as (ks2 & a2 & Hl & Hres).
    { destruct (_traceIndex ks) as [ti|]; [|lia].
      specialize (Hc ti eq_refl). lia. }
    { destruct (_traceIndex ks) as [ti|]; [|lia].
      specialize (Hc ti eq_refl). lia. }
    rewrite Hl in Hrun. injection Hrun as <- _.
    destruct Hres as [(j & [-> _] & _) | [-> _]]; exact Hf.
  - unfold previousTrace, currentTraces in Hrun.
    destruct (_index ks) as [index|] eqn:Hi;
      [|injection Hrun as <- _; exact Hf].
    assert (0 <= index < Z.of_nat (length (_diagnostics ks))) as Hb
      by (unfold in_bounds in Hin; rewrite Hi in Hin; apply Hin).
    destruct (proj2 (at_index_is_Some _ _) Hb) as [d Hd].
    rewrite Hd in Hrun.
    destruct (msg_trace d) as [traces|] eqn:Ht;
      [|injection Hrun as <- _; exact Hf].
    pose proof (trace_candidates ks index d traces Hin Hi Hd Ht) as Hc.
    destruct (previousTrace_loop_finds (S (length traces)) traces
                (match _traceIndex ks with
                 | Some traceIndex => traceIndex - 1
                 | None => Z.of_nat (length traces) - 1
                 end) ks index Hi Hb)
      as (ks2 & a2 & Hl & Hres).
    { destruct (_traceIndex ks) as [ti|]; [|lia].
      specialize (Hc ti eq_refl). lia. }
    { destruct (_traceIndex ks) as [ti|]; [|lia].
      specialize (Hc ti eq_refl). lia. }
    rewrite Hl in Hrun. injection Hrun as <- _.
    destruct Hres as [(j & [-> _] & _) | [-> _]]; exact Hf.
  - injection Hrun as <- _. cbn. apply Forall_forall. intros d Hd.
    apply list_elem_of_In, filter_In in Hd as [_ Hd].
    now apply bool_decide_eq_true in Hd.
Qed.

(** In every state the object reaches, the index is null or points into
    the list of diagnostics, which holds file-scoped messages only, and the
    trace index is null or points at a trace of the current diagnostic that
    has a file and a range. *)
Theorem shortcut_indices_stay_in_bounds (ks : t) :
  reachable ks ->
  in_bounds ks
  /\ Forall (fun d => msg_scope d = ScopeFile) (_diagnostics ks).
Proof.
  intros Hr. split; [now apply reachable_in_bounds|].
  induction Hr as [|command ks ks' actions Hr IH Hrun]; [constructor|].
  apply (run_keeps_file_scope command ks ks' actions IH); [|exact Hrun].
  now apply reachable_in_bounds.
Qed.

(** In every state the object reaches, no command throws: the two
    [invariant] calls of [gotoCurrentIndex] hold, no property is read off a
    missing diagnostic or trace, and the trace loops end. *)
Theorem shortcuts_never_throw (ks : t) (command : Command) :
  reachable ks ->
  exists ks' actions, run command ks = Some (inr (ks', actions)).
Proof.
  intros Hr.
  destruct (run_keeps_in_bounds command ks (reachable_in_bounds ks Hr))
    as (ks' & actions & E & _).
  now exists ks', actions.
Qed.

(** Going to the next or previous diagnostic moves the index by one, goes
    to that diagnostic and forgets the trace; it stops at the ends of the
    list instead of wrapping around. *)
Theorem next_and_previous_stop_at_the_ends (ks : t) (index : Z) :
  _index ks = Some index ->
  0 <= index < Z.of_nat (length (_diagnostics ks)) ->
  (exists diagnostic,
     at_index (_diagnostics ks)
       (Z.min (index + 1) (Z.of_nat (length (_diagnostics ks)) - 1))
     = Some diagnostic
     /\ next ks =
        inr (mk (_diagnostics ks)
               (Some (Z.min (index + 1)
                        (Z.of_nat (length (_diagnostics ks)) - 1)))
               None,
             [locationOf diagnostic]))
  /\ (exists diagnostic,
        at_index (_diagnostics ks) (Z.max (index - 1) 0) = Some diagnostic
        /\ previous ks =
           inr (mk (_diagnostics ks) (Some (Z.max (index - 1) 0)) None,
                [locationOf diagnostic])).
Proof.
  intros Hi Hb. unfold next, previous. rewrite Hi. split.
  - destruct (setIndex_clamps (index + 1) ks)
      as [[E _] | (d & _ & _ & Hd & E)].
    { rewrite E in Hb. cbn in Hb. lia. }
    cbv zeta in Hd, E.
    replace (Z.max 0 (Z.min (index + 1)
                        (Z.of_nat (length (_diagnostics ks)) - 1)))
      with (Z.min (index + 1) (Z.of_nat (length (_diagnostics ks)) - 1))
      in Hd, E by lia.
    now exists d.
  - destruct (setIndex_clamps (index - 1) ks)
      as [[E _] | (d & _ & _ & Hd & E)].
    { rewrite E in Hb. cbn in Hb. lia. }
    cbv zeta in Hd, E.
    replace (Z.max 0 (Z.min (index - 1)
                        (Z.of_nat (length (_diagnostics ks)) - 1)))
      with (Z.max (index - 1) 0) in Hd, E by lia.
    now exists d.
Qed.

(** With no diagnostic selected, next goes to the first diagnostic and
    previous to the last; with no diagnostics at all the four commands go
    nowhere and leave the index null. *)
Theorem navigation_starts_at_an_end (ks : t) :
  _index ks = None ->
  (forall first_ rest,
     _diagnostics ks = first_ :: rest ->
     next ks = inr (mk (_diagnostics ks) (Some 0) None, [locationOf first_])
     /\ exists last_,
          at_index (_diagnostics ks)
            (Z.of_nat (length (_diagnostics ks)) - 1) = Some last_
          /\ previous ks =
             inr (mk (_diagnostics ks)
                    (Some (Z.of_nat (length (_diagnostics ks)) - 1)) None,
                  [locationOf last_]))
  /\ (_diagnostics ks = [] ->
      next ks = inr (mk [] None None, [])
      /\ previous ks = inr (mk [] None None, [])
      /\ first ks = inr (mk [] None None, [])
      /\ last ks = inr (mk [] None None, [])).
Proof.
  intros Hi. unfold next, previous. rewrite Hi. split.
  - intros d ds E. split.
    + unfold first.
      destruct (setIndex_clamps 0 ks) as [[F _] | (d' & _ & _ & Hd & E')];
        [congruence|].
      cbv zeta in Hd, E'.
      replace (Z.max 0 (Z.min 0 (Z.of_nat (length (_diagnostics ks)) - 1)))
        with 0 in Hd, E' by (rewrite E; cbn [length]; lia).
      rewrite E in Hd. cbn in Hd. injection Hd as <-. exact E'.
    + unfold last.
      destruct (setIndex_clamps (Z.of_nat (length (_diagnostics ks)) - 1) ks)
        as [[F _] | (d' & _ & _ & Hd & E')]; [congruence|].
      cbv zeta in Hd, E'.
      replace (Z.max 0 (Z.min (Z.of_nat (length (_diagnostics ks)) - 1)
                          (Z.of_nat (length (_diagnostics ks)) - 1)))
        with (Z.of_nat (length (_diagnostics ks)) - 1) in Hd, E'
        by (rewrite E; cbn [length]; lia).
      now exists d'.
  - intros E. unfold first, last.
    destruct (setIndex_clamps 0 ks) as [[_ E0] | (d' & N & _)];
      [|congruence].
    destruct (setIndex_clamps (Z.of_nat (length (_diagnostics ks)) - 1) ks)
      as [[_ E1] | (d' & N & _)]; [|congruence].
    rewrite E0, E1. repeat split; reflexivity.
Qed.


End DiagnosticsFacts.

(** ** The further properties at concrete inputs *)

Section Witnesses.
Import Examples Scenarios.
Import Diagnostics Diagnostics.KeyboardShortcuts DiagnosticsVocabulary.

Lemma race_result_is_first_resolved_witness :
  invokeAt providerLow = Resolved (Some tipA)
  /\ exists before after,
       [providerLow; providerHigh] = before ++ providerLow :: after
       /\ forall earlier, In earlier before ->
            resolvesTo invokeAt earlier = None.
Proof.
  apply (race_result_is_first_resolved [providerLow; providerHigh]
           theEditor (mkPoint 0 2) invokeAt providerLow tipA).
  vm_compute. reflexivity.
Defined.

Lemma race_invokes_every_provider_once_witness :
  List.filter is_invoke
    (snd (getTopDatatipAndProvider [providerOff; providerLow] theEditor
            (mkPoint 0 2) invokeAt))
  = map (fun provider => Invoke (fst (getProviderName provider)))
      [providerOff; providerLow].
Proof.
  apply (race_invokes_every_provider_once [providerOff; providerLow]
           theEditor (mkPoint 0 2) invokeAt).
  vm_compute. discriminate.
Defined.

Lemma overlay_parts_agree_witness :
  overlay (session (Examples.run show (initial env0 [providerLow] [])))
  = (None, None, mkElement DisplayUnset None)
  \/ overlay (session (Examples.run show (initial env0 [providerLow] [])))
     = unmounted
  \/ exists r content,
       overlay (session (Examples.run show (initial env0 [providerLow] [])))
       = mounted r content.
Proof.
  apply (overlay_parts_agree
           (Examples.run show (initial env0 [providerLow] []))).
  apply run_reachable, reachable_initial.
Defined.

Lemma mousemove_burst_leaves_one_pending_fetch_witness :
  _lastMoveEvent
    (mousemoves ([(env0, mouseAt 1)] ++ [(env0, mouseAt 2)])
       (new_DatatipManagerForEditor env0 [providerLow] [])) = Some (mouseAt 2).
Proof.
  destruct (mousemove_burst_leaves_one_pending_fetch [(env0, mouseAt 1)]
              env0 (mouseAt 2)
              (new_DatatipManagerForEditor env0 [providerLow] []))
    as (_ & H & _).
  - vm_compute. reflexivity.
  - vm_compute. reflexivity.
  - exact H.
Defined.

Lemma hover_beside_the_text_starts_no_fetch_witness :
  snd (fst (startFetchingDebounce_fires env0 pointerLeftOfText)) = None.
Proof.
  destruct (hover_beside_the_text_starts_no_fetch env0 pointerLeftOfText
              (mouseAt (-3)) text) as (_ & _ & H & _).
  - vm_compute. reflexivity.
  - vm_compute. reflexivity.
  - left. vm_compute. reflexivity.
  - exact H.
Defined.

(** Fifty wheel events of 0.4 over a fresh tooltip: the total is the double
    just below 20 the rounded sums arrive at, and the tooltip does not
    count as interacted with; a gesture of 15 and then -10 does. *)
Example wheel_totals_are_doubles :
  wheelTotal SFzero (replicate 50 SF0_4)
  = S754_finite false 5629499534213118 (-48)
  /\ _interactedWith (wheels (replicate 50 SF0_4) visibleSession) = false
  /\ _cumulativeWheelX (wheels [SF15; SFminus10] visibleSession)
     = S754_finite false 7036874417766400 (-48)
  /\ _interactedWith (wheels [SF15; SFminus10] visibleSession) = true.
Proof. repeat split; vm_compute; reflexivity. Qed.

Lemma leaving_the_range_hides_now_or_debounced_witness :
  _datatipState (_hideIfOutside env0 pointerAway) = HIDDEN.
Proof.
  destruct (leaving_the_range_hides_now_or_debounced env0 pointerAway range05)
    as (H & _).
  - vm_compute. reflexivity.
  - vm_compute. reflexivity.
  - vm_compute. reflexivity.
  - intros position Hp. vm_compute in Hp. injection Hp as <-.
    vm_compute. reflexivity.
  - apply H. vm_compute. reflexivity.
Defined.

Lemma tooltip_stays_exactly_when_pointed_at_witness :
  _datatipState (_hideIfOutsideImmediate env0 pointerAway) = VISIBLE <->
  _insideDatatip pointerAway = true
  \/ (_isHoveringOverPinnedTip env0 pointerAway = false
      /\ exists position r,
           getBufferPosition (editor env0) (_lastMoveEvent pointerAway)
           = Some position
           /\ _range pointerAway = Some r
           /\ containsPoint r position = true).
Proof.
  destruct (tooltip_stays_exactly_when_pointed_at env0 pointerAway)
    as (H & _).
  - vm_compute. reflexivity.
  - exact H.
Defined.


Lemma cancelled_fetch_is_suppressed_witness :
  _datatipState
    (startFetching_withData env0 LastMoveEventPosition (Some dataA)
       (_hideOrCancel env0 fetchingSession)) = HIDDEN.
Proof.
  destruct (cancelled_fetch_is_suppressed env0 env0 LastMoveEventPosition
              dataA fetchingSession (mkPoint 0 2) range05)
    as (_ & _ & H & _).
  - vm_compute. reflexivity.
  - vm_compute. reflexivity.
  - reflexivity.
  - vm_compute. reflexivity.
  - exact H.
Defined.

Lemma fetched_datatip_is_mounted_witness :
  _datatipState
    (startFetching_withData env0 CursorScreenPosition (Some dataA)
       fetchingSession) = VISIBLE.
Proof.
  destruct (fetched_datatip_is_mounted env0 CursorScreenPosition dataA
              fetchingSession (mkPoint 0 2) range05) as (H & _).
  - vm_compute. reflexivity.
  - reflexivity.
  - intros blacklisted Hb. vm_compute in Hb. discriminate Hb.
  - vm_compute. reflexivity.
  - vm_compute. reflexivity.
  - vm_compute. reflexivity.
  - exact H.
Defined.

Lemma tooltip_shows_every_result_at_the_first_range_witness :
  exists content,
    fst (fetchAndRender_resume env0 [(Plain providerLow, tipA)])
    = Resolved (Some (mkFetchData (Some range05) content))
    /\ map fst content = map snd [(Plain providerLow, tipA)]
    /\ map snd content
       = map (fun dp => fst (getProviderName (fst dp)))
           [(Plain providerLow, tipA)].
Proof.
  apply (tooltip_shows_every_result_at_the_first_range env0
           [(Plain providerLow, tipA)] (Plain providerLow) tipA [] range05);
    reflexivity.
Defined.

Lemma shortcutsUpdated_reachable : reachable shortcutsUpdated.
Proof.
  apply (reachable_run (MessageUpdate someMessages) KeyboardShortcuts.new
           shortcutsUpdated []); [apply reachable_new | reflexivity].
Qed.

(** The manager of [oneEditor] after a second provider is registered: the
    session of editor 7 reads both providers. *)
Lemma manager_tracks_open_editors_witness :
  shares_arrays oneEditor
  /\ shares_arrays (DatatipManager.addProvider providerHigh oneEditor)
  /\ DatatipManager._editorManagers
       (DatatipManager.addProvider providerHigh oneEditor) !! 7%positive
     = Some (set_datatipProviders [providerLow; providerHigh]
               (new_DatatipManagerForEditor env0 [providerLow] [])).
Proof.
  destruct (manager_tracks_open_editors env0 7%positive 7%positive 1%positive
              tipA DatatipManager.new)
    as (_ & _ & _ & _ & _ & _ & _ & Hnew & Hkeep).
  destruct (Hkeep Hnew) as (_ & _ & _ & Hadd & _).
  destruct (manager_tracks_open_editors env0 7%positive 7%positive 1%positive
              tipA (DatatipManager.addProvider providerLow DatatipManager.new))
    as (_ & _ & _ & _ & _ & _ & _ & _ & Hkeep1).
  destruct (Hkeep1 (Hadd providerLow)) as (Hone & _).
  destruct (manager_tracks_open_editors env0 7%positive 7%positive 1%positive
              tipA oneEditor)
    as (_ & _ & _ & _ & _ & Hpush & _ & _ & Hkeep2).
  destruct (Hkeep2 Hone) as (_ & _ & _ & Hadd2 & _).
  destruct (Hpush providerHigh) as (_ & _ & Hsessions).
  split; [exact Hone|]. split; [apply Hadd2|].
  rewrite Hsessions. vm_compute. reflexivity.
Defined.

Lemma session_never_writes_the_shared_arrays_witness :
  arrays (session (Examples.run show (initial env0 [providerLow] [])))
  = arrays (session (handle env0 (Toggle None)
                       (initial env0 [providerLow] []))).
Proof.
  apply (session_never_writes_the_shared_arrays env0 (FetchSettles 0)
           (handle env0 (Toggle None) (initial env0 [providerLow] []))).
  reflexivity.
Defined.

Lemma shortcut_indices_stay_in_bounds_witness :
  in_bounds shortcutsUpdated
  /\ Forall (fun d => msg_scope d = ScopeFile) (_diagnostics shortcutsUpdated).
Proof.
  apply (shortcut_indices_stay_in_bounds shortcutsUpdated).
  apply shortcutsUpdated_reachable.
Defined.

Lemma shortcuts_never_throw_witness :
  exists ks' actions,
    KeyboardShortcuts.run GoToNextTrace shortcutsUpdated
    = Some (inr (ks', actions)).
Proof.
  apply (shortcuts_never_throw shortcutsUpdated GoToNextTrace).
  apply shortcutsUpdated_reachable.
Defined.

Lemma next_and_previous_stop_at_the_ends_witness :
  exists diagnostic,
    at_index (_diagnostics shortcutsAtLast)
      (Z.min (1 + 1) (Z.of_nat (length (_diagnostics shortcutsAtLast)) - 1))
    = Some diagnostic
    /\ next shortcutsAtLast =
       inr (KeyboardShortcuts.mk (_diagnostics shortcutsAtLast)
              (Some (Z.min (1 + 1)
                       (Z.of_nat (length (_diagnostics shortcutsAtLast)) - 1)))
              None,
            [locationOf diagnostic]).
Proof.
  destruct (next_and_previous_stop_at_the_ends shortcutsAtLast 1)
    as (H & _).
  - reflexivity.
  - vm_compute. split; [discriminate | reflexivity].
  - exact H.
Defined.

Lemma navigation_starts_at_an_end_witness :
  next shortcutsUpdated
  = inr (KeyboardShortcuts.mk (_diagnostics shortcutsUpdated) (Some 0) None,
         [locationOf messageAt3]).
Proof.
  destruct (navigation_starts_at_an_end shortcutsUpdated) as (H & _).
  - reflexivity.
  - destruct (H messageAt3 [messageAt1]) as (Hn & _).
    + vm_compute. reflexivity.
    + exact Hn.
Defined.


End Witnesses.

Section EndToEnd.
Import Diagnostics.

(** The two packages together: over a fresh session whose only provider is
    the diagnostics provider, a fetch at the cursor ends with the tooltip of
    the first message under the cursor mounted over that message's range. *)
Theorem diagnostics_tooltip_is_shown_at_the_cursor
    (env : Env) (_fileDiagnostics : Editor -> option (list DiagnosticMessage))
    (tip : Datatip) :
  _datatip (_fileDiagnostics (editor env))
    (getCursorScreenPosition (editor env)) = Some tip ->
  exists fetching pf r,
    fst (startFetching_begin env CursorScreenPosition
           (new_DatatipManagerForEditor env
              [datatipProvider _fileDiagnostics] []))
    = (fetching, Some pf)
    /\ _datatipState fetching = FETCHING
    /\ range tip = Some r
    /\ _datatipState (fst (startFetching_resume env pf fetching)) = VISIBLE
    /\ overlay (fst (startFetching_resume env pf fetching))
       = mounted r [(tip, "nuclide-diagnostics-datatip")].
Proof.
  intros Ht.
  destruct (_fileDiagnostics (editor env)) as [messages|] eqn:Ef;
    [|discriminate Ht].
  pose proof (datatip_at_position messages
                (getCursorScreenPosition (editor env))) as Hd.
  rewrite Ht in Hd.
  destruct Hd as (_ & before & message & after & r & _ & _ & Hc & Hr & _).
  unfold startFetching_begin. cbn [evalGetPosition].
  unfold fetchAndRender_begin, bind, ret.
  change (_datatipProviders (_setState env FETCHING _))
    with [datatipProvider _fileDiagnostics].
  change (_modifierDatatipProviders (_setState env FETCHING _))
    with (@nil ModifierDatatipProvider).
  unfold getTopDatatipAndProvider at 2. cbn [filterProvidersByScopeName].
  unfold getTopDatatipAndProvider. cbn. rewrite Ef, Ht. cbn.
  eexists _, _, r. split; [reflexivity|]. split; [reflexivity|].
  split; [exact Hr|].
  unfold startFetching_resume, fetchAndRender_resume, bind, ret, tell.
  cbn. rewrite Hr. cbn.
  unfold startFetching_withData. cbn. rewrite Hc. cbn.
  split; reflexivity.
Qed.

Lemma diagnostics_tooltip_is_shown_at_the_cursor_witness :
  exists fetching pf r,
    fst (startFetching_begin Scenarios.diagnosticsEnv CursorScreenPosition
           (new_DatatipManagerForEditor Scenarios.diagnosticsEnv
              [datatipProvider Scenarios.diagnosticsOf] []))
    = (fetching, Some pf)
    /\ _datatipState fetching = FETCHING
    /\ range (mkDatatip "missing semicolon" (Some Examples.range05)
                (Some false)) = Some r
    /\ _datatipState
         (fst (startFetching_resume Scenarios.diagnosticsEnv pf fetching))
       = VISIBLE
    /\ overlay
         (fst (startFetching_resume Scenarios.diagnosticsEnv pf fetching))
       = mounted r
           [(mkDatatip "missing semicolon" (Some Examples.range05)
               (Some false),
             "nuclide-diagnostics-datatip")].
Proof.
  apply (diagnostics_tooltip_is_shown_at_the_cursor Scenarios.diagnosticsEnv
           Scenarios.diagnosticsOf); reflexivity.
Defined.

End EndToEnd.
